(** * Drone flight plans: site model and arc trajectories

    A shallow embedding of [data_containers.py] (the value types, [Site] and
    [DroneTrajectory]) and of [traj_planner.py] ([TrajectoryPlanner]).

    Modelling choices.
    - A Python [float] is an ideal real number ([R]): rounding, overflow and
      NaN are outside the model.  The source itself only adds, subtracts,
      negates and halves floats; everything else is done by [numpy] and
      [pymap3d].
    - A raised exception is a value [Raise e] of the [result] type.  Methods
      that mutate the [Site] return the final store next to the result, so
      the store reached by a call that raises is part of the model.
    - [pymap3d] is not part of the repository: its six conversions are the
      fields of the class [Pymap3d], each of which may raise.  An array
      argument is handled element by element, as numpy broadcasting does.
    - The [numpy] routines the source calls ([linspace], [mean], [zeros] with
      column assignment, [column_stack]) are written out in [Module np]. *)

From Stdlib Require Import Reals Lra List String DecimalString ZArith Lia.
Import ListNotations.
Local Open Scope string_scope.
Local Open Scope Z_scope.
Local Open Scope R_scope.

(** ** Exceptions and results *)

Inductive exn : Type :=
| ValueError (msg : string)
| TypeError (msg : string)
| AttributeError (msg : string).

Inductive result (A : Type) : Type :=
| Ok (a : A)
| Raise (e : exn).

Arguments Ok {A} a.
Arguments Raise {A} e.

Definition bind {A B : Type} (c : result A) (k : A -> result B) : result B :=
  match c with
  | Ok a => k a
  | Raise e => Raise e
  end.

Notation "x <- c ;; k" := (bind c (fun x => k))
  (at level 61, c at next level, right associativity).
Notation "' pat <- c ;; k" := (bind c (fun x => match x with pat => k end))
  (at level 61, pat pattern, c at next level, right associativity).

Definition is_ok {A : Type} (c : result A) : bool :=
  match c with
  | Ok _ => true
  | Raise _ => false
  end.

(** A vectorised call: the scalar routine on every element, in order; the
    first element that raises decides the exception. *)
Fixpoint mapM {A B : Type} (f : A -> result B) (l : list A) : result (list B) :=
  match l with
  | [] => Ok []
  | x :: xs => y <- f x ;; ys <- mapM f xs ;; Ok (y :: ys)
  end.

(** A triple of floats: a row of an (N,3) array, or the tuple a conversion
    returns. *)
Abbreviation vec3 := (R * R * R)%type (only parsing).

Definition c0 (v : vec3) : R := fst (fst v).
Definition c1 (v : vec3) : R := snd (fst v).
Definition c2 (v : vec3) : R := snd v.

(** [str(num)] of a Python int. *)
Definition str (num : Z) : string := NilZero.string_of_int (Z.to_int num).

(** ** Further exceptions *)

(** Indexing and the exporters also raise [IndexError], [KeyError] and
    [RuntimeError], and opening a file that is not there raises
    [FileNotFoundError]. *)
Inductive error : Type :=
| Builtin (e : exn)
| IndexError (msg : string)
| KeyError (key : string)
| RuntimeError (msg : string)
| FileNotFoundError (msg : string).

Inductive outcome (A : Type) : Type :=
| Return (a : A)
| Throw (e : error).

Arguments Return {A} a.
Arguments Throw {A} e.

Definition obind {A B : Type} (c : outcome A) (k : A -> outcome B)
  : outcome B :=
  match c with
  | Return a => k a
  | Throw e => Throw e
  end.

Notation "x <~ c ;; k" := (obind c (fun x => k))
  (at level 61, c at next level, right associativity).

(** ** numpy *)

Module np.

(** [np.arange(0, num)] as floats. *)
Fixpoint arange_from (start : Z) (num : nat) : list R :=
  match num with
  | O => []
  | S k => IZR start :: arange_from (start + 1) k
  end.

Definition arange (num : Z) : list R := arange_from 0 (Z.to_nat num).

(** [y[-1] = v] on a non-empty array. *)
Definition set_last (y : list R) (v : R) : list R := removelast y ++ [v].

(** [np.linspace(start, stop, num)] with the default [endpoint=True]:
    a negative [num] is a [ValueError]; otherwise the samples are
    [arange(0, num) * step + start] with [step = (stop - start) / (num - 1)],
    the last one overwritten by [stop] when [num > 1]; for [num <= 1] there
    is no step and the samples are [arange(0, num) * (stop - start) + start].
    (numpy's separate path for a step that underflows to zero gives the same
    numbers on reals.) *)
Definition linspace (start stop : R) (num : Z) : result (list R) :=
  if (num <? 0)%Z then
    Raise (ValueError
             ("Number of samples, " ++ str num ++ ", must be non-negative."))
  else
    let div := (num - 1)%Z in
    let delta := stop - start in
    let y := arange num in
    let y := if (0 <? div)%Z
             then map (fun i => i * (delta / IZR div)) y
             else map (fun i => i * delta) y in
    let y := map (fun v => v + start) y in
    Ok (if (1 <? num)%Z then set_last y stop else y).

(** The constituent columns of an (N,3) array: [a[:,0]], [a[:,1]], [a[:,2]]. *)
Definition col0 (a : list vec3) : list R := map c0 a.
Definition col1 (a : list vec3) : list R := map c1 a.
Definition col2 (a : list vec3) : list R := map c2 a.

(** [np.column_stack([a, b, c])] of three equally long 1-d arrays; also the
    result of filling the three columns of [np.zeros((N, 3))]. *)
Fixpoint column_stack (a b c : list R) : list vec3 :=
  match a, b, c with
  | x :: a', y :: b', z :: c' => (x, y, z) :: column_stack a' b' c'
  | _, _, _ => []
  end.

(** [a.sum(axis=0)]: the rows added up from the zero row. *)
Definition sum_axis0 (a : list vec3) : vec3 :=
  fold_left (fun acc row => (c0 acc + c0 row, c1 acc + c1 row, c2 acc + c2 row))
            a (0, 0, 0).

(** [a.mean(axis=0)] of an (N,3) array: the column sums over the number of
    rows.  (For [N = 0] numpy answers NaN with a warning; the model's value
    there carries no meaning.) *)
Definition mean_axis0 (a : list vec3) : vec3 :=
  let s := sum_axis0 a in
  let cnt := INR (List.length a) in
  (c0 s / cnt, c1 s / cnt, c2 s / cnt).

(** A float array of any dimension: its shape and its elements in row-major
    order.  [ndim] is [a.ndim]. *)
Record ndarray : Type := mk_ndarray { shape : list nat; data : list R }.

Definition ndim (a : ndarray) : nat := List.length (shape a).

(** The rows of an (N,3) array, and the (N,3) array with given rows. *)
Fixpoint rows3 (l : list R) : list vec3 :=
  match l with
  | x :: y :: z :: rest => (x, y, z) :: rows3 rest
  | _ => []
  end.

Fixpoint flat3 (rows : list vec3) : list R :=
  match rows with
  | [] => []
  | (x, y, z) :: rest => x :: y :: z :: flat3 rest
  end.

Definition rows (a : ndarray) : list vec3 := rows3 (data a).

Definition of_rows (r : list vec3) : ndarray :=
  mk_ndarray [List.length r; 3%nat] (flat3 r).

End np.

(** ** pymap3d *)

(** The conversions the source calls, in degrees and metres, on scalars.
    Argument order follows the calls in the source:
    [aer2enu az el srange], [enu2aer e n u],
    [geodetic2enu lat lon h lat0 lon0 h0], [enu2geodetic e n u lat0 lon0 h0],
    [geodetic2ecef lat lon alt], [ecef2geodetic x y z]. *)
Class Pymap3d : Type := {
  aer2enu : R -> R -> R -> result vec3;
  enu2aer : R -> R -> R -> result vec3;
  geodetic2enu : R -> R -> R -> R -> R -> R -> result vec3;
  enu2geodetic : R -> R -> R -> R -> R -> R -> result vec3;
  geodetic2ecef : R -> R -> R -> result vec3;
  ecef2geodetic : R -> R -> R -> result vec3
}.

(** The unzipped form in which pymap3d returns a batch: three arrays. *)
Definition unstack (rows : list vec3) : list R * list R * list R :=
  (np.col0 rows, np.col1 rows, np.col2 rows).

(** pymap3d called with arrays: [aer2enu] with an array of elevations (scalar
    azimuth and range), the two ENU conversions with three equally long
    arrays.  Each returns three arrays.  Every check of the library is made
    per element here, so on an empty array none is made; the statements below
    about empty arrays assume that the conversions accept the scalar
    arguments. *)
Definition aer2enu_v {pm : Pymap3d} (az : R) (el : list R) (srange : R)
  : result (list R * list R * list R) :=
  rows <- mapM (fun x => aer2enu az x srange) el ;;
  Ok (unstack rows).

Definition enu2aer_v {pm : Pymap3d} (e n u : list R)
  : result (list R * list R * list R) :=
  rows <- mapM (fun p => enu2aer (c0 p) (c1 p) (c2 p)) (np.column_stack e n u) ;;
  Ok (unstack rows).

Definition enu2geodetic_v {pm : Pymap3d} (e n u : list R) (lat0 lon0 h0 : R)
  : result (list R * list R * list R) :=
  rows <- mapM (fun p => enu2geodetic (c0 p) (c1 p) (c2 p) lat0 lon0 h0)
               (np.column_stack e n u) ;;
  Ok (unstack rows).

Definition geodetic2enu_v {pm : Pymap3d} (lat lon h : list R) (lat0 lon0 h0 : R)
  : result (list R * list R * list R) :=
  rows <- mapM (fun p => geodetic2enu (c0 p) (c1 p) (c2 p) lat0 lon0 h0)
               (np.column_stack lat lon h) ;;
  Ok (unstack rows).

(** ** data_containers.py: the value types *)

Module Geodetic.

Record t : Type := mk { lat : R; lon : R; alt : R }.

(** Reading a data attribute of a [Geodetic] by name ([self.lat] and the
    like): the dataclass has the three fields [lat], [lon], [alt]; a name
    that is none of them, and neither its method [as_array] nor one of
    Python's special attributes (which are not floats and are not looked up
    here), is an [AttributeError]. *)
Definition getattr (self : t) (name : string) : result R :=
  if String.eqb name "lat" then Ok (lat self)
  else if String.eqb name "lon" then Ok (lon self)
  else if String.eqb name "alt" then Ok (alt self)
  else Raise (AttributeError
                ("'Geodetic' object has no attribute '" ++ name ++ "'")).

(** [np.array([self.e, self.n, self.u])] *)
Definition as_array (self : t) : result (list R) :=
  e <- getattr self "e" ;;
  n <- getattr self "n" ;;
  u <- getattr self "u" ;;
  Ok [e; n; u].

End Geodetic.

Module ECEF.

Record t : Type := mk { x : R; y : R; z : R }.

End ECEF.

Module ENU.

Record t : Type := mk { e : R; n : R; u : R }.

Definition sub (self other : t) : t :=
  mk (e self - e other) (n self - n other) (u self - u other).

Definition add (self other : t) : t :=
  mk (e self + e other) (n self + n other) (u self + u other).

Definition as_array (self : t) : list R := [e self; n self; u self].

End ENU.

Module Telescope.

Record t : Type := mk {
  name : string;
  geodetic : Geodetic.t;
  focalplane_height : R;
  ecef : option ECEF.t;
  enu : option ENU.t
}.

(** The assignment [t.enu = v]. *)
Definition set_enu (self : t) (v : ENU.t) : t :=
  mk (name self) (geodetic self) (focalplane_height self) (ecef self) (Some v).

End Telescope.

(** ** data_containers.py: Site *)

Module Site.

(** [telescopes] is a Python dict: its entries in insertion order, which is
    the order in which [values()] is iterated. *)
Record t : Type := mk {
  telescopes : list (string * Telescope.t);
  origin : option Geodetic.t;
  landing_site : option Geodetic.t
}.

(** The assignments [self.origin = g] and (entry by entry) [t.enu = ...]. *)
Definition set_origin_field (self : t) (g : option Geodetic.t) : t :=
  mk (telescopes self) g (landing_site self).

Definition set_telescopes (self : t) (ts : list (string * Telescope.t)) : t :=
  mk ts (origin self) (landing_site self).

(** [self.telescopes[name]], [None] standing for a missing key. *)
Fixpoint lookup (name : string) (ts : list (string * Telescope.t))
  : option Telescope.t :=
  match ts with
  | [] => None
  | (k, tel) :: rest => if String.eqb k name then Some tel else lookup name rest
  end.

(** The ways [observe_points] is told which telescope observes: a name, a
    [Telescope], an [ENU] position or a [Geodetic] position. *)
Inductive telescope_ref : Type :=
| ByName (name : string)
| ByTelescope (tel : Telescope.t)
| ByENU (p : ENU.t)
| ByGeodetic (g : Geodetic.t).

Section Methods.
Context {pm : Pymap3d}.

(** The loop of [_update_all_enu]: the telescopes are refreshed one after the
    other; when a conversion raises, the telescopes already visited keep the
    new [enu] and the others keep what they had. *)
Fixpoint update_loop (o : Geodetic.t) (ts : list (string * Telescope.t))
  : result unit * list (string * Telescope.t) :=
  match ts with
  | [] => (Ok tt, [])
  | (k, tel) :: rest =>
      match geodetic2enu (Geodetic.lat (Telescope.geodetic tel))
                         (Geodetic.lon (Telescope.geodetic tel))
                         (Geodetic.alt (Telescope.geodetic tel)
                          + Telescope.focalplane_height tel)
                         (Geodetic.lat o) (Geodetic.lon o) (Geodetic.alt o) with
      | Raise ex => (Raise ex, (k, tel) :: rest)
      | Ok (e, n, u) =>
          let '(r, rest') := update_loop o rest in
          (r, (k, Telescope.set_enu tel (ENU.mk e n u)) :: rest')
      end
  end.

Definition _update_all_enu (self : t) : result unit * t :=
  match origin self with
  | None =>
      (Raise (ValueError "Origin must be set before computing ENU coordinates."),
       self)
  | Some o =>
      let '(r, ts) := update_loop o (telescopes self) in
      (r, set_telescopes self ts)
  end.

Definition compute_barycenter (self : t) : result Geodetic.t :=
  match telescopes self with
  | [] => Raise (ValueError "No telescopes defined in the site.")
  | _ :: _ =>
      ecef_coords <-
        mapM (fun kt : string * Telescope.t =>
                let tel := snd kt in
                geodetic2ecef (Geodetic.lat (Telescope.geodetic tel))
                              (Geodetic.lon (Telescope.geodetic tel))
                              (Geodetic.alt (Telescope.geodetic tel)
                               + Telescope.focalplane_height tel))
             (telescopes self) ;;
      let '(Xc, Yc, Zc) := np.mean_axis0 ecef_coords in
      '(lat, lon, alt) <- ecef2geodetic Xc Yc Zc ;;
      Ok (Geodetic.mk lat lon alt)
  end.

(** [set_origin]: the store it returns is the site as the call leaves it,
    whether it returns or raises.  (The [UserWarning] issued when no origin is
    given is not part of the site and is left out.) *)
Definition set_origin (geodetic : option Geodetic.t) (self : t)
  : result unit * t :=
  match geodetic with
  | None =>
      match compute_barycenter self with
      | Raise ex => (Raise ex, self)
      | Ok g => _update_all_enu (set_origin_field self (Some g))
      end
  | Some g => _update_all_enu (set_origin_field self (Some g))
  end.

(** [geodetic_to_enu] and [enu_to_geodetic] on a single object. *)
Definition geodetic_to_enu (self : t) (geo : Geodetic.t) : result ENU.t :=
  match origin self with
  | None => Raise (ValueError "Origin must be set before converting to ENU.")
  | Some o =>
      '(e, n, u) <- geodetic2enu (Geodetic.lat geo) (Geodetic.lon geo)
                                 (Geodetic.alt geo)
                                 (Geodetic.lat o) (Geodetic.lon o)
                                 (Geodetic.alt o) ;;
      Ok (ENU.mk e n u)
  end.

(** [geodetic_to_enu] on a NumPy array: only an (N,3) array of
    (lat, lon, alt) rows is accepted. *)
Definition geodetic_to_enu_ndarray (self : t) (geo : np.ndarray)
  : result np.ndarray :=
  match origin self with
  | None => Raise (ValueError "Origin must be set before converting to ENU.")
  | Some o =>
      if negb (np.ndim geo =? 2)%nat then
        Raise (ValueError
                 "NumPy input must have shape (N,3) as (lat, lon, alt).")
      else if negb (nth 1 (np.shape geo) 0 =? 3)%nat then
        Raise (ValueError
                 "NumPy input must have shape (N,3) as (lat, lon, alt).")
      else
        '(e, n, u) <- geodetic2enu_v (np.col0 (np.rows geo))
                                     (np.col1 (np.rows geo))
                                     (np.col2 (np.rows geo))
                                     (Geodetic.lat o) (Geodetic.lon o)
                                     (Geodetic.alt o) ;;
        Ok (np.of_rows (np.column_stack e n u))
  end.

Definition enu_to_geodetic (self : t) (enu : ENU.t) : result Geodetic.t :=
  match origin self with
  | None =>
      Raise (ValueError "Origin must be set before converting to Geodetic.")
  | Some o =>
      '(lat, lon, alt) <- enu2geodetic (ENU.e enu) (ENU.n enu) (ENU.u enu)
                                       (Geodetic.lat o) (Geodetic.lon o)
                                       (Geodetic.alt o) ;;
      Ok (Geodetic.mk lat lon alt)
  end.

(** A [result] among the outcomes. *)
Definition lift {A : Type} (c : result A) : outcome A :=
  match c with
  | Ok a => Return a
  | Raise e => Throw (Builtin e)
  end.

(** [enu_to_geodetic] on a NumPy array.  The second branch is entered for
    [enu.ndim == 0 and enu.shape[0] == 3]: the shape of an array without
    dimensions is the empty tuple, which [shape[0]] indexes; in the branch
    [enu[0]] indexes the array without dimensions itself. *)
Definition enu_to_geodetic_ndarray (self : t) (enu : np.ndarray)
  : outcome np.ndarray :=
  match origin self with
  | None =>
      Throw (Builtin (ValueError
                        "Origin must be set before converting to Geodetic."))
  | Some o =>
      if ((np.ndim enu =? 2)%nat && (nth 1 (np.shape enu) 0 =? 3)%nat)%bool
      then
        lift ('(lat, lon, alt) <- enu2geodetic_v (np.col0 (np.rows enu))
                                                 (np.col1 (np.rows enu))
                                                 (np.col2 (np.rows enu))
                                                 (Geodetic.lat o)
                                                 (Geodetic.lon o)
                                                 (Geodetic.alt o) ;;
              Ok (np.of_rows (np.column_stack lat lon alt)))
      else
        single <~
          (if (np.ndim enu =? 0)%nat
           then match nth_error (np.shape enu) 0 with
                | None => Throw (IndexError "tuple index out of range")
                | Some s0 => Return (s0 =? 3)%nat
                end
           else Return false) ;;
        if single : bool
        then Throw (IndexError
                      "too many indices for array: array is 0-dimensional, but 1 were indexed")
        else Throw (Builtin (ValueError
                               "NumPy input must have shape (N,3) as (e, n, u)."))
  end.

(** [observe_points(points, telescope)] for [points] a NumPy array. *)
Definition observe_points (self : t) (points_geodetic : np.ndarray)
  (telescope : telescope_ref) : result np.ndarray :=
  tel_enu <-
    match telescope with
    | ByName name =>
        match lookup name (telescopes self) with
        | None =>
            Raise (ValueError ("Telescope '" ++ name ++ "' not found."))
        | Some tel =>
            match Telescope.enu tel with
            | None =>
                Raise (ValueError
                         "Telescope ENU positions are not computed. Call site.set_origin().")
            | Some p => Ok p
            end
        end
    | ByTelescope tel =>
        match Telescope.enu tel with
        | None =>
            Raise (ValueError
                     "Telescope ENU not defined. Call site.set_origin().")
        | Some p => Ok p
        end
    | ByENU p => Ok p
    | ByGeodetic g => geodetic_to_enu self g
    end ;;
  points_enu <- geodetic_to_enu_ndarray self points_geodetic ;;
  let dENU :=
    map (fun r => (c0 r - ENU.e tel_enu, c1 r - ENU.n tel_enu,
                   c2 r - ENU.u tel_enu))
        (np.rows points_enu) in
  '(az, el, srange) <- enu2aer_v (np.col0 dENU) (np.col1 dENU) (np.col2 dENU) ;;
  Ok (np.of_rows (np.column_stack az el srange)).

End Methods.

End Site.

(** ** data_containers.py: DroneTrajectory *)

Module DroneTrajectory.

Record t : Type := mk {
  enu : list vec3;
  yaw : list R;
  pitch : list R;
  npoints : Z;
  arccenter : option ENU.t;
  geodetic : option (list vec3);
  poi : option Geodetic.t;
  landing_site : option Geodetic.t;
  curveradius : option R;
  plot_boresight : bool
}.

Definition E (self : t) : list R := np.col0 (enu self).
Definition N (self : t) : list R := np.col1 (enu self).
Definition U (self : t) : list R := np.col2 (enu self).

(** The properties [LAT], [LON], [ALT]: the columns of [geodetic], which
    must have been computed. *)
Definition LAT (self : t) : result (list R) :=
  match geodetic self with
  | None =>
      Raise (ValueError
               "Geodetic coordinates not computed yet. Call compute_geodetic(site) first.")
  | Some g => Ok (np.col0 g)
  end.

Definition LON (self : t) : result (list R) :=
  match geodetic self with
  | None =>
      Raise (ValueError
               "Geodetic coordinates not computed yet. Call compute_geodetic(site) first.")
  | Some g => Ok (np.col1 g)
  end.

Definition ALT (self : t) : result (list R) :=
  match geodetic self with
  | None =>
      Raise (ValueError
               "Geodetic coordinates not computed yet. Call compute_geodetic(site) first.")
  | Some g => Ok (np.col2 g)
  end.

Definition set_geodetic (self : t) (g : list vec3) : t :=
  mk (enu self) (yaw self) (pitch self) (npoints self) (arccenter self)
     (Some g) (poi self) (landing_site self) (curveradius self)
     (plot_boresight self).

Definition set_landing_site (self : t) (ls : option Geodetic.t) : t :=
  mk (enu self) (yaw self) (pitch self) (npoints self) (arccenter self)
     (geodetic self) (poi self) ls (curveradius self) (plot_boresight self).

(** [compute_geodetic(site)], [site] being a [Site] or a [Geodetic]; the
    trajectory with its [geodetic] field filled is returned. *)
Definition compute_geodetic {pm : Pymap3d} (self : t) (site : Site.t + Geodetic.t)
  : result t :=
  origin <- match site with
            | inl s =>
                match Site.origin s with
                | None =>
                    Raise (ValueError
                             "Site origin must be set to convert ENU → geodetic.")
                | Some o => Ok o
                end
            | inr g => Ok g
            end ;;
  '(lats, lons, alts) <-
     enu2geodetic_v (E self) (N self) (U self)
                    (Geodetic.lat origin) (Geodetic.lon origin)
                    (Geodetic.alt origin) ;;
  Ok (set_geodetic self (np.column_stack lats lons alts)).

End DroneTrajectory.

(** ** traj_planner.py: TrajectoryPlanner *)

Module TrajectoryPlanner.

(** The planner keeps a reference to the site it was built on: [site] is
    that site's store. *)
Record t : Type := mk { site : Site.t }.

(** What [telescope_to_target_aer] accepts (an [ENU] or an (N,3) array) and
    what it then returns (a tuple of floats or of arrays). *)
Inductive target : Type :=
| OfENU (p : ENU.t)
| OfArray (a : list vec3).

Inductive aer : Type :=
| Scalar (v : vec3)
| Batch (v : list R * list R * list R).

Section Methods.
Context {pm : Pymap3d}.

(** [__init__(site)]: returns the planner and the store of the site the
    caller passed in (the same object as the planner's). *)
Definition __init__ (site : Site.t) : result t * Site.t :=
  match Site.origin site with
  | None =>
      let '(r, site') := Site.set_origin None site in
      (_ <- r ;; Ok (mk site'), site')
  | Some _ => (Ok (mk site), site)
  end.

(** [telescope.enu.e] and the like on a telescope whose [enu] is [None]. *)
Definition telescope_enu (telescope : Telescope.t) : result ENU.t :=
  match Telescope.enu telescope with
  | Some p => Ok p
  | None => Raise (AttributeError "'NoneType' object has no attribute 'e'")
  end.

Definition telescope_to_target_aer (telescope : Telescope.t)
  (target_enu : target) : result aer :=
  match target_enu with
  | OfENU p =>
      tel <- telescope_enu telescope ;;
      v <- enu2aer (ENU.e p - ENU.e tel) (ENU.n p - ENU.n tel)
                   (ENU.u p - ENU.u tel) ;;
      Ok (Scalar v)
  | OfArray a =>
      tel <- telescope_enu telescope ;;
      v <- enu2aer_v (map (fun x => x - ENU.e tel) (np.col0 a))
                     (map (fun x => x - ENU.n tel) (np.col1 a))
                     (map (fun x => x - ENU.u tel) (np.col2 a)) ;;
      Ok (Batch v)
  end.

(** [if drone_traj.arccenter:] an [ENU] object is always true, so the test
    tells [None] from a value. *)
Definition compute_boresight (telescope : Telescope.t)
  (drone_traj : DroneTrajectory.t) : result aer :=
  let arcc :=
    match DroneTrajectory.arccenter drone_traj with
    | Some a => a
    | None =>
        let '(e, n, u) := np.mean_axis0 (DroneTrajectory.enu drone_traj) in
        ENU.mk e n u
    end in
  telescope_to_target_aer telescope (OfENU arcc).

Definition old_arc_trajectory_202404 (self : t) (poi_enu : ENU.t)
  (slant_range az_center el_center el_range : R) (num_steps_el : Z)
  : result DroneTrajectory.t :=
  el_vals <- np.linspace (el_center - el_range / 2) (el_center + el_range / 2)
                         num_steps_el ;;
  '(e, n, u) <- aer2enu_v az_center el_vals slant_range ;;
  let enu_points :=
    np.column_stack (map (fun x => x + ENU.e poi_enu) e)
                    (map (fun x => x + ENU.n poi_enu) n)
                    (map (fun x => x + ENU.u poi_enu) u) in
  '(yaw, pitch, _) <-
     enu2aer_v (map (fun x => - x + ENU.e poi_enu) (np.col0 enu_points))
               (map (fun x => - x + ENU.n poi_enu) (np.col1 enu_points))
               (map (fun x => - x + ENU.u poi_enu) (np.col2 enu_points)) ;;
  poi <- Site.enu_to_geodetic (site self) poi_enu ;;
  let trajectory :=
    DroneTrajectory.mk enu_points yaw pitch num_steps_el None None (Some poi)
                       None (Some slant_range) false in
  trajectory <- DroneTrajectory.compute_geodetic trajectory (inl (site self)) ;;
  Ok (DroneTrajectory.set_landing_site trajectory
        (Site.landing_site (site self))).

Definition new_arc_trajectory_202412 (self : t) (nominal_poi : ENU.t)
  (nominal_az nominal_el nominal_srange : R) (poi : ENU.t) (delta_el : R)
  (num_steps_el : Z) : result DroneTrajectory.t :=
  '(arccenter_e, arccenter_n, arccenter_u) <-
     aer2enu nominal_az nominal_el nominal_srange ;;
  let arccenter_e := arccenter_e + ENU.e nominal_poi in
  let arccenter_n := arccenter_n + ENU.n nominal_poi in
  let arccenter_u := arccenter_u + ENU.u nominal_poi in
  let arccenter := ENU.mk arccenter_e arccenter_n arccenter_u in
  '(az0, el0, srange0) <-
     enu2aer (arccenter_e - ENU.e poi) (arccenter_n - ENU.n poi)
             (arccenter_u - ENU.u poi) ;;
  el_vals <- np.linspace (el0 - delta_el / 2) (el0 + delta_el / 2)
                         num_steps_el ;;
  '(e, n, u) <- aer2enu_v az0 el_vals srange0 ;;
  let enu_points :=
    np.column_stack (map (fun x => x + ENU.e poi) e)
                    (map (fun x => x + ENU.n poi) n)
                    (map (fun x => x + ENU.u poi) u) in
  '(yaw, pitch, _) <-
     enu2aer_v (map (fun x => - x + ENU.e poi) (np.col0 enu_points))
               (map (fun x => - x + ENU.n poi) (np.col1 enu_points))
               (map (fun x => - x + ENU.u poi) (np.col2 enu_points)) ;;
  poi_geodetic <- Site.enu_to_geodetic (site self) poi ;;
  let trajectory :=
    DroneTrajectory.mk enu_points yaw pitch num_steps_el (Some arccenter) None
                       (Some poi_geodetic) None (Some srange0) false in
  trajectory <- DroneTrajectory.compute_geodetic trajectory (inl (site self)) ;;
  Ok (DroneTrajectory.set_landing_site trajectory
        (Site.landing_site (site self))).

End Methods.

End TrajectoryPlanner.

(** ** Python lists and attribute access *)

Module py.

(** [l[1:-1]], [l * n] and [l[0]] on a list. *)
Definition inner {A : Type} (l : list A) : list A := removelast (tl l).

Definition times {A : Type} (l : list A) (n : Z) : list A :=
  List.concat (repeat l (Z.to_nat n)).

Definition first {A : Type} (l : list A) : outcome A :=
  match l with
  | [] => Throw (IndexError "list index out of range")
  | x :: _ => Return x
  end.

(** [o.name] where [o] may be [None]. *)
Definition attr {A : Type} (name : string) (o : option A) : outcome A :=
  match o with
  | Some a => Return a
  | None =>
      Throw (Builtin (AttributeError
                        ("'NoneType' object has no attribute '" ++ name ++ "'")))
  end.

(** The truth value of an optional string argument: [None] and the empty
    string are false. *)
Definition truthy (s : option string) : option string :=
  match s with
  | Some "" => None
  | other => other
  end.

End py.

(** ** coords/site_geofence.json *)

Module coords.

(** What [json.load] returns for "coords/site_geofence.json", a file the
    repository does not contain: the safety way points, lists of
    (lat, lon, alt) triples keyed by direction, and the fences, a JSON value
    of some type [F] that is passed on unread.  A file that is there is taken
    to have this form; an exporter that opens the file gets an
    [outcome (geofence_file F)]: this content, or the exception raised when
    the file is missing or cannot be read. *)
Record geofence_file (F : Type) : Type := mk_geofence_file {
  safety_waypoints : list (string * list vec3);
  fences : F
}.

Arguments mk_geofence_file {F} _ _.
Arguments safety_waypoints {F} _.
Arguments fences {F} _.

(** [data["safety_waypoints"][key]] *)
Fixpoint safety_points (d : list (string * list vec3)) (key : string)
  : outcome (list vec3) :=
  match d with
  | [] => Throw (KeyError key)
  | (k, pts) :: rest =>
      if String.eqb k key then Return pts else safety_points rest key
  end.

End coords.

(** ** utils/qgc_utils.py *)

Module qgc.

Inductive mav_key : Type := waypoint | roi | rth | speed | delay.

Record command_info : Type := mk_info {
  cmd : Z;
  altmode : option Z;
  frame : Z
}.

Definition MAVLINK_COMMANDS (key : mav_key) : command_info :=
  match key with
  | waypoint => mk_info 16 (Some 1%Z) 3
  | roi => mk_info 195 (Some 1%Z) 3
  | rth => mk_info 20 (Some 3%Z) 2
  | speed => mk_info 178 None 2
  | delay => mk_info 19 None 2
  end.

(** A mission item: the dict that [mission_item] builds, with the two keys
    that [qgc_waypoint] and [qgc_poi] add ([None] when the key is absent). *)
Record item : Type := mk_item {
  doJumpId : Z;
  command : Z;
  item_frame : Z;
  params : list R;
  autoContinue : bool;
  type : string;
  AMSLAltAboveTerrain : option R;
  Altitude : option R;
  AltitudeMode : option Z
}.

Definition mission_item (doJumpId command frame : Z) (params : list R) : item :=
  mk_item doJumpId command frame params true "SimpleItem" None None None.

Definition set_altitude (it : item) (alt : R) (mode : option Z) : item :=
  mk_item (doJumpId it) (command it) (item_frame it) (params it)
          (autoContinue it) (type it) (AMSLAltAboveTerrain it) (Some alt) mode.

Definition qgc_waypoint (doJumpId : Z) (lat lon alt : R) : item :=
  let mav := MAVLINK_COMMANDS waypoint in
  set_altitude (mission_item doJumpId (cmd mav) (frame mav)
                             [0; 0; 0; 0; lat; lon; alt])
               alt (altmode mav).

Definition qgc_poi (doJumpId : Z) (lat lon alt : R) : item :=
  let mav := MAVLINK_COMMANDS roi in
  set_altitude (mission_item doJumpId (cmd mav) (frame mav)
                             [0; 0; 0; 0; lat; lon; alt])
               alt (altmode mav).

Definition qgc_speed (doJumpId : Z) (speed_ : R) : item :=
  let mav := MAVLINK_COMMANDS speed in
  mission_item doJumpId (cmd mav) (frame mav) [1; speed_; -1; 0; 0; 0; 0].

Definition qgc_rth (doJumpId : Z) : item :=
  let mav := MAVLINK_COMMANDS rth in
  mission_item doJumpId (cmd mav) (frame mav) (repeat 0 7).

Definition qgc_delay (doJumpId : Z) (time_s : R) : item :=
  let mav := MAVLINK_COMMANDS delay in
  mission_item doJumpId (cmd mav) (frame mav) [time_s; 0; 0; 0; 0; 0; 0].

(** The [append_*] functions extend the list in place and return it; the
    extended list is returned here. *)
Definition append_waypoint (waypoints : list item) (lat lon alt : R)
  : list item :=
  let doJumpId := (Z.of_nat (List.length waypoints) + 1)%Z in
  (waypoints ++ [qgc_waypoint doJumpId lat lon alt])%list.

Definition append_poi (waypoints : list item) (lat lon alt : R) : list item :=
  let doJumpId := (Z.of_nat (List.length waypoints) + 1)%Z in
  (waypoints ++ [qgc_poi doJumpId lat lon alt])%list.

Definition append_speed (waypoints : list item) (speed_ : R) : list item :=
  let doJumpId := (Z.of_nat (List.length waypoints) + 1)%Z in
  (waypoints ++ [qgc_speed doJumpId speed_])%list.

Definition append_rth (waypoints : list item) : list item :=
  let doJumpId := (Z.of_nat (List.length waypoints) + 1)%Z in
  (waypoints ++ [qgc_rth doJumpId])%list.

Definition append_delay (waypoints : list item) (time_s : R) : list item :=
  let doJumpId := (Z.of_nat (List.length waypoints) + 1)%Z in
  (waypoints ++ [qgc_delay doJumpId time_s])%list.

End qgc.

(** ** utils/mp_utils.py *)

Module mp.

Definition tab : string := String (Ascii.ascii_of_nat 9) "".
Definition newline : string := String (Ascii.ascii_of_nat 10) "".

Definition MAVLINK_COMMANDS (key : qgc.mav_key) : qgc.command_info :=
  match key with
  | qgc.waypoint => qgc.mk_info 16 (Some 1%Z) 3
  | qgc.roi => qgc.mk_info 195 (Some 1%Z) 3
  | qgc.rth => qgc.mk_info 20 (Some 3%Z) 2
  | qgc.speed => qgc.mk_info 178 None 2
  | qgc.delay => qgc.mk_info 19 None 2
  end.

Definition header : string := "QGC WPL 110" ++ newline.

Section Format.

(** [format_f d x] stands for the text that Python's format specification
    [.df] gives for the number [x]: [x] written with [d] decimals. *)
Variable format_f : nat -> R -> string.

Definition make_item (seq current frame command : Z)
  (param1 param2 param3 param4 x y z : R) (autocontinue : Z) : string :=
  str seq ++ tab ++
  str current ++ tab ++
  str frame ++ tab ++
  str command ++ tab ++
  format_f 6 param1 ++ tab ++
  format_f 6 param2 ++ tab ++
  format_f 6 param3 ++ tab ++
  format_f 6 param4 ++ tab ++
  format_f 8 x ++ tab ++
  format_f 8 y ++ tab ++
  format_f 6 z ++ tab ++
  str autocontinue ++ newline.

(** [frame] is [None] when the argument is left out; [not frame] also holds
    for a frame of 0. *)
Definition waypoint (seq : Z) (lat lon alt : R) (current autocontinue : Z)
  (frame : option Z) : string :=
  let cmd_info := MAVLINK_COMMANDS qgc.waypoint in
  let frame :=
    match frame with
    | None => qgc.frame cmd_info
    | Some f => if (f =? 0)%Z then qgc.frame cmd_info else f
    end in
  make_item seq current frame (qgc.cmd cmd_info) 0 0 0 0 lat lon alt
            autocontinue.

Definition rth (seq current autocontinue : Z) : string :=
  let cmd_info := MAVLINK_COMMANDS qgc.rth in
  make_item seq current (qgc.frame cmd_info) (qgc.cmd cmd_info)
            0 0 0 0 0 0 0 autocontinue.

Definition speed (seq : Z) (speed_value : R) (current autocontinue : Z)
  : string :=
  let cmd_info := MAVLINK_COMMANDS qgc.speed in
  make_item seq current (qgc.frame cmd_info) (qgc.cmd cmd_info)
            0 speed_value 0 0 0 0 0 autocontinue.

Definition roi (seq : Z) (lat lon alt : R) (current autocontinue : Z)
  : string :=
  let cmd_info := MAVLINK_COMMANDS qgc.roi in
  make_item seq current (qgc.frame cmd_info) (qgc.cmd cmd_info)
            0 0 0 0 lat lon alt autocontinue.

Definition delay (seq : Z) (time_s : R) (current autocontinue : Z) : string :=
  let cmd_info := MAVLINK_COMMANDS qgc.delay in
  make_item seq current (qgc.frame cmd_info) (qgc.cmd cmd_info)
            time_s 0 0 0 0 0 0 autocontinue.

End Format.

End mp.

(** ** utils/litchi_utils.py *)

Module litchi.

(** A cell of a Litchi table: a number, or [None]. *)
Abbreviation cell := (option R) (only parsing).

Definition litchi_waypoint (lat lon alt : R) (heading curvesize : cell)
  (gimbalpitchangle speed poi_lat poi_lon poi_alt : R)
  (rotationdir gimbalmode actiontype1 actionparam1 altitudemode
   poi_altitudemode : R) : list cell :=
  [Some lat; Some lon; Some alt; heading; curvesize; Some rotationdir;
   Some gimbalmode; Some gimbalpitchangle; Some actiontype1;
   Some actionparam1; Some altitudemode; Some speed; Some poi_lat;
   Some poi_lon; Some poi_alt; Some poi_altitudemode].

(** [{"south": 0, "north": 180, "east": 270, "west": 90}.get(direction)] *)
Definition heading_of (direction : string) : cell :=
  if String.eqb direction "south" then Some 0
  else if String.eqb direction "north" then Some 180
  else if String.eqb direction "east" then Some 270
  else if String.eqb direction "west" then Some 90
  else None.

Definition litchi_safety_points {F : Type} (direction : string) (speed : R)
  (curvesize : cell)
  (rotationdir gimbalmode gimbalpitchangle actiontype1 actionparam1
   altitudemode poi_lat poi_lon poi_alt poi_altitudemode : R)
  (geofence : outcome (coords.geofence_file F)) : outcome (list (list cell)) :=
  let heading := heading_of direction in
  data <~ geofence ;;
  safety_points <~
    coords.safety_points (coords.safety_waypoints data) direction ;;
  Return
    (map (fun p =>
            litchi_waypoint (c0 p) (c1 p) (c2 p) heading curvesize
                            gimbalpitchangle speed poi_lat poi_lon poi_alt
                            rotationdir gimbalmode actiontype1 actionparam1
                            altitudemode poi_altitudemode)
         safety_points).

End litchi.

(** ** trajectory_io.py *)

Module trajectory_io.

(** The geofence of a plan: the file's, or the empty one
    ([{"circles": [], "polygons": [], "version": 2}]). *)
Inductive geofence (F : Type) : Type :=
| FileFences (f : F)
| NoFences.

Arguments FileFences {F} f.
Arguments NoFences {F}.

Record mission : Type := mk_mission {
  cruiseSpeed : Z;
  firmwareType : Z;
  items : list qgc.item;
  plannedHomePosition : list R;
  vehicleType : Z;
  mission_version : Z
}.

(** The mission plan ([rallyPoints] is the constant
    [{"points": [], "version": 2}]). *)
Record plan (F : Type) : Type := mk_plan {
  fileType : string;
  geoFence : geofence F;
  groundStation : string;
  plan_mission : mission;
  rallyPoints : list vec3 * Z;
  version : Z
}.

Arguments mk_plan {F} _ _ _ _ _ _.
Arguments fileType {F} _.
Arguments geoFence {F} _.
Arguments groundStation {F} _.
Arguments plan_mission {F} _.
Arguments rallyPoints {F} _.
Arguments version {F} _.

(** The arc with its repetitions:
    [drone_traj += drone_traj[1:-1][::-1]; drone_traj *= n_repeat]. *)
Definition arc_repetitions {A : Type} (drone_traj : list A) (n_repeat : Z)
  : list A :=
  py.times (drone_traj ++ rev (py.inner drone_traj)) n_repeat.

(** [export_mission_qgc]; [geofence] is what opening and loading the
    geofence file gives, which the function does on every call, after the
    point of interest and the transit speed are appended.  Writing the plan
    to [savepath] and the warning issued without safety way points are left
    out: the function returns the plan either way. *)
Definition export_mission_qgc {F : Type} (trajectory : DroneTrajectory.t)
  (move_speed scan_speed : R) (n_repeat : Z) (safety_waypoints_ : option string)
  (fence add_rth : bool) (geofence : outcome (coords.geofence_file F))
  : outcome (plan F) :=
  poi <~ py.attr "lat" (DroneTrajectory.poi trajectory) ;;
  landing_site <~ py.attr "alt" (DroneTrajectory.landing_site trajectory) ;;
  let waypoints :=
    qgc.append_poi [] (Geodetic.lat poi) (Geodetic.lon poi)
                   (Geodetic.alt poi - Geodetic.alt landing_site) in
  let waypoints := qgc.append_speed waypoints move_speed in
  data <~ geofence ;;
  waypoints <~
    match py.truthy safety_waypoints_ with
    | Some key =>
        safety_points_ <~ coords.safety_points (coords.safety_waypoints data) key ;;
        Return (fold_left
                  (fun ws safety_point =>
                     qgc.append_waypoint ws (c0 safety_point) (c1 safety_point)
                                         (c2 safety_point))
                  safety_points_ waypoints)
    | None => Return waypoints
    end ;;
  geodetic <~ py.attr "tolist" (DroneTrajectory.geodetic trajectory) ;;
  let drone_traj := arc_repetitions geodetic n_repeat in
  first <~ py.first drone_traj ;;
  let waypoints :=
    qgc.append_waypoint waypoints (c0 first) (c1 first)
                        (c2 first - Geodetic.alt landing_site) in
  let waypoints := qgc.append_speed waypoints scan_speed in
  let waypoints :=
    fold_left
      (fun ws point =>
         qgc.append_waypoint ws (c0 point) (c1 point)
                             (c2 point - Geodetic.alt landing_site))
      (tl drone_traj) waypoints in
  let waypoints := if add_rth then qgc.append_rth waypoints else waypoints in
  let geoFence := if fence then FileFences (coords.fences data) else NoFences in
  Return
    (mk_plan "Plan" geoFence "QGroundControl"
       (mk_mission 0 12 waypoints
          [Geodetic.lat landing_site; Geodetic.lon landing_site;
           Geodetic.alt landing_site]
          2 2)
       ([], 2%Z) 1).

(** The text of a mission and the number of the next item, as the Mission
    Planner exporters carry them along ([waypoints += ...; seq += 1]). *)
Definition emit (st : string * Z) (line : Z -> string) : string * Z :=
  (fst st ++ line (snd st), (snd st + 1)%Z).

Section MissionPlanner.

Variable format_f : nat -> R -> string.


(** The body of the loop of [export_test_mission_mp_switching_pois], run
    [n] times. *)
Fixpoint switch_pois (n : nat) (landing_site : Geodetic.t)
  (poi1 : option Geodetic.t) (st : string * Z) : outcome (string * Z) :=
  match n with
  | O => Return st
  | S n' =>
      poi <~ py.attr "lat" poi1 ;;
      let st :=
        emit st (fun seq =>
          mp.roi format_f seq (Geodetic.lat poi) (Geodetic.lon poi)
                 (Geodetic.alt poi - Geodetic.alt landing_site) 0 1) in
      let st := emit st (fun seq => mp.delay format_f seq 10 0 1) in
      poi <~ py.attr "lat" poi1 ;;
      let st :=
        emit st (fun seq =>
          mp.roi format_f seq (Geodetic.lat poi) (Geodetic.lon poi)
                 (Geodetic.alt poi - Geodetic.alt landing_site) 0 1) in
      let st := emit st (fun seq => mp.delay format_f seq 10 0 1) in
      switch_pois n' landing_site poi1 st
  end.

(** [export_test_mission_mp_switching_pois(landing_site, poi1, poi2,
    n_repeat=...)]; an argument may be [None]. *)
Definition export_test_mission_mp_switching_pois
  (landing_site_ poi1 poi2 : option Geodetic.t) (n_repeat : Z)
  : outcome string :=
  let st := (mp.header, 0%Z) in
  landing_site <~ py.attr "lat" landing_site_ ;;
  let st :=
    emit st (fun seq =>
      mp.waypoint format_f seq (Geodetic.lat landing_site)
                  (Geodetic.lon landing_site) (Geodetic.alt landing_site)
                  0 1 (Some 0%Z)) in
  let st := emit st (fun seq => mp.speed format_f seq 1 0 1) in
  let st :=
    emit st (fun seq =>
      mp.waypoint format_f seq (Geodetic.lat landing_site)
                  (Geodetic.lon landing_site) 10 0 1 None) in
  let st := emit st (fun seq => mp.delay format_f seq 10 0 1) in
  let st :=
    emit st (fun seq =>
      mp.roi format_f seq (Geodetic.lat landing_site)
             (Geodetic.lon landing_site) 0 0 1) in
  let st := emit st (fun seq => mp.delay format_f seq 10 0 1) in
  st <~ switch_pois (Z.to_nat n_repeat) landing_site poi1 st ;;
  let st := emit st (fun seq => mp.rth format_f seq 0 1) in
  Return (fst st).

End MissionPlanner.

(** [np.concatenate([geodetic, yaw.reshape(-1, 1), pitch.reshape(-1, 1)],
    axis=1).tolist()]: the rows of [geodetic] with the yaw and the pitch of
    the same index; numpy refuses [None] and arrays of different lengths. *)
Definition size_mismatch (n0 : nat) (i : Z) (ni : nat) : error :=
  Builtin
    (ValueError
       ("all the input array dimensions except for the concatenation axis must match exactly, but along dimension 0, the array at index 0 has size "
        ++ str (Z.of_nat n0) ++ " and the array at index " ++ str i
        ++ " has size " ++ str (Z.of_nat ni))).

Definition concatenate_columns (geodetic : option (list vec3))
  (yaw pitch : list R) : outcome (list (vec3 * R * R)) :=
  match geodetic with
  | None =>
      Throw (Builtin (ValueError
                        "zero-dimensional arrays cannot be concatenated"))
  | Some g =>
      if negb (List.length yaw =? List.length g)%nat
      then Throw (size_mismatch (List.length g) 1 (List.length yaw))
      else if negb (List.length pitch =? List.length g)%nat
      then Throw (size_mismatch (List.length g) 2 (List.length pitch))
      else Return (combine (combine g yaw) pitch)
  end.

(** [pitch[0]] on an array. *)
Definition first_entry (a : list R) : outcome R :=
  match a with
  | [] => Throw (IndexError "index 0 is out of bounds for axis 0 with size 0")
  | x :: _ => Return x
  end.

(** The loop of [export_mission_litchi] over the repeated arc; the landing
    site and the point of interest are read at every way point. *)
Fixpoint litchi_arc (trajectory : DroneTrajectory.t) (scan_speed : R)
  (drone_traj : list (vec3 * R * R)) (waypoints : list (list litchi.cell))
  : outcome (list (list litchi.cell)) :=
  match drone_traj with
  | [] => Return waypoints
  | row :: rest =>
      landing_site <~ py.attr "alt" (DroneTrajectory.landing_site trajectory) ;;
      poi <~ py.attr "lat" (DroneTrajectory.poi trajectory) ;;
      let waypoint :=
        litchi.litchi_waypoint
          (c0 (fst (fst row))) (c1 (fst (fst row)))
          (c2 (fst (fst row)) - Geodetic.alt landing_site)
          (Some (snd (fst row))) (DroneTrajectory.curveradius trajectory)
          (snd row) scan_speed (Geodetic.lat poi) (Geodetic.lon poi)
          (Geodetic.alt poi - Geodetic.alt landing_site) 0 1 (-1) 0 0 0 in
      litchi_arc trajectory scan_speed rest (waypoints ++ [waypoint])
  end.

(** [export_mission_litchi]; the data frame is the list of its rows, its
    columns being the sixteen fixed names.  The geofence file is opened and
    loaded, with outcome [geofence], by [litchi_safety_points], so only when
    safety way points are asked for.  Writing the table to [savepath] is left
    out. *)
Definition export_mission_litchi {F : Type} (trajectory : DroneTrajectory.t)
  (move_speed scan_speed : R) (n_repeat : Z) (safety_waypoints_ : option string)
  (geofence : outcome (coords.geofence_file F))
  : outcome (list (list litchi.cell)) :=
  waypoints <~
    match py.truthy safety_waypoints_ with
    | Some direction =>
        gimbalpitchangle <~ first_entry (DroneTrajectory.pitch trajectory) ;;
        poi <~ py.attr "lat" (DroneTrajectory.poi trajectory) ;;
        landing_site <~
          py.attr "alt" (DroneTrajectory.landing_site trajectory) ;;
        safety_points <~
          litchi.litchi_safety_points
            direction move_speed (DroneTrajectory.curveradius trajectory)
            0 1 gimbalpitchangle (-1) 0 0 (Geodetic.lat poi) (Geodetic.lon poi)
            (Geodetic.alt poi - Geodetic.alt landing_site) 0 geofence ;;
        Return ([] ++ safety_points)%list
    | None => Return []
    end ;;
  drone_traj <~
    concatenate_columns (DroneTrajectory.geodetic trajectory)
                        (DroneTrajectory.yaw trajectory)
                        (DroneTrajectory.pitch trajectory) ;;
  let drone_traj := arc_repetitions drone_traj n_repeat in
  waypoints <~ litchi_arc trajectory scan_speed drone_traj waypoints ;;
  if (100 <=? List.length waypoints)%nat
  then Throw (RuntimeError
                "Litchi flightplans can't have more than 100 waypoints!")
  else Return waypoints.

End trajectory_io.

(** ** A concrete frame-conversion library *)

Module Ideal.

(** The six conversions below are modelled from the spec (section 4.1, the
    frame-conversion library; in the source they are pymap3d's, which is not
    part of the repository), in ideal real arithmetic on the WGS84 ellipsoid,
    angles in degrees.  The two argument checks are pymap3d's: a latitude
    outside [-90, 90] and a negative slant range are rejected with a
    [ValueError].  They serve as the library on which the properties below
    are run on concrete inputs. *)
Definition radians (d : R) : R := d * PI / 180.
Definition degrees (r : R) : R := r * 180 / PI.

Definition atan2 (y x : R) : R :=
  if Rlt_dec 0 x then atan (y / x)
  else if Rlt_dec x 0 then
    if Rle_dec 0 y then atan (y / x) + PI else atan (y / x) - PI
  else if Rlt_dec 0 y then PI / 2
  else if Rlt_dec y 0 then - (PI / 2)
  else 0.

Definition hypot (a b : R) : R := sqrt (a * a + b * b).

Definition semimajor_axis : R := 6378137.
Definition flattening : R := 1 / 298.257223563.
Definition semiminor_axis : R := semimajor_axis * (1 - flattening).
Definition ecc2 : R := flattening * (2 - flattening).

(** The prime-vertical radius of curvature N(lat), [lat] in radians. *)
Definition prime_vertical (lat : R) : R :=
  semimajor_axis / sqrt (1 - ecc2 * (sin lat * sin lat)).

(** Modelled from the spec: [geodetic_to_ecef], the closed-form ellipsoidal
    formula with the prime-vertical radius of curvature (pymap3d's, missing
    from the repository). *)
Definition geodetic2ecef (lat lon alt : R) : result vec3 :=
  if Rlt_dec 90 (Rabs lat) then Raise (ValueError "-90 <= lat <= 90")
  else
    let phi := radians lat in
    let lam := radians lon in
    let nu := prime_vertical phi in
    Ok ((nu + alt) * cos phi * cos lam,
        (nu + alt) * cos phi * sin lam,
        (nu * (1 - ecc2) + alt) * sin phi).

(** Modelled from the spec: [ecef_to_geodetic] with the closed-form
    latitude recovery of Bowring (pymap3d's, missing from the repository). *)
Definition ecef2geodetic (x y z : R) : result vec3 :=
  let a := semimajor_axis in
  let b := semiminor_axis in
  let p := hypot x y in
  let theta := atan2 (z * a) (p * b) in
  let ep2 := (a * a - b * b) / (b * b) in
  let phi := atan2 (z + ep2 * b * (sin theta * sin theta * sin theta))
                   (p - ecc2 * a * (cos theta * cos theta * cos theta)) in
  let lam := atan2 y x in
  Ok (degrees phi, degrees lam, p / cos phi - prime_vertical phi).

(** The rows of the rotation are the East, North and Up unit vectors at the
    origin. *)
Definition uvw2enu (du dv dw lat0 lon0 : R) : vec3 :=
  let phi := radians lat0 in
  let lam := radians lon0 in
  (- sin lam * du + cos lam * dv,
   - sin phi * cos lam * du - sin phi * sin lam * dv + cos phi * dw,
   cos phi * cos lam * du + cos phi * sin lam * dv + sin phi * dw).

Definition enu2uvw (e n u lat0 lon0 : R) : vec3 :=
  let phi := radians lat0 in
  let lam := radians lon0 in
  (- sin lam * e - sin phi * cos lam * n + cos phi * cos lam * u,
   cos lam * e - sin phi * sin lam * n + cos phi * sin lam * u,
   cos phi * n + sin phi * u).

(** Modelled from the spec: [geodetic_to_enu] converts to ECEF, subtracts
    the origin's ECEF and rotates into the origin's local frame (pymap3d's,
    missing from the repository). *)
Definition geodetic2enu (lat lon h lat0 lon0 h0 : R) : result vec3 :=
  '(x, y, z) <- geodetic2ecef lat lon h ;;
  '(x0, y0, z0) <- geodetic2ecef lat0 lon0 h0 ;;
  Ok (uvw2enu (x - x0) (y - y0) (z - z0) lat0 lon0).

(** Modelled from the spec: [enu_to_geodetic], the inverse rotation followed
    by ECEF to geodetic (pymap3d's, missing from the repository). *)
Definition enu2geodetic (e n u lat0 lon0 h0 : R) : result vec3 :=
  '(x0, y0, z0) <- geodetic2ecef lat0 lon0 h0 ;;
  let '(dx, dy, dz) := enu2uvw e n u lat0 lon0 in
  ecef2geodetic (x0 + dx) (y0 + dy) (z0 + dz).

(** Modelled from the spec: [enu_to_aer], azimuth clockwise from North in
    [0, 360), elevation in [-90, 90], [e = n = 0] giving azimuth 0 (pymap3d's,
    missing from the repository). *)
Definition enu2aer (e n u : R) : result vec3 :=
  let r := hypot e n in
  let az := atan2 e n in
  let az := if Rlt_dec az 0 then az + 2 * PI else az in
  Ok (degrees az, degrees (atan2 u r), hypot r u).

(** Modelled from the spec: [aer_to_enu], the inverse of [enu_to_aer]
    (pymap3d's, missing from the repository). *)
Definition aer2enu (az el srange : R) : result vec3 :=
  if Rlt_dec srange 0 then Raise (ValueError "Slant range  [0, Infinity)")
  else
    let r := srange * cos (radians el) in
    Ok (r * sin (radians az), r * cos (radians az), srange * sin (radians el)).

Definition pymap3d : Pymap3d :=
  Build_Pymap3d aer2enu enu2aer geodetic2enu enu2geodetic
                geodetic2ecef ecef2geodetic.

End Ideal.

(** ** Vocabulary of the properties *)

(** A row of an array read as an [ENU] point, and back. *)
Definition of_row (v : vec3) : ENU.t := ENU.mk (c0 v) (c1 v) (c2 v).
Definition to_row (p : ENU.t) : vec3 := (ENU.e p, ENU.n p, ENU.u p).

(** The [k]-th of [num] samples spread evenly from [start] to [stop]
    ([num >= 2]). *)
Definition evenly_spaced (start stop : R) (num : Z) (k : nat) : R :=
  start + INR k * ((stop - start) / IZR (num - 1)).

(** The arithmetic mean of a list of floats, and the mean point of the rows
    of an (N,3) array. *)
Definition arithmetic_mean (l : list R) : R :=
  fold_right Rplus 0 l / INR (List.length l).

Definition mean_point (a : list vec3) : ENU.t :=
  ENU.mk (arithmetic_mean (np.col0 a)) (arithmetic_mean (np.col1 a))
         (arithmetic_mean (np.col2 a)).

(** The AER under which [observer] sees [target]: [enu2aer] of the
    displacement from the observer to the target. *)
Definition aer_from_to {pm : Pymap3d} (observer target : ENU.t) : result vec3 :=
  let d := ENU.sub target observer in
  enu2aer (ENU.e d) (ENU.n d) (ENU.u d).

(** The stored orientation faces [poi]: at every index the yaw and the pitch
    are the azimuth and the elevation under which the trajectory point sees
    [poi]. *)
Definition faces {pm : Pymap3d} (poi : ENU.t) (t : DroneTrajectory.t) : Prop :=
  List.length (DroneTrajectory.yaw t) = List.length (DroneTrajectory.enu t) /\
  List.length (DroneTrajectory.pitch t) = List.length (DroneTrajectory.enu t) /\
  forall k, (k < List.length (DroneTrajectory.enu t))%nat ->
    exists a,
      aer_from_to (of_row (nth k (DroneTrajectory.enu t) (0, 0, 0))) poi = Ok a /\
      nth k (DroneTrajectory.yaw t) 0 = c0 a /\
      nth k (DroneTrajectory.pitch t) 0 = c1 a.

(** Every telescope of [after] is the telescope of [before] at the same key
    with its [enu] set to the conversion of its geodetic position (focal-plane
    height added to the altitude) relative to [o]. *)
Definition anchored_at {pm : Pymap3d} (o : Geodetic.t)
  (before after : list (string * Telescope.t)) : Prop :=
  Forall2 (fun old new : string * Telescope.t =>
             fst new = fst old /\
             exists v,
               geodetic2enu (Geodetic.lat (Telescope.geodetic (snd old)))
                            (Geodetic.lon (Telescope.geodetic (snd old)))
                            (Geodetic.alt (Telescope.geodetic (snd old))
                             + Telescope.focalplane_height (snd old))
                            (Geodetic.lat o) (Geodetic.lon o) (Geodetic.alt o)
               = Ok v /\
               snd new = Telescope.set_enu (snd old) (of_row v))
          before after.

(** The part the two generators share: the elevation sweep from [lo] to [hi]
    around [poi] at azimuth [az] and range [srange]. *)
Definition sweep {pm : Pymap3d} (self : TrajectoryPlanner.t) (poi : ENU.t)
  (az srange lo hi : R) (num_steps_el : Z) (arccenter : option ENU.t)
  : result DroneTrajectory.t :=
  el_vals <- np.linspace lo hi num_steps_el ;;
  '(e, n, u) <- aer2enu_v az el_vals srange ;;
  let enu_points :=
    np.column_stack (map (fun x => x + ENU.e poi) e)
                    (map (fun x => x + ENU.n poi) n)
                    (map (fun x => x + ENU.u poi) u) in
  '(yaw, pitch, _) <-
     enu2aer_v (map (fun x => - x + ENU.e poi) (np.col0 enu_points))
               (map (fun x => - x + ENU.n poi) (np.col1 enu_points))
               (map (fun x => - x + ENU.u poi) (np.col2 enu_points)) ;;
  poi_geodetic <- Site.enu_to_geodetic (TrajectoryPlanner.site self) poi ;;
  let trajectory :=
    DroneTrajectory.mk enu_points yaw pitch num_steps_el arccenter None
                       (Some poi_geodetic) None (Some srange) false in
  trajectory <- DroneTrajectory.compute_geodetic trajectory
                  (inl (TrajectoryPlanner.site self)) ;;
  Ok (DroneTrajectory.set_landing_site trajectory
        (Site.landing_site (TrajectoryPlanner.site self))).

(** A trajectory as the planner on [site] hands it out for the POI [poi]:
    the point count is the number of points, there is one yaw, one pitch and
    one geodetic row per point, the geodetic rows and the POI are the
    conversions of the ENU points and of [poi] relative to the site's origin,
    and the landing site is the site's. *)
Definition derived_on {pm : Pymap3d} (site : Site.t) (poi : ENU.t)
  (t : DroneTrajectory.t) : Prop :=
  exists o g rows,
    Site.origin site = Some o /\
    DroneTrajectory.npoints t = Z.of_nat (List.length (DroneTrajectory.enu t)) /\
    List.length (DroneTrajectory.yaw t) = List.length (DroneTrajectory.enu t) /\
    List.length (DroneTrajectory.pitch t) = List.length (DroneTrajectory.enu t) /\
    DroneTrajectory.geodetic t = Some rows /\
    List.length rows = List.length (DroneTrajectory.enu t) /\
    (forall k, (k < List.length (DroneTrajectory.enu t))%nat ->
       let p := nth k (DroneTrajectory.enu t) (0, 0, 0) in
       enu2geodetic (c0 p) (c1 p) (c2 p) (Geodetic.lat o) (Geodetic.lon o)
                    (Geodetic.alt o) = Ok (nth k rows (0, 0, 0))) /\
    enu2geodetic (ENU.e poi) (ENU.n poi) (ENU.u poi) (Geodetic.lat o)
                 (Geodetic.lon o) (Geodetic.alt o)
    = Ok (Geodetic.lat g, Geodetic.lon g, Geodetic.alt g) /\
    DroneTrajectory.poi t = Some g /\
    DroneTrajectory.landing_site t = Site.landing_site site /\
    DroneTrajectory.LAT t = Ok (np.col0 rows) /\
    DroneTrajectory.LON t = Ok (np.col1 rows) /\
    DroneTrajectory.ALT t = Ok (np.col2 rows).

(** Two telescope entries that differ at most in [enu]: same key, name,
    geodetic position, focal-plane height and [ecef]. *)
Definition same_but_enu (old new : string * Telescope.t) : Prop :=
  fst new = fst old /\
  Telescope.name (snd new) = Telescope.name (snd old) /\
  Telescope.geodetic (snd new) = Telescope.geodetic (snd old) /\
  Telescope.focalplane_height (snd new)
  = Telescope.focalplane_height (snd old) /\
  Telescope.ecef (snd new) = Telescope.ecef (snd old).

(** The ENU position that a telescope reference stands for on a site. *)
Definition stands_at {pm : Pymap3d} (self : Site.t)
  (telescope : Site.telescope_ref) (p : ENU.t) : Prop :=
  match telescope with
  | Site.ByName name =>
      exists tel,
        Site.lookup name (Site.telescopes self) = Some tel /\
        Telescope.enu tel = Some p
  | Site.ByTelescope tel => Telescope.enu tel = Some p
  | Site.ByENU q => q = p
  | Site.ByGeodetic g => Site.geodetic_to_enu self g = Ok p
  end.

(** A list of arc indices in which each index is followed by one of its two
    neighbours. *)
Definition neighbours (i j : nat) : Prop := i = S j \/ j = S i.

Fixpoint walk (l : list nat) : Prop :=
  match l with
  | x :: (y :: _) as rest => neighbours x y /\ walk rest
  | _ => True
  end.

(** Mission items numbered consecutively from [k]. *)
Fixpoint number_from {A : Type} (k : Z) (fs : list (Z -> A)) : list A :=
  match fs with
  | [] => []
  | f :: rest => f k :: number_from (k + 1) rest
  end.

(** The item lists that the [append_*] functions build from the empty
    list. *)
Inductive built : list qgc.item -> Prop :=
| built_nil : built []
| built_waypoint ws lat lon alt :
    built ws -> built (qgc.append_waypoint ws lat lon alt)
| built_poi ws lat lon alt : built ws -> built (qgc.append_poi ws lat lon alt)
| built_speed ws v : built ws -> built (qgc.append_speed ws v)
| built_rth ws : built ws -> built (qgc.append_rth ws)
| built_delay ws s : built ws -> built (qgc.append_delay ws s).

(** The items of a plan: the point of interest and the transit speed, the
    safety way points as they are in the geofence file, the first arc point
    and the scan speed, the remaining arc points, and the return to launch if
    asked for; arc altitudes and the altitude of the point of interest are
    relative to the landing site. *)
Definition plan_items (poi landing_site : Geodetic.t) (move_speed scan_speed : R)
  (safety : list vec3) (first : vec3) (rest : list vec3) (add_rth : bool)
  : list qgc.item :=
  number_from 1
    ([fun id => qgc.qgc_poi id (Geodetic.lat poi) (Geodetic.lon poi)
                  (Geodetic.alt poi - Geodetic.alt landing_site);
      fun id => qgc.qgc_speed id move_speed]
     ++ map (fun s id => qgc.qgc_waypoint id (c0 s) (c1 s) (c2 s)) safety
     ++ [fun id => qgc.qgc_waypoint id (c0 first) (c1 first)
                     (c2 first - Geodetic.alt landing_site);
         fun id => qgc.qgc_speed id scan_speed]
     ++ map (fun p id => qgc.qgc_waypoint id (c0 p) (c1 p)
                           (c2 p - Geodetic.alt landing_site)) rest
     ++ (if add_rth then [qgc.qgc_rth] else []))%list.

(** The lines of a mission text put one after the other. *)
Definition join (l : list string) : string := fold_right append "" l.

(** A Mission Planner text with its lines numbered from 0, and the number of
    the next line. *)
Definition numbered_text (fs : list (Z -> string)) : string * Z :=
  (mp.header ++ join (number_from 0 fs), Z.of_nat (List.length fs)).


(** The rows of a Litchi table: a safety way point of the geofence file,
    flown at the transit speed with the gimbal at the pitch of the first arc
    point, and an arc point with its yaw and pitch, its altitude relative to
    the landing site, flown at the scan speed; both look at the point of
    interest. *)
Definition litchi_safety_row (t : DroneTrajectory.t) (poi ls : Geodetic.t)
  (direction : string) (move_speed pitch0 : R) (p : vec3)
  : list litchi.cell :=
  litchi.litchi_waypoint (c0 p) (c1 p) (c2 p) (litchi.heading_of direction)
    (DroneTrajectory.curveradius t) pitch0 move_speed (Geodetic.lat poi)
    (Geodetic.lon poi) (Geodetic.alt poi - Geodetic.alt ls) 0 1 (-1) 0 0 0.

Definition litchi_arc_row (t : DroneTrajectory.t) (poi ls : Geodetic.t)
  (scan_speed : R) (row : vec3 * R * R) : list litchi.cell :=
  litchi.litchi_waypoint (c0 (fst (fst row))) (c1 (fst (fst row)))
    (c2 (fst (fst row)) - Geodetic.alt ls) (Some (snd (fst row)))
    (DroneTrajectory.curveradius t) (snd row) scan_speed (Geodetic.lat poi)
    (Geodetic.lon poi) (Geodetic.alt poi - Geodetic.alt ls) 0 1 (-1) 0 0 0.

(** ** Concrete inputs *)

Module Example.

(** One telescope at latitude, longitude and altitude 0, which is also the
    origin; a second site whose telescope "B" has a latitude no geodetic
    conversion accepts. *)
Definition g0 : Geodetic.t := Geodetic.mk 0 0 0.
Definition telA : Telescope.t := Telescope.mk "A" g0 0 None None.

Definition site0 : Site.t := Site.mk [("A", telA)] (Some g0) None.
Definition unanchored : Site.t := Site.mk [("A", telA)] None None.
Definition empty : Site.t := Site.mk [] None None.

Definition planner0 : TrajectoryPlanner.t := TrajectoryPlanner.mk site0.

(** The same site with a landing site 10 m up, and a geofence file with two
    safety way points to the south. *)
Definition site1 : Site.t :=
  Site.mk [("A", telA)] (Some g0) (Some (Geodetic.mk 0 0 10)).
Definition planner1 : TrajectoryPlanner.t := TrajectoryPlanner.mk site1.
Definition geofence_data : coords.geofence_file unit :=
  coords.mk_geofence_file [("south", [(0, 0, 20); (0, 1, 20)])] tt.

Definition poi0 : ENU.t := ENU.mk 1000 0 0.

(** Telescope "A" once anchored at its own position, and a two-point
    trajectory without arc center. *)
Definition telA0 : Telescope.t :=
  Telescope.mk "A" g0 0 None (Some (ENU.mk 0 0 0)).
Definition traj_geo : DroneTrajectory.t :=
  DroneTrajectory.mk [(1, 2, 3); (3, 4, 5)] [0; 0] [0; 0] 2 None
                     (Some [(0, 0, 30); (0, 1, 40)]) (Some g0)
                     (Some (Geodetic.mk 0 0 10)) None false.
Definition traj2 : DroneTrajectory.t :=
  DroneTrajectory.mk [(1, 2, 3); (3, 4, 5)] [0; 0] [0; 0] 2 None None None
                     None None false.

End Example.

(** * Properties *)

(** ** Results and vectorised calls *)

Lemma bind_Ok {A B : Type} (c : result A) (k : A -> result B) (b : B) :
  bind c k = Ok b -> exists a, c = Ok a /\ k a = Ok b.
Proof.
  destruct c as [a|ex]; simpl; intros Hb; [eauto | discriminate].
Qed.

Lemma is_ok_true {A : Type} (c : result A) :
  is_ok c = true -> exists a, c = Ok a.
Proof.
  destruct c; simpl; intros Hc; [eauto | discriminate].
Qed.

Lemma mapM_length {A B : Type} (f : A -> result B) (l : list A) (ys : list B) :
  mapM f l = Ok ys -> List.length ys = List.length l.
Proof.
  revert ys; induction l as [|x xs IH]; simpl; intros ys Hm.
  - injection Hm as <-; reflexivity.
  - apply bind_Ok in Hm as (y & _ & Hm).
    apply bind_Ok in Hm as (ys' & Hxs & Hm).
    injection Hm as <-; simpl; f_equal; auto.
Qed.

Lemma mapM_nth {A B : Type} (f : A -> result B) (l : list A) (ys : list B)
  (d : A) (d' : B) (k : nat) :
  mapM f l = Ok ys -> (k < List.length l)%nat ->
  f (nth k l d) = Ok (nth k ys d').
Proof.
  revert ys k; induction l as [|x xs IH]; simpl; intros ys k Hm Hk; [lia|].
  apply bind_Ok in Hm as (y & Hx & Hm).
  apply bind_Ok in Hm as (ys' & Hxs & Hm).
  injection Hm as <-.
  destruct k as [|k]; simpl; [assumption | apply IH; [assumption | lia]].
Qed.

Lemma mapM_returns {A B : Type} (f : A -> result B) (l : list A) :
  (forall x, In x l -> is_ok (f x) = true) -> exists ys, mapM f l = Ok ys.
Proof.
  induction l as [|x xs IH]; simpl; intros Hf; [eauto|].
  destruct (is_ok_true (f x)) as (y & ->); [auto|].
  destruct IH as (ys & ->); [auto|].
  simpl; eauto.
Qed.

Lemma mapM_map {A B C : Type} (f : B -> result C) (g : A -> B) (l : list A) :
  mapM f (map g l) = mapM (fun x => f (g x)) l.
Proof.
  induction l as [|x xs IH]; simpl; [reflexivity | now rewrite IH].
Qed.

(** ** Arrays *)

Lemma column_stack_cols (f g h : R -> R) (rows : list vec3) :
  np.column_stack (map f (np.col0 rows)) (map g (np.col1 rows))
                  (map h (np.col2 rows))
  = map (fun p => (f (c0 p), g (c1 p), h (c2 p))) rows.
Proof.
  induction rows as [|p rows IH]; simpl; [reflexivity | now rewrite IH].
Qed.

Lemma column_stack_unstack (rows : list vec3) :
  np.column_stack (np.col0 rows) (np.col1 rows) (np.col2 rows) = rows.
Proof.
  induction rows as [|[[a b] c] rows IH]; simpl; [reflexivity | now rewrite IH].
Qed.

(** ** linspace *)

Lemma arange_from_length (s : Z) (n : nat) :
  List.length (np.arange_from s n) = n.
Proof.
  revert s; induction n as [|n IH]; simpl; intros s; [reflexivity | now rewrite IH].
Qed.

Lemma arange_from_nth (s : Z) (n k : nat) (d : R) :
  (k < n)%nat -> nth k (np.arange_from s n) d = IZR (s + Z.of_nat k).
Proof.
  revert s k; induction n as [|n IH]; intros s k Hk; [lia|].
  destruct k as [|k]; simpl np.arange_from; cbv beta iota.
  - simpl nth. f_equal; lia.
  - change (nth (S k) (IZR s :: np.arange_from (s + 1) n) d)
      with (nth k (np.arange_from (s + 1) n) d).
    rewrite IH by lia. f_equal; lia.
Qed.

Lemma removelast_nth {A : Type} (l : list A) (k : nat) (d : A) :
  (S k < List.length l)%nat -> nth k (removelast l) d = nth k l d.
Proof.
  revert k; induction l as [|x l IH]; intros k Hk; [simpl in Hk; lia|].
  destruct l as [|y l]; [simpl in Hk; lia|].
  destruct k as [|k]; [reflexivity|].
  change (nth k (removelast (y :: l)) d = nth k (y :: l) d).
  apply IH. simpl in Hk |- *. lia.
Qed.

Lemma removelast_length {A : Type} (l : list A) :
  List.length (removelast l) = pred (List.length l).
Proof.
  induction l as [|x l IH]; [reflexivity|].
  destruct l as [|y l]; [reflexivity|].
  change (S (List.length (removelast (y :: l))) = List.length (y :: l)).
  rewrite IH; reflexivity.
Qed.

Lemma set_last_length (y : list R) (v : R) :
  y <> [] -> List.length (np.set_last y v) = List.length y.
Proof.
  intros Hy. unfold np.set_last.
  rewrite length_app, removelast_length. simpl.
  destruct y; [contradiction | simpl; lia].
Qed.

Lemma linspace_negative (start stop : R) (num : Z) :
  (num < 0)%Z ->
  np.linspace start stop num
  = Raise (ValueError
             ("Number of samples, " ++ str num ++ ", must be non-negative.")).
Proof.
  intros Hn. unfold np.linspace.
  destruct (Z.ltb_spec num 0); [reflexivity | lia].
Qed.

Lemma linspace_returns (start stop : R) (num : Z) :
  (0 <= num)%Z -> exists l, np.linspace start stop num = Ok l.
Proof.
  intros Hn. unfold np.linspace.
  destruct (Z.ltb_spec num 0); [lia | eauto].
Qed.

Lemma linspace_length (start stop : R) (num : Z) (l : list R) :
  np.linspace start stop num = Ok l -> List.length l = Z.to_nat num.
Proof.
  unfold np.linspace.
  destruct (Z.ltb_spec num 0) as [|Hn]; [discriminate|].
  intros Hl; injection Hl as <-.
  assert (Hy : forall f g : R -> R,
             List.length (map f (map g (np.arange num))) = Z.to_nat num).
  { intros f g. rewrite !length_map. apply arange_from_length. }
  destruct (Z.ltb_spec 1 num) as [H1|H1].
  - destruct (Z.ltb_spec 0 (num - 1)); [|lia].
    rewrite set_last_length; [apply Hy|].
    intros Hnil. specialize (Hy (fun v => v + start)
                                (fun i => i * ((stop - start) / IZR (num - 1)))).
    rewrite Hnil in Hy. simpl in Hy. lia.
  - destruct (0 <? num - 1)%Z; apply Hy.
Qed.

Lemma linspace_zero (start stop : R) : np.linspace start stop 0 = Ok [].
Proof. reflexivity. Qed.

Lemma linspace_one (start stop : R) : np.linspace start stop 1 = Ok [start].
Proof.
  unfold np.linspace, np.arange. simpl.
  do 2 f_equal. ring.
Qed.

Lemma linspace_nth (start stop : R) (num : Z) (l : list R) (k : nat) :
  (2 <= num)%Z -> np.linspace start stop num = Ok l ->
  (k < Z.to_nat num)%nat ->
  nth k l 0 = evenly_spaced start stop num k.
Proof.
  intros Hn Hl Hk. unfold np.linspace in Hl.
  destruct (Z.ltb_spec num 0); [lia|].
  destruct (Z.ltb_spec 0 (num - 1)); [|lia].
  destruct (Z.ltb_spec 1 num); [|lia].
  injection Hl as <-.
  set (step := (stop - start) / IZR (num - 1)).
  set (y := map (fun v => v + start) (map (fun i => i * step) (np.arange num))).
  assert (Hlen : List.length y = Z.to_nat num).
  { unfold y. rewrite !length_map. apply arange_from_length. }
  assert (Hd : IZR (num - 1) <> 0) by (apply not_0_IZR; lia).
  unfold np.set_last, evenly_spaced. fold step.
  destruct (Nat.eq_dec k (pred (Z.to_nat num))) as [->|Hlast].
  - rewrite app_nth2 by (rewrite removelast_length, Hlen; lia).
    rewrite removelast_length, Hlen, Nat.sub_diag. simpl nth.
    rewrite INR_IZR_INZ.
    replace (Z.of_nat (pred (Z.to_nat num))) with (num - 1)%Z by lia.
    unfold step. field. exact Hd.
  - rewrite app_nth1 by (rewrite removelast_length, Hlen; lia).
    rewrite removelast_nth by lia.
    rewrite (nth_indep y 0 ((fun v => v + start) ((fun i => i * step) 0)))
      by (rewrite Hlen; exact Hk).
    unfold y.
    rewrite (map_nth (fun v => v + start)), (map_nth (fun i => i * step)).
    unfold np.arange. rewrite arange_from_nth by exact Hk.
    rewrite INR_IZR_INZ. simpl Z.add. ring.
Qed.

Lemma evenly_spaced_first (start stop : R) (num : Z) :
  evenly_spaced start stop num 0 = start.
Proof. unfold evenly_spaced. simpl INR. ring. Qed.

Lemma evenly_spaced_last (start stop : R) (num : Z) :
  (2 <= num)%Z -> evenly_spaced start stop num (pred (Z.to_nat num)) = stop.
Proof.
  intros Hn. unfold evenly_spaced. rewrite INR_IZR_INZ.
  replace (Z.of_nat (pred (Z.to_nat num))) with (num - 1)%Z by lia.
  field. apply not_0_IZR; lia.
Qed.

(** ** The elevation sweep shared by the two generators *)

Section Sweep.
Context {pm : Pymap3d}.

Lemma old_arc_is_sweep (self : TrajectoryPlanner.t) (poi_enu : ENU.t)
  (slant_range az_center el_center el_range : R) (num_steps_el : Z) :
  TrajectoryPlanner.old_arc_trajectory_202404 self poi_enu slant_range az_center
    el_center el_range num_steps_el
  = sweep self poi_enu az_center slant_range (el_center - el_range / 2)
      (el_center + el_range / 2) num_steps_el None.
Proof. reflexivity. Qed.

Lemma new_arc_is_sweep (self : TrajectoryPlanner.t) (nominal_poi : ENU.t)
  (nominal_az nominal_el nominal_srange : R) (poi : ENU.t) (delta_el : R)
  (num_steps_el : Z) :
  TrajectoryPlanner.new_arc_trajectory_202412 self nominal_poi nominal_az
    nominal_el nominal_srange poi delta_el num_steps_el
  = (c <- aer2enu nominal_az nominal_el nominal_srange ;;
     let arccenter := ENU.add (of_row c) nominal_poi in
     a <- aer_from_to poi arccenter ;;
     sweep self poi (c0 a) (c2 a) (c1 a - delta_el / 2) (c1 a + delta_el / 2)
       num_steps_el (Some arccenter)).
Proof.
  unfold TrajectoryPlanner.new_arc_trajectory_202412, aer_from_to.
  destruct (aer2enu nominal_az nominal_el nominal_srange) as [[[ce cn] cu]|ex];
    [|reflexivity].
  cbn [bind ENU.add ENU.sub of_row c0 c1 c2 fst snd ENU.e ENU.n ENU.u].
  destruct (enu2aer _ _ _) as [[[az0 el0] r0]|ex]; reflexivity.
Qed.

Lemma sweep_Ok (self : TrajectoryPlanner.t) (poi : ENU.t)
  (az srange lo hi : R) (num : Z) (arcc : option ENU.t)
  (t : DroneTrajectory.t) :
  sweep self poi az srange lo hi num arcc = Ok t ->
  exists els rows looks,
    np.linspace lo hi num = Ok els /\
    mapM (fun x => aer2enu az x srange) els = Ok rows /\
    DroneTrajectory.enu t
    = map (fun p => (c0 p + ENU.e poi, c1 p + ENU.n poi, c2 p + ENU.u poi))
          rows /\
    mapM (fun p => enu2aer (- c0 p + ENU.e poi) (- c1 p + ENU.n poi)
                           (- c2 p + ENU.u poi))
         (DroneTrajectory.enu t) = Ok looks /\
    DroneTrajectory.yaw t = np.col0 looks /\
    DroneTrajectory.pitch t = np.col1 looks /\
    DroneTrajectory.npoints t = num /\
    DroneTrajectory.arccenter t = arcc /\
    DroneTrajectory.curveradius t = Some srange /\
    DroneTrajectory.landing_site t
    = Site.landing_site (TrajectoryPlanner.site self).
Proof.
  unfold sweep, aer2enu_v, enu2aer_v. intros Hs.
  apply bind_Ok in Hs as (els & Hels & Hs).
  apply bind_Ok in Hs as ([[e n] u] & Hrows & Hs).
  apply bind_Ok in Hrows as (rows & Hrows & Heq).
  injection Heq as <- <- <-.
  rewrite !column_stack_cols in Hs.
  apply bind_Ok in Hs as ([[yaw pitch] rng] & Hlooks & Hs).
  apply bind_Ok in Hlooks as (looks & Hlooks & Heq).
  injection Heq as <- <- <-.
  rewrite mapM_map in Hlooks.
  apply bind_Ok in Hs as (g & _ & Hs).
  apply bind_Ok in Hs as (t' & Hgeo & Hs).
  injection Hs as <-.
  unfold DroneTrajectory.compute_geodetic in Hgeo.
  apply bind_Ok in Hgeo as (o & _ & Hgeo).
  apply bind_Ok in Hgeo as ([[lats lons] alts] & _ & Hgeo).
  injection Hgeo as <-.
  exists els, rows, looks. simpl.
  repeat split; try reflexivity; assumption.
Qed.

Lemma sweep_returns (self : TrajectoryPlanner.t) (poi : ENU.t)
  (az srange lo hi : R) (num : Z) (arcc : option ENU.t) (o : Geodetic.t) :
  (0 <= num)%Z ->
  Site.origin (TrajectoryPlanner.site self) = Some o ->
  (forall el, is_ok (aer2enu az el srange) = true) ->
  (forall e n u, is_ok (enu2aer e n u) = true) ->
  (forall e n u,
      is_ok (enu2geodetic e n u (Geodetic.lat o) (Geodetic.lon o)
                          (Geodetic.alt o)) = true) ->
  exists t, sweep self poi az srange lo hi num arcc = Ok t.
Proof.
  intros Hnum Ho Haer Hlook Hgeo.
  unfold sweep, aer2enu_v, enu2aer_v, Site.enu_to_geodetic,
    DroneTrajectory.compute_geodetic, enu2geodetic_v.
  destruct (linspace_returns lo hi num Hnum) as (els & ->).
  cbn [bind].
  destruct (mapM_returns (fun x => aer2enu az x srange) els) as (rows & ->);
    [intros; apply Haer|].
  cbn [bind unstack].
  match goal with
  | |- context [mapM ?f ?l] =>
      destruct (mapM_returns f l) as (looks & ->); [intros; apply Hlook|]
  end.
  cbn [bind unstack]. rewrite Ho.
  destruct (is_ok_true _ (Hgeo (ENU.e poi) (ENU.n poi) (ENU.u poi)))
    as ([[la lo'] al] & ->).
  cbn [bind DroneTrajectory.E DroneTrajectory.N DroneTrajectory.U
       DroneTrajectory.enu].
  match goal with
  | |- context [mapM ?f ?l] =>
      destruct (mapM_returns f l) as (geo & ->); [intros; apply Hgeo|]
  end.
  cbn [bind unstack]. eauto.
Qed.

End Sweep.

(** ** The concrete library on the concrete inputs *)

Lemma ideal_geodetic2ecef_returns (lat lon alt : R) :
  Rabs lat <= 90 -> is_ok (Ideal.geodetic2ecef lat lon alt) = true.
Proof.
  intros Hlat. unfold Ideal.geodetic2ecef.
  destruct (Rlt_dec 90 (Rabs lat)); [lra | reflexivity].
Qed.


Lemma ideal_geodetic2enu_returns (lat lon h lat0 lon0 h0 : R) :
  Rabs lat <= 90 -> Rabs lat0 <= 90 ->
  is_ok (Ideal.geodetic2enu lat lon h lat0 lon0 h0) = true.
Proof.
  intros Hlat Hlat0. unfold Ideal.geodetic2enu.
  destruct (is_ok_true _ (ideal_geodetic2ecef_returns lat lon h Hlat))
    as ([[x y] z] & ->).
  destruct (is_ok_true _ (ideal_geodetic2ecef_returns lat0 lon0 h0 Hlat0))
    as ([[x0 y0] z0] & ->).
  reflexivity.
Qed.

Lemma ideal_enu2geodetic_returns (e n u lat0 lon0 h0 : R) :
  Rabs lat0 <= 90 ->
  is_ok (Ideal.enu2geodetic e n u lat0 lon0 h0) = true.
Proof.
  intros Hlat0. unfold Ideal.enu2geodetic.
  destruct (is_ok_true _ (ideal_geodetic2ecef_returns lat0 lon0 h0 Hlat0))
    as ([[x0 y0] z0] & ->).
  reflexivity.
Qed.

Lemma ideal_enu2aer_returns (e n u : R) :
  is_ok (Ideal.enu2aer e n u) = true.
Proof. reflexivity. Qed.

Lemma ideal_aer2enu_returns (az el srange : R) :
  0 <= srange -> is_ok (Ideal.aer2enu az el srange) = true.
Proof.
  intros Hr. unfold Ideal.aer2enu.
  destruct (Rlt_dec srange 0); [lra | reflexivity].
Qed.

Lemma ideal_aer2enu_value (az el srange : R) :
  0 <= srange ->
  Ideal.aer2enu az el srange
  = Ok (srange * cos (Ideal.radians el) * sin (Ideal.radians az),
        srange * cos (Ideal.radians el) * cos (Ideal.radians az),
        srange * sin (Ideal.radians el)).
Proof.
  intros Hr. unfold Ideal.aer2enu.
  destruct (Rlt_dec srange 0); [lra | reflexivity].
Qed.

Lemma Rabs_0_le_90 : Rabs 0 <= 90.
Proof. rewrite Rabs_R0; lra. Qed.

(** The barycenter of the one telescope at latitude, longitude and altitude
    0 is that position, so [set_origin] with no argument on that site
    returns. *)
Lemma ideal_constants :
  0 < Ideal.semimajor_axis /\ 0 < Ideal.semiminor_axis /\ 0 < Ideal.ecc2 < 1.
Proof.
  unfold Ideal.semiminor_axis, Ideal.ecc2, Ideal.semimajor_axis,
    Ideal.flattening.
  repeat split; lra.
Qed.

Lemma ideal_atan2_0_pos (x : R) : 0 < x -> Ideal.atan2 0 x = 0.
Proof.
  intros Hx. unfold Ideal.atan2.
  destruct (Rlt_dec 0 x); [|contradiction].
  replace (0 / x) with 0 by (field; lra). apply atan_0.
Qed.

Lemma ideal_radians_0 : Ideal.radians 0 = 0.
Proof. unfold Ideal.radians. lra. Qed.

Lemma ideal_degrees_0 : Ideal.degrees 0 = 0.
Proof. unfold Ideal.degrees. pose proof PI_RGT_0. field. lra. Qed.

Lemma ideal_prime_vertical_0 : Ideal.prime_vertical 0 = Ideal.semimajor_axis.
Proof.
  unfold Ideal.prime_vertical. rewrite sin_0.
  replace (1 - Ideal.ecc2 * (0 * 0)) with 1 by ring.
  rewrite sqrt_1. field.
Qed.

Lemma ideal_geodetic2ecef_origin :
  Ideal.geodetic2ecef 0 0 (0 + 0) = Ok (Ideal.semimajor_axis, 0, 0).
Proof.
  unfold Ideal.geodetic2ecef.
  destruct (Rlt_dec 90 (Rabs 0)) as [H|_];
    [rewrite Rabs_R0 in H; lra|].
  cbv zeta. rewrite ideal_radians_0, ideal_prime_vertical_0, sin_0, cos_0.
  f_equal. f_equal; [f_equal|]; ring.
Qed.

Lemma ideal_ecef2geodetic_origin :
  Ideal.ecef2geodetic Ideal.semimajor_axis 0 0 = Ok (0, 0, 0).
Proof.
  destruct ideal_constants as (Ha & Hb & He0 & He1).
  unfold Ideal.ecef2geodetic. cbv zeta.
  assert (Hp : Ideal.hypot Ideal.semimajor_axis 0 = Ideal.semimajor_axis).
  { unfold Ideal.hypot.
    replace (Ideal.semimajor_axis * Ideal.semimajor_axis + 0 * 0)
      with (Ideal.semimajor_axis * Ideal.semimajor_axis) by ring.
    apply sqrt_square. lra. }
  rewrite Hp.
  replace (0 * Ideal.semimajor_axis) with 0 by ring.
  rewrite (ideal_atan2_0_pos (Ideal.semimajor_axis * Ideal.semiminor_axis))
    by (apply Rmult_lt_0_compat; assumption).
  rewrite sin_0, cos_0.
  match goal with
  | |- context [Ideal.atan2 ?y ?x] =>
      replace y with 0 by ring;
      rewrite (ideal_atan2_0_pos x)
  end.
  2:{ replace (Ideal.semimajor_axis
               - Ideal.ecc2 * Ideal.semimajor_axis * (1 * 1 * 1))
        with (Ideal.semimajor_axis * (1 - Ideal.ecc2)) by ring.
      apply Rmult_lt_0_compat; lra. }
  rewrite (ideal_atan2_0_pos Ideal.semimajor_axis Ha).
  rewrite ideal_degrees_0, cos_0, ideal_prime_vertical_0.
  f_equal. f_equal. field.
Qed.

Lemma example_barycenter :
  Site.compute_barycenter (pm := Ideal.pymap3d) Example.unanchored
  = Ok Example.g0.
Proof.
  unfold Site.compute_barycenter, Example.unanchored.
  cbn [Site.telescopes mapM snd Example.telA Telescope.geodetic
       Telescope.focalplane_height Example.g0 Geodetic.lat Geodetic.lon
       Geodetic.alt].
  change (@geodetic2ecef Ideal.pymap3d 0 0 (0 + 0))
    with (Ideal.geodetic2ecef 0 0 (0 + 0)).
  rewrite ideal_geodetic2ecef_origin. cbn [bind mapM].
  unfold np.mean_axis0, np.sum_axis0.
  cbn [fold_left List.length INR].
  unfold c0, c1, c2. cbn [fst snd].
  replace ((0 + Ideal.semimajor_axis) / 1) with Ideal.semimajor_axis by field.
  replace ((0 + 0) / 1) with 0 by field.
  change (@ecef2geodetic Ideal.pymap3d Ideal.semimajor_axis 0 0)
    with (Ideal.ecef2geodetic Ideal.semimajor_axis 0 0).
  rewrite ideal_ecef2geodetic_origin. reflexivity.
Qed.

Lemma example_set_origin_default_returns :
  exists v,
    Ideal.geodetic2enu 0 0 (0 + 0) 0 0 0 = Ok v /\
    Site.set_origin (pm := Ideal.pymap3d) None Example.unanchored
    = (Ok tt,
       Site.mk [("A", Telescope.set_enu Example.telA (of_row v))]
               (Some Example.g0) None).
Proof.
  destruct (is_ok_true _ (ideal_geodetic2enu_returns 0 0 (0 + 0) 0 0 0
                            Rabs_0_le_90 Rabs_0_le_90)) as ([[e n] u] & Hconv).
  exists (e, n, u). split; [exact Hconv|].
  unfold Site.set_origin. rewrite example_barycenter.
  unfold Site._update_all_enu, Site.set_origin_field, Site.set_telescopes.
  simpl. rewrite Hconv. reflexivity.
Qed.

(** An arc around [poi0] from the planner on [site0] always goes through. *)
Lemma example_sweep_returns (az srange lo hi : R) (num : Z)
  (arcc : option ENU.t) :
  0 <= srange -> (0 <= num)%Z ->
  exists t,
    sweep (pm := Ideal.pymap3d) Example.planner0 Example.poi0 az srange lo hi
          num arcc = Ok t.
Proof.
  intros Hr Hnum.
  apply (sweep_returns (pm := Ideal.pymap3d)) with (o := Example.g0);
    [exact Hnum | reflexivity | | | ].
  - intros el. apply ideal_aer2enu_returns, Hr.
  - apply ideal_enu2aer_returns.
  - intros e n u. apply ideal_enu2geodetic_returns, Rabs_0_le_90.
Qed.

(** ** The fixed-AER arc *)

Lemma nth_offset_rows (poi : ENU.t) (rows : list vec3) (k : nat) :
  (k < List.length rows)%nat ->
  nth k (map (fun p => (c0 p + ENU.e poi, c1 p + ENU.n poi, c2 p + ENU.u poi))
             rows) (0, 0, 0)
  = to_row (ENU.add poi (of_row (nth k rows (0, 0, 0)))).
Proof.
  intros Hk.
  rewrite (nth_indep _ (0, 0, 0)
             ((fun p => (c0 p + ENU.e poi, c1 p + ENU.n poi, c2 p + ENU.u poi))
                (0, 0, 0)))
    by (rewrite length_map; exact Hk).
  rewrite (map_nth (fun p => (c0 p + ENU.e poi, c1 p + ENU.n poi,
                              c2 p + ENU.u poi))).
  unfold to_row, ENU.add, of_row; simpl.
  f_equal; [f_equal|]; apply Rplus_comm.
Qed.

(** What a sweep that returned holds: one point per elevation sample, each
    the POI plus the AER vector of that sample. *)
Lemma sweep_points {pm : Pymap3d} (self : TrajectoryPlanner.t) (poi : ENU.t)
  (az srange lo hi : R) (num : Z) (arcc : option ENU.t)
  (t : DroneTrajectory.t) (els : list R) :
  sweep self poi az srange lo hi num arcc = Ok t ->
  np.linspace lo hi num = Ok els ->
  List.length (DroneTrajectory.enu t) = Z.to_nat num /\
  forall k, (k < Z.to_nat num)%nat ->
    exists v,
      aer2enu az (nth k els 0) srange = Ok v /\
      nth k (DroneTrajectory.enu t) (0, 0, 0)
      = to_row (ENU.add poi (of_row v)).
Proof.
  intros Hs Hels.
  destruct (sweep_Ok _ _ _ _ _ _ _ _ _ Hs)
    as (els' & rows & looks & Hels' & Hrows & Henu & _).
  rewrite Hels in Hels'. injection Hels' as <-.
  pose proof (linspace_length _ _ _ _ Hels) as Hlen.
  pose proof (mapM_length _ _ _ Hrows) as Hlen'.
  split.
  - rewrite Henu, length_map. lia.
  - intros k Hk. exists (nth k rows (0, 0, 0)). split.
    + apply (mapM_nth (fun x => aer2enu az x srange)); [exact Hrows | lia].
    + rewrite Henu. apply nth_offset_rows. lia.
Qed.

(** C1 (amended). With the site's origin set and the conversions accepting
    their arguments, the fixed-AER generator called with N >= 1 returns a
    trajectory of exactly N points; the k-th point is the POI plus
    [aer2enu az el_k r], where el_0 .. el_{N-1} are the samples of
    [linspace (el - w/2) (el + w/2) N]: for N >= 2 they are evenly spaced and
    include both end points, for N = 1 the single sample is the lower end
    [el - w/2].  Azimuth and range are the same at every point. *)
Theorem old_arc_points {pm : Pymap3d} (self : TrajectoryPlanner.t)
  (poi_enu : ENU.t) (slant_range az_center el_center el_range : R)
  (num_steps_el : Z) (o : Geodetic.t) :
  (1 <= num_steps_el)%Z ->
  Site.origin (TrajectoryPlanner.site self) = Some o ->
  (forall el, is_ok (aer2enu az_center el slant_range) = true) ->
  (forall e n u, is_ok (enu2aer e n u) = true) ->
  (forall e n u,
      is_ok (enu2geodetic e n u (Geodetic.lat o) (Geodetic.lon o)
                          (Geodetic.alt o)) = true) ->
  let lo := el_center - el_range / 2 in
  let hi := el_center + el_range / 2 in
  exists t els,
    TrajectoryPlanner.old_arc_trajectory_202404 self poi_enu slant_range
      az_center el_center el_range num_steps_el = Ok t /\
    np.linspace lo hi num_steps_el = Ok els /\
    List.length (DroneTrajectory.enu t) = Z.to_nat num_steps_el /\
    DroneTrajectory.npoints t = num_steps_el /\
    List.length els = Z.to_nat num_steps_el /\
    (forall k, (k < Z.to_nat num_steps_el)%nat ->
       exists v,
         aer2enu az_center (nth k els 0) slant_range = Ok v /\
         nth k (DroneTrajectory.enu t) (0, 0, 0)
         = to_row (ENU.add poi_enu (of_row v))) /\
    (num_steps_el = 1%Z -> els = [lo]) /\
    ((2 <= num_steps_el)%Z ->
       (forall k, (k < Z.to_nat num_steps_el)%nat ->
          nth k els 0 = evenly_spaced lo hi num_steps_el k) /\
       nth 0 els 0 = lo /\
       nth (pred (Z.to_nat num_steps_el)) els 0 = hi).
Proof.
  intros Hn Ho Haer Hlook Hgeo lo hi.
  rewrite old_arc_is_sweep. fold lo hi.
  destruct (sweep_returns self poi_enu az_center slant_range lo hi num_steps_el
              None o) as (t & Ht); try assumption; [lia|].
  destruct (linspace_returns lo hi num_steps_el) as (els & Hels); [lia|].
  destruct (sweep_points _ _ _ _ _ _ _ _ _ _ Ht Hels) as (Hlen & Hpts).
  destruct (sweep_Ok _ _ _ _ _ _ _ _ _ Ht)
    as (els' & rows & looks & _ & _ & _ & _ & _ & _ & Hnp & _).
  exists t, els. repeat split; try assumption.
  - apply (linspace_length _ _ _ _ Hels).
  - intros H1. rewrite H1, linspace_one in Hels. now injection Hels as <-.
  - intros k Hk. apply (linspace_nth lo hi num_steps_el); assumption.
  - rewrite (linspace_nth lo hi num_steps_el els 0) by (assumption || lia).
    apply evenly_spaced_first.
  - rewrite (linspace_nth lo hi num_steps_el els) by (assumption || lia).
    apply evenly_spaced_last; assumption.
Qed.

Lemma old_arc_points_witness :
  exists t els,
    TrajectoryPlanner.old_arc_trajectory_202404 (pm := Ideal.pymap3d)
      Example.planner0 Example.poi0 1000 90 10 10 3 = Ok t /\
    np.linspace (10 - 10 / 2) (10 + 10 / 2) 3 = Ok els /\
    List.length (DroneTrajectory.enu t) = 3%nat /\
    DroneTrajectory.npoints t = 3%Z /\
    List.length els = 3%nat /\
    (forall k, (k < 3)%nat ->
       exists v,
         Ideal.aer2enu 90 (nth k els 0) 1000 = Ok v /\
         nth k (DroneTrajectory.enu t) (0, 0, 0)
         = to_row (ENU.add Example.poi0 (of_row v))) /\
    (3%Z = 1%Z -> els = [10 - 10 / 2]) /\
    ((2 <= 3)%Z ->
       (forall k, (k < 3)%nat ->
          nth k els 0 = evenly_spaced (10 - 10 / 2) (10 + 10 / 2) 3 k) /\
       nth 0 els 0 = 10 - 10 / 2 /\
       nth 2 els 0 = 10 + 10 / 2).
Proof.
  apply (old_arc_points (pm := Ideal.pymap3d) Example.planner0 Example.poi0
           1000 90 10 10 3 Example.g0).
  - lia.
  - reflexivity.
  - intros el. apply ideal_aer2enu_returns. lra.
  - apply ideal_enu2aer_returns.
  - intros e n u. apply ideal_enu2geodetic_returns, Rabs_0_le_90.
Defined.

(** C1, as stated (N = 1 gives the single point at the center elevation),
    fails: for center elevation 10 and sweep width 10 the one point of the
    N = 1 arc is at elevation 5 = 10 - 10/2, and is not the POI plus
    [aer2enu 90 10 1000]. *)
Lemma old_arc_single_point_is_off_center :
  exists t v,
    TrajectoryPlanner.old_arc_trajectory_202404 (pm := Ideal.pymap3d)
      Example.planner0 Example.poi0 1000 90 10 10 1 = Ok t /\
    List.length (DroneTrajectory.enu t) = 1%nat /\
    Ideal.aer2enu 90 10 1000 = Ok v /\
    nth 0 (DroneTrajectory.enu t) (0, 0, 0)
    <> to_row (ENU.add Example.poi0 (of_row v)).
Proof.
  destruct (example_sweep_returns 90 1000 (10 - 10 / 2) (10 + 10 / 2) 1 None)
    as (t & Ht); [lra | lia |].
  destruct (sweep_points (pm := Ideal.pymap3d) _ _ _ _ _ _ _ _ _ _ Ht
              (linspace_one _ _)) as (Hlen & Hpts).
  destruct (Hpts 0%nat) as (v' & Hv' & Hpt); [simpl; lia|].
  simpl nth in Hv'.
  change (Ideal.aer2enu 90 (10 - 10 / 2) 1000 = Ok v') in Hv'.
  rewrite ideal_aer2enu_value in Hv' by lra. injection Hv' as <-.
  eexists t, _. split; [exact Ht|]. split; [exact Hlen|].
  split; [apply ideal_aer2enu_value; lra|].
  rewrite Hpt. unfold to_row, ENU.add, of_row, Example.poi0; simpl.
  intros Heq. injection Heq as _ _ Hu.
  pose proof PI_RGT_0 as Hpi.
  assert (Hlt : sin (Ideal.radians (10 - 10 / 2)) < sin (Ideal.radians 10)).
  { unfold Ideal.radians. apply sin_increasing_1; lra. }
  lra.
Qed.

(** ** Orientation *)

Lemma sweep_faces {pm : Pymap3d} (self : TrajectoryPlanner.t) (poi : ENU.t)
  (az srange lo hi : R) (num : Z) (arcc : option ENU.t)
  (t : DroneTrajectory.t) :
  sweep self poi az srange lo hi num arcc = Ok t -> faces poi t.
Proof.
  intros Hs.
  destruct (sweep_Ok _ _ _ _ _ _ _ _ _ Hs)
    as (els & rows & looks & _ & _ & _ & Hlooks & Hyaw & Hpitch & _).
  pose proof (mapM_length _ _ _ Hlooks) as Hlen.
  unfold faces. rewrite Hyaw, Hpitch. unfold np.col0, np.col1.
  rewrite !length_map. repeat split; try exact Hlen.
  intros k Hk. exists (nth k looks (0, 0, 0)). repeat split.
  - pose proof (mapM_nth _ _ _ (0, 0, 0) (0, 0, 0) k Hlooks Hk) as Hk'.
    cbv beta in Hk'. etransitivity; [|exact Hk'].
    unfold aer_from_to, ENU.sub, of_row; simpl.
    f_equal; ring.
  - exact (map_nth c0 looks (0, 0, 0) k).
  - exact (map_nth c1 looks (0, 0, 0) k).
Qed.

(** C2. In every trajectory either generator returns, at every index the
    stored yaw and pitch are the azimuth and the elevation of [enu2aer]
    applied to the displacement from that trajectory point to the POI (for
    the nominal-pointing generator, the actual POI). *)
Theorem arc_orientation_faces_poi {pm : Pymap3d} (self : TrajectoryPlanner.t)
  (poi_enu : ENU.t) (slant_range az_center el_center el_range : R)
  (nominal_poi : ENU.t) (nominal_az nominal_el nominal_srange : R)
  (poi : ENU.t) (delta_el : R) (num_steps_el : Z) (t : DroneTrajectory.t) :
  (TrajectoryPlanner.old_arc_trajectory_202404 self poi_enu slant_range
     az_center el_center el_range num_steps_el = Ok t ->
   faces poi_enu t) /\
  (TrajectoryPlanner.new_arc_trajectory_202412 self nominal_poi nominal_az
     nominal_el nominal_srange poi delta_el num_steps_el = Ok t ->
   faces poi t).
Proof.
  split.
  - rewrite old_arc_is_sweep. apply sweep_faces.
  - rewrite new_arc_is_sweep. intros Hn.
    apply bind_Ok in Hn as (c & _ & Hn).
    apply bind_Ok in Hn as (a & _ & Hn).
    exact (sweep_faces _ _ _ _ _ _ _ _ _ Hn).
Qed.

(** ** The nominal-pointing arc *)

Lemma new_arc_returns {pm : Pymap3d} (self : TrajectoryPlanner.t)
  (nominal_poi : ENU.t) (nominal_az nominal_el nominal_srange : R)
  (poi : ENU.t) (delta_el : R) (num_steps_el : Z) (o : Geodetic.t)
  (c a : vec3) :
  (0 <= num_steps_el)%Z ->
  Site.origin (TrajectoryPlanner.site self) = Some o ->
  aer2enu nominal_az nominal_el nominal_srange = Ok c ->
  aer_from_to poi (ENU.add (of_row c) nominal_poi) = Ok a ->
  (forall el, is_ok (aer2enu (c0 a) el (c2 a)) = true) ->
  (forall e n u, is_ok (enu2aer e n u) = true) ->
  (forall e n u,
      is_ok (enu2geodetic e n u (Geodetic.lat o) (Geodetic.lon o)
                          (Geodetic.alt o)) = true) ->
  exists t,
    TrajectoryPlanner.new_arc_trajectory_202412 self nominal_poi nominal_az
      nominal_el nominal_srange poi delta_el num_steps_el = Ok t /\
    sweep self poi (c0 a) (c2 a) (c1 a - delta_el / 2) (c1 a + delta_el / 2)
      num_steps_el (Some (ENU.add (of_row c) nominal_poi)) = Ok t.
Proof.
  intros Hn Ho Hc Ha Haer Hlook Hgeo.
  rewrite new_arc_is_sweep, Hc. cbn [bind]. rewrite Ha. cbn [bind].
  destruct (sweep_returns self poi (c0 a) (c2 a) (c1 a - delta_el / 2)
              (c1 a + delta_el / 2) num_steps_el
              (Some (ENU.add (of_row c) nominal_poi)) o) as (t & Ht);
    try assumption.
  exists t; split; exact Ht.
Qed.

Lemma ENU_add_comm (a b : ENU.t) : ENU.add a b = ENU.add b a.
Proof. unfold ENU.add. f_equal; apply Rplus_comm. Qed.

(** C3. With the site's origin set and the conversions accepting their
    arguments, the nominal-pointing generator takes the arc center to be the
    nominal POI plus [aer2enu] of the nominal azimuth, elevation and range,
    derives (az0, el0, r0) as [enu2aer] of the arc center minus the actual
    POI, and returns N points, the k-th being the actual POI plus
    [aer2enu az0 el_k r0] with el_k the samples of
    [linspace (el0 - d/2) (el0 + d/2) N] (evenly spaced between the two ends
    for N >= 2); [arccenter] is that arc center and [curveradius] is r0. *)
Theorem new_arc_points {pm : Pymap3d} (self : TrajectoryPlanner.t)
  (nominal_poi : ENU.t) (nominal_az nominal_el nominal_srange : R)
  (poi : ENU.t) (delta_el : R) (num_steps_el : Z) (o : Geodetic.t)
  (c a : vec3) :
  (0 <= num_steps_el)%Z ->
  Site.origin (TrajectoryPlanner.site self) = Some o ->
  aer2enu nominal_az nominal_el nominal_srange = Ok c ->
  aer_from_to poi (ENU.add nominal_poi (of_row c)) = Ok a ->
  (forall el, is_ok (aer2enu (c0 a) el (c2 a)) = true) ->
  (forall e n u, is_ok (enu2aer e n u) = true) ->
  (forall e n u,
      is_ok (enu2geodetic e n u (Geodetic.lat o) (Geodetic.lon o)
                          (Geodetic.alt o)) = true) ->
  let arccenter := ENU.add nominal_poi (of_row c) in
  let az0 := c0 a in
  let el0 := c1 a in
  let srange0 := c2 a in
  let lo := el0 - delta_el / 2 in
  let hi := el0 + delta_el / 2 in
  exists t els,
    TrajectoryPlanner.new_arc_trajectory_202412 self nominal_poi nominal_az
      nominal_el nominal_srange poi delta_el num_steps_el = Ok t /\
    np.linspace lo hi num_steps_el = Ok els /\
    List.length (DroneTrajectory.enu t) = Z.to_nat num_steps_el /\
    DroneTrajectory.npoints t = num_steps_el /\
    List.length els = Z.to_nat num_steps_el /\
    (forall k, (k < Z.to_nat num_steps_el)%nat ->
       exists v,
         aer2enu az0 (nth k els 0) srange0 = Ok v /\
         nth k (DroneTrajectory.enu t) (0, 0, 0)
         = to_row (ENU.add poi (of_row v))) /\
    DroneTrajectory.arccenter t = Some arccenter /\
    DroneTrajectory.curveradius t = Some srange0 /\
    (num_steps_el = 1%Z -> els = [lo]) /\
    ((2 <= num_steps_el)%Z ->
       (forall k, (k < Z.to_nat num_steps_el)%nat ->
          nth k els 0 = evenly_spaced lo hi num_steps_el k) /\
       nth 0 els 0 = lo /\
       nth (pred (Z.to_nat num_steps_el)) els 0 = hi).
Proof.
  intros Hn Ho Hc Ha Haer Hlook Hgeo arccenter az0 el0 srange0 lo hi.
  unfold arccenter in *. rewrite ENU_add_comm in Ha |- *.
  destruct (new_arc_returns self nominal_poi nominal_az nominal_el
              nominal_srange poi delta_el num_steps_el o c a)
    as (t & Ht & Hs); try assumption.
  fold az0 el0 srange0 lo hi in Hs.
  destruct (linspace_returns lo hi num_steps_el Hn) as (els & Hels).
  destruct (sweep_points _ _ _ _ _ _ _ _ _ _ Hs Hels) as (Hlen & Hpts).
  destruct (sweep_Ok _ _ _ _ _ _ _ _ _ Hs)
    as (els' & rows & looks & _ & _ & _ & _ & _ & _ & Hnp & Harc & Hcr & _).
  exists t, els. repeat split; try assumption.
  - apply (linspace_length _ _ _ _ Hels).
  - intros H1. rewrite H1, linspace_one in Hels. now injection Hels as <-.
  - intros k Hk. apply (linspace_nth lo hi num_steps_el); assumption.
  - rewrite (linspace_nth lo hi num_steps_el els 0) by (assumption || lia).
    apply evenly_spaced_first.
  - rewrite (linspace_nth lo hi num_steps_el els) by (assumption || lia).
    apply evenly_spaced_last; assumption.
Qed.

Lemma ideal_hypot_nonneg (x y : R) : 0 <= Ideal.hypot x y.
Proof. apply sqrt_pos. Qed.

(** The nominal pointing of the example (azimuth 90, elevation 10, range
    1000 around [poi0]) followed with an actual POI 100 m further west. *)
Lemma new_arc_points_witness :
  exists t,
    TrajectoryPlanner.new_arc_trajectory_202412 (pm := Ideal.pymap3d)
      Example.planner0 Example.poi0 90 10 1000 (ENU.mk 900 0 0) 10 5 = Ok t /\
    List.length (DroneTrajectory.enu t) = 5%nat /\
    DroneTrajectory.npoints t = 5%Z /\
    exists c,
      Ideal.aer2enu 90 10 1000 = Ok c /\
      DroneTrajectory.arccenter t = Some (ENU.add Example.poi0 (of_row c)).
Proof.
  edestruct (new_arc_points (pm := Ideal.pymap3d) Example.planner0
               Example.poi0 90 10 1000 (ENU.mk 900 0 0) 10 5 Example.g0)
    as (t & els & Ht & _ & Hlen & Hnp & _ & _ & Harc & _).
  - lia.
  - reflexivity.
  - apply ideal_aer2enu_value. lra.
  - reflexivity.
  - intros el. apply ideal_aer2enu_returns. apply ideal_hypot_nonneg.
  - apply ideal_enu2aer_returns.
  - intros e n u. apply ideal_enu2geodetic_returns, Rabs_0_le_90.
  - exists t. repeat split; try assumption.
    eexists. split; [apply ideal_aer2enu_value; lra | exact Harc].
Defined.

(** The example arc of either generator faces its POI. *)
Lemma arc_orientation_faces_poi_witness :
  (exists t,
     TrajectoryPlanner.old_arc_trajectory_202404 (pm := Ideal.pymap3d)
       Example.planner0 Example.poi0 1000 90 10 10 3 = Ok t /\
     faces (pm := Ideal.pymap3d) Example.poi0 t) /\
  (exists t,
     TrajectoryPlanner.new_arc_trajectory_202412 (pm := Ideal.pymap3d)
       Example.planner0 Example.poi0 90 10 1000 (ENU.mk 900 0 0) 10 5 = Ok t /\
     faces (pm := Ideal.pymap3d) (ENU.mk 900 0 0) t).
Proof.
  split.
  - destruct (example_sweep_returns 90 1000 (10 - 10 / 2) (10 + 10 / 2) 3 None)
      as (t & Ht); [lra | lia |].
    exists t. split; [exact Ht|].
    exact (proj1 (arc_orientation_faces_poi (pm := Ideal.pymap3d)
                    Example.planner0 Example.poi0 1000 90 10 10
                    Example.poi0 90 10 1000 (ENU.mk 900 0 0) 10 3 t) Ht).
  - edestruct (new_arc_returns (pm := Ideal.pymap3d) Example.planner0
                 Example.poi0 90 10 1000 (ENU.mk 900 0 0) 10 5 Example.g0)
      as (t & Ht & _).
    + lia.
    + reflexivity.
    + apply ideal_aer2enu_value. lra.
    + reflexivity.
    + intros el. apply ideal_aer2enu_returns. apply ideal_hypot_nonneg.
    + apply ideal_enu2aer_returns.
    + intros e n u. apply ideal_enu2geodetic_returns, Rabs_0_le_90.
    + exists t. split; [exact Ht|].
      exact (proj2 (arc_orientation_faces_poi (pm := Ideal.pymap3d)
                      Example.planner0 Example.poi0 1000 90 10 10
                      Example.poi0 90 10 1000 (ENU.mk 900 0 0) 10 5 t) Ht).
Defined.

(** ** Boresight *)

Lemma sum_axis0_from (a : list vec3) (x y z : R) :
  fold_left (fun acc row => (c0 acc + c0 row, c1 acc + c1 row, c2 acc + c2 row))
            a (x, y, z)
  = (x + fold_right Rplus 0 (np.col0 a),
     y + fold_right Rplus 0 (np.col1 a),
     z + fold_right Rplus 0 (np.col2 a)).
Proof.
  revert x y z; induction a as [|[[e n] u] a IH]; intros x y z; simpl.
  - f_equal; [f_equal|]; ring.
  - unfold c0, c1, c2 in *; simpl. rewrite IH.
    f_equal; [f_equal|]; ring.
Qed.

Lemma mean_axis0_mean_point (a : list vec3) :
  np.mean_axis0 a = to_row (mean_point a).
Proof.
  unfold np.mean_axis0, np.sum_axis0, mean_point, arithmetic_mean, to_row.
  rewrite sum_axis0_from. unfold np.col0, np.col1, np.col2.
  rewrite !length_map. cbn [c0 c1 c2 fst snd ENU.e ENU.n ENU.u]. unfold Rdiv.
  f_equal; [f_equal|]; ring.
Qed.

Lemma compute_boresight_eq {pm : Pymap3d} (telescope : Telescope.t)
  (t : DroneTrajectory.t) (p : ENU.t) :
  Telescope.enu telescope = Some p ->
  TrajectoryPlanner.compute_boresight telescope t
  = (v <- aer_from_to p
            match DroneTrajectory.arccenter t with
            | Some c => c
            | None => mean_point (DroneTrajectory.enu t)
            end ;;
     Ok (TrajectoryPlanner.Scalar v)).
Proof.
  intros Hp.
  unfold TrajectoryPlanner.compute_boresight,
    TrajectoryPlanner.telescope_to_target_aer, TrajectoryPlanner.telescope_enu,
    aer_from_to.
  rewrite Hp. cbn [bind].
  destruct (DroneTrajectory.arccenter t) as [c|]; [reflexivity|].
  rewrite mean_axis0_mean_point. reflexivity.
Qed.

(** C5. For a telescope whose [enu] is set, [compute_boresight] returns the
    AER from the telescope's position to the trajectory's [arccenter] when
    there is one, and to the arithmetic mean of the trajectory's ENU points
    when there is none; the fixed-AER generator leaves [arccenter] unset, so
    for its trajectories the boresight is the AER to the mean point. *)
Theorem compute_boresight_target {pm : Pymap3d} (telescope : Telescope.t)
  (t : DroneTrajectory.t) (p : ENU.t) :
  Telescope.enu telescope = Some p ->
  (forall c, DroneTrajectory.arccenter t = Some c ->
     TrajectoryPlanner.compute_boresight telescope t
     = (v <- aer_from_to p c ;; Ok (TrajectoryPlanner.Scalar v))) /\
  (DroneTrajectory.arccenter t = None ->
     TrajectoryPlanner.compute_boresight telescope t
     = (v <- aer_from_to p (mean_point (DroneTrajectory.enu t)) ;;
        Ok (TrajectoryPlanner.Scalar v))) /\
  (forall self poi_enu slant_range az_center el_center el_range num_steps_el,
     TrajectoryPlanner.old_arc_trajectory_202404 self poi_enu slant_range
       az_center el_center el_range num_steps_el = Ok t ->
     DroneTrajectory.arccenter t = None /\
     TrajectoryPlanner.compute_boresight telescope t
     = (v <- aer_from_to p (mean_point (DroneTrajectory.enu t)) ;;
        Ok (TrajectoryPlanner.Scalar v))).
Proof.
  intros Hp. pose proof (compute_boresight_eq telescope t p Hp) as Hb.
  split; [|split].
  - intros c Hc. now rewrite Hc in Hb.
  - intros Hc. now rewrite Hc in Hb.
  - intros self poi_enu slant_range az_center el_center el_range num_steps_el
      Hold.
    rewrite old_arc_is_sweep in Hold.
    destruct (sweep_Ok _ _ _ _ _ _ _ _ _ Hold)
      as (els & rows & looks & _ & _ & _ & _ & _ & _ & _ & Harc & _).
    split; [exact Harc | now rewrite Harc in Hb].
Qed.

Lemma compute_boresight_target_witness :
  TrajectoryPlanner.compute_boresight (pm := Ideal.pymap3d) Example.telA0
    Example.traj2
  = (v <- aer_from_to (pm := Ideal.pymap3d) (ENU.mk 0 0 0)
            (mean_point [(1, 2, 3); (3, 4, 5)]) ;;
     Ok (TrajectoryPlanner.Scalar v)).
Proof.
  exact (proj1 (proj2 (compute_boresight_target (pm := Ideal.pymap3d)
                         Example.telA0 Example.traj2 (ENU.mk 0 0 0) eq_refl))
               eq_refl).
Defined.

(** ** Site.set_origin *)

Section SetOrigin.
Context {pm : Pymap3d}.

Lemma update_loop_Ok (o : Geodetic.t) (ts ts' : list (string * Telescope.t)) :
  Site.update_loop o ts = (Ok tt, ts') -> anchored_at o ts ts'.
Proof.
  revert ts'; induction ts as [|[k tel] rest IH]; simpl; intros ts' Hl.
  - injection Hl as <-. constructor.
  - destruct (geodetic2enu _ _ _ _ _ _) as [[[e n] u]|ex] eqn:Hconv;
      [|discriminate].
    destruct (Site.update_loop o rest) as [r rest'] eqn:Hrest.
    injection Hl as -> <-.
    constructor; [|apply IH; reflexivity].
    split; [reflexivity|]. exists (e, n, u). split; [exact Hconv | reflexivity].
Qed.


Lemma update_loop_again (o : Geodetic.t) (ts : list (string * Telescope.t)) :
  Site.update_loop o (snd (Site.update_loop o ts)) = Site.update_loop o ts.
Proof.
  induction ts as [|[k tel] rest IH]; [reflexivity|].
  simpl. destruct (geodetic2enu _ _ _ _ _ _) as [[[e n] u]|ex] eqn:Hconv.
  - destruct (Site.update_loop o rest) as [r rest'] eqn:Hrest.
    simpl in IH |- *. rewrite Hconv, IH. reflexivity.
  - simpl. rewrite Hconv. reflexivity.
Qed.

Lemma set_origin_Some (g : Geodetic.t) (self : Site.t) :
  Site.set_origin (Some g) self
  = (fst (Site.update_loop g (Site.telescopes self)),
     Site.mk (snd (Site.update_loop g (Site.telescopes self))) (Some g)
             (Site.landing_site self)).
Proof.
  unfold Site.set_origin, Site._update_all_enu, Site.set_telescopes,
    Site.set_origin_field; simpl.
  destruct (Site.update_loop g (Site.telescopes self)); reflexivity.
Qed.


End SetOrigin.





(** C8. Calling [set_origin] a second time with the same [Geodetic] changes
    nothing: the second call returns what the first returned and leaves the
    site, origin and every telescope's [enu] included, exactly as the first
    call left it. *)
Theorem set_origin_idempotent {pm : Pymap3d} (g : Geodetic.t) (self : Site.t) :
  Site.set_origin (Some g) (snd (Site.set_origin (Some g) self))
  = Site.set_origin (Some g) self.
Proof.
  rewrite !set_origin_Some. simpl.
  rewrite update_loop_again. reflexivity.
Qed.



Lemma set_origin_None_without_telescopes {pm : Pymap3d} (self : Site.t) :
  Site.telescopes self = [] ->
  Site.set_origin None self
  = (Raise (ValueError "No telescopes defined in the site."), self).
Proof.
  intros Hts. unfold Site.set_origin, Site.compute_barycenter.
  rewrite Hts. reflexivity.
Qed.

(** C7 (amended). On a site without telescopes, [set_origin] with no
    argument raises the [ValueError] of [compute_barycenter] ("No telescopes
    defined in the site.") and leaves the site unchanged; with an explicit
    [Geodetic] it raises nothing and stores that origin. *)
Theorem set_origin_without_telescopes {pm : Pymap3d} (self : Site.t) :
  Site.telescopes self = [] ->
  Site.set_origin None self
  = (Raise (ValueError "No telescopes defined in the site."), self) /\
  forall g,
    Site.set_origin (Some g) self = (Ok tt, Site.set_origin_field self (Some g)).
Proof.
  intros Hts. split.
  - apply set_origin_None_without_telescopes, Hts.
  - intros g. rewrite set_origin_Some, Hts. simpl.
    unfold Site.set_origin_field. rewrite Hts. reflexivity.
Qed.

Lemma set_origin_without_telescopes_witness :
  Site.set_origin (pm := Ideal.pymap3d) None Example.empty
  = (Raise (ValueError "No telescopes defined in the site."), Example.empty) /\
  forall g,
    Site.set_origin (pm := Ideal.pymap3d) (Some g) Example.empty
    = (Ok tt, Site.set_origin_field Example.empty (Some g)).
Proof.
  exact (set_origin_without_telescopes (pm := Ideal.pymap3d) Example.empty
           eq_refl).
Defined.

(** C7, as stated (both forms raise on an empty site), fails for the explicit
    form: the call returns and the site's origin is the given value. *)
Lemma set_origin_explicit_on_empty_site_returns :
  Site.set_origin (pm := Ideal.pymap3d) (Some Example.g0) Example.empty
  = (Ok tt, Site.mk [] (Some Example.g0) None).
Proof. reflexivity. Qed.

(** ** Geodetic.as_array *)

Lemma geodetic_getattr_enu (g : Geodetic.t) (name : string) :
  In name ["e"; "n"; "u"] ->
  Geodetic.getattr g name
  = Raise (AttributeError
             ("'Geodetic' object has no attribute '" ++ name ++ "'")).
Proof.
  intros [<-|[<-|[<-|[]]]]; reflexivity.
Qed.

(** C9. [as_array] on a [Geodetic] never returns: the attributes [e], [n]
    and [u] it reads are not attributes of a [Geodetic] (whose fields are
    [lat], [lon], [alt]), so the call raises, at the first of them. *)
Theorem geodetic_as_array_raises (g : Geodetic.t) :
  (forall name, In name ["e"; "n"; "u"] ->
     exists msg, Geodetic.getattr g name = Raise (AttributeError msg)) /\
  Geodetic.as_array g
  = Raise (AttributeError "'Geodetic' object has no attribute 'e'") /\
  is_ok (Geodetic.as_array g) = false.
Proof.
  split.
  - intros name Hname. eexists. apply geodetic_getattr_enu, Hname.
  - unfold Geodetic.as_array.
    rewrite (geodetic_getattr_enu g "e") by (simpl; auto).
    split; reflexivity.
Qed.

(** ** TrajectoryPlanner.__init__ *)

(** C10. Building a planner on a site without origin calls [set_origin]
    with no argument on that site: the site is left as that call leaves it,
    with the barycenter as origin when there is one, and the construction
    raises when the call raises, as it does on a site without telescopes;
    on a site whose origin is set, the construction returns and leaves the
    site unchanged. *)
Theorem planner_init_sets_missing_origin {pm : Pymap3d} (site : Site.t) :
  (Site.origin site = None ->
   snd (TrajectoryPlanner.__init__ site) = snd (Site.set_origin None site) /\
   (forall g, Site.compute_barycenter site = Ok g ->
      Site.origin (snd (TrajectoryPlanner.__init__ site)) = Some g) /\
   (forall ex, fst (Site.set_origin None site) = Raise ex ->
      fst (TrajectoryPlanner.__init__ site) = Raise ex) /\
   (fst (Site.set_origin None site) = Ok tt ->
      fst (TrajectoryPlanner.__init__ site)
      = Ok (TrajectoryPlanner.mk (snd (Site.set_origin None site)))) /\
   (Site.telescopes site = [] ->
      TrajectoryPlanner.__init__ site
      = (Raise (ValueError "No telescopes defined in the site."), site))) /\
  (forall g, Site.origin site = Some g ->
     TrajectoryPlanner.__init__ site = (Ok (TrajectoryPlanner.mk site), site)).
Proof.
  unfold TrajectoryPlanner.__init__. split.
  - intros Ho. rewrite Ho.
    destruct (Site.set_origin None site) as [r site'] eqn:Hset.
    simpl. repeat split.
    + intros g Hg. unfold Site.set_origin in Hset. rewrite Hg in Hset.
      unfold Site._update_all_enu in Hset. simpl in Hset.
      destruct (Site.update_loop g (Site.telescopes site)) as [r' ts'].
      injection Hset as _ <-. reflexivity.
    + intros ex ->. reflexivity.
    + intros ->. reflexivity.
    + intros Hts.
      rewrite (set_origin_None_without_telescopes site Hts) in Hset. injection Hset as <- <-. reflexivity.
  - intros g Ho. rewrite Ho. reflexivity.
Qed.

Lemma planner_init_sets_missing_origin_witness :
  (exists site',
     Site.origin Example.unanchored = None /\
     Site.compute_barycenter (pm := Ideal.pymap3d) Example.unanchored
     = Ok Example.g0 /\
     TrajectoryPlanner.__init__ (pm := Ideal.pymap3d) Example.unanchored
     = (Ok (TrajectoryPlanner.mk site'), site') /\
     Site.origin site' = Some Example.g0 /\
     exists v, Site.telescopes site'
               = [("A", Telescope.set_enu Example.telA v)]) /\
  TrajectoryPlanner.__init__ (pm := Ideal.pymap3d) Example.empty
  = (Raise (ValueError "No telescopes defined in the site."), Example.empty) /\
  TrajectoryPlanner.__init__ (pm := Ideal.pymap3d) Example.site0
  = (Ok (TrajectoryPlanner.mk Example.site0), Example.site0).
Proof.
  split; [|split].
  - destruct example_set_origin_default_returns as (v & _ & Hset).
    destruct (proj1 (planner_init_sets_missing_origin (pm := Ideal.pymap3d)
                       Example.unanchored) eq_refl)
      as (Hsnd & Horigin & _ & Hok & _).
    rewrite Hset in Hsnd, Hok. cbn [fst snd] in Hsnd, Hok.
    specialize (Hok eq_refl). specialize (Horigin _ example_barycenter).
    exists (Site.mk [("A", Telescope.set_enu Example.telA (of_row v))]
                    (Some Example.g0) None).
    split; [reflexivity|]. split; [exact example_barycenter|].
    split; [|split; [|exists (of_row v); reflexivity]].
    + rewrite (surjective_pairing
                 (TrajectoryPlanner.__init__ (pm := Ideal.pymap3d)
                    Example.unanchored)), Hsnd, Hok.
      reflexivity.
    + reflexivity.
  - exact (proj2 (proj2 (proj2 (proj2
             (proj1 (planner_init_sets_missing_origin (pm := Ideal.pymap3d)
                       Example.empty) eq_refl)))) eq_refl).
  - exact (proj2 (planner_init_sets_missing_origin (pm := Ideal.pymap3d)
                    Example.site0) Example.g0 eq_refl).
Defined.

(** ** Point counts below one *)

Lemma sweep_negative {pm : Pymap3d} (self : TrajectoryPlanner.t) (poi : ENU.t)
  (az srange lo hi : R) (num : Z) (arcc : option ENU.t) :
  (num < 0)%Z ->
  sweep self poi az srange lo hi num arcc
  = Raise (ValueError
             ("Number of samples, " ++ str num ++ ", must be non-negative.")).
Proof.
  intros Hn. unfold sweep. rewrite linspace_negative by exact Hn. reflexivity.
Qed.

Lemma sweep_zero {pm : Pymap3d} (self : TrajectoryPlanner.t) (poi : ENU.t)
  (az srange lo hi : R) (arcc : option ENU.t) (o : Geodetic.t) :
  Site.origin (TrajectoryPlanner.site self) = Some o ->
  (forall el, is_ok (aer2enu az el srange) = true) ->
  (forall e n u, is_ok (enu2aer e n u) = true) ->
  (forall e n u,
      is_ok (enu2geodetic e n u (Geodetic.lat o) (Geodetic.lon o)
                          (Geodetic.alt o)) = true) ->
  exists t,
    sweep self poi az srange lo hi 0 arcc = Ok t /\
    DroneTrajectory.enu t = [] /\
    DroneTrajectory.npoints t = 0%Z.
Proof.
  intros Ho Haer Hlook Hgeo.
  destruct (sweep_returns self poi az srange lo hi 0 arcc o) as (t & Ht);
    try assumption; [lia|].
  destruct (sweep_points _ _ _ _ _ _ _ _ _ _ Ht (linspace_zero lo hi))
    as (Hlen & _).
  destruct (sweep_Ok _ _ _ _ _ _ _ _ _ Ht)
    as (els & rows & looks & _ & _ & _ & _ & _ & _ & Hnp & _).
  exists t. repeat split; try assumption.
  destruct (DroneTrajectory.enu t); [reflexivity | discriminate].
Qed.

(** C6 (amended). With a negative point count both generators raise and
    return no trajectory (the fixed-AER one raises the [ValueError] of
    [linspace]).  A point count of zero is not rejected: with the site's
    origin set and the conversions accepting their arguments, each generator
    returns a trajectory with no points. *)
Theorem arc_point_count_below_one {pm : Pymap3d} (self : TrajectoryPlanner.t)
  (poi_enu : ENU.t) (slant_range az_center el_center el_range : R)
  (nominal_poi : ENU.t) (nominal_az nominal_el nominal_srange : R)
  (poi : ENU.t) (delta_el : R) (num_steps_el : Z) :
  ((num_steps_el < 0)%Z ->
   TrajectoryPlanner.old_arc_trajectory_202404 self poi_enu slant_range
     az_center el_center el_range num_steps_el
   = Raise (ValueError ("Number of samples, " ++ str num_steps_el
                        ++ ", must be non-negative.")) /\
   exists ex,
     TrajectoryPlanner.new_arc_trajectory_202412 self nominal_poi nominal_az
       nominal_el nominal_srange poi delta_el num_steps_el = Raise ex) /\
  (num_steps_el = 0%Z ->
   forall o,
     Site.origin (TrajectoryPlanner.site self) = Some o ->
     (forall e n u, is_ok (enu2aer e n u) = true) ->
     (forall e n u,
         is_ok (enu2geodetic e n u (Geodetic.lat o) (Geodetic.lon o)
                             (Geodetic.alt o)) = true) ->
     ((forall el, is_ok (aer2enu az_center el slant_range) = true) ->
      exists t,
        TrajectoryPlanner.old_arc_trajectory_202404 self poi_enu slant_range
          az_center el_center el_range num_steps_el = Ok t /\
        DroneTrajectory.enu t = [] /\ DroneTrajectory.npoints t = 0%Z) /\
     (forall c a,
        aer2enu nominal_az nominal_el nominal_srange = Ok c ->
        aer_from_to poi (ENU.add nominal_poi (of_row c)) = Ok a ->
        (forall el, is_ok (aer2enu (c0 a) el (c2 a)) = true) ->
        exists t,
          TrajectoryPlanner.new_arc_trajectory_202412 self nominal_poi
            nominal_az nominal_el nominal_srange poi delta_el num_steps_el
          = Ok t /\
          DroneTrajectory.enu t = [] /\ DroneTrajectory.npoints t = 0%Z)).
Proof.
  rewrite old_arc_is_sweep, new_arc_is_sweep. split.
  - intros Hn. split; [apply sweep_negative, Hn|].
    destruct (aer2enu nominal_az nominal_el nominal_srange) as [c|ex];
      [|eexists; reflexivity].
    cbn [bind].
    destruct (aer_from_to poi (ENU.add (of_row c) nominal_poi)) as [a|ex];
      [|eexists; reflexivity].
    cbn [bind]. rewrite sweep_negative by exact Hn. eexists; reflexivity.
  - intros -> o Ho Hlook Hgeo. split.
    + intros Haer. apply sweep_zero with (o := o); assumption.
    + intros c a Hc Ha Haer. rewrite Hc. cbn [bind].
      rewrite ENU_add_comm in Ha. rewrite Ha. cbn [bind].
      apply sweep_zero with (o := o); assumption.
Qed.

Lemma arc_point_count_below_one_witness :
  TrajectoryPlanner.old_arc_trajectory_202404 (pm := Ideal.pymap3d)
    Example.planner0 Example.poi0 1000 90 10 10 (-1)
  = Raise (ValueError "Number of samples, -1, must be non-negative.") /\
  exists t,
    TrajectoryPlanner.new_arc_trajectory_202412 (pm := Ideal.pymap3d)
      Example.planner0 Example.poi0 90 10 1000 Example.poi0 10 0 = Ok t /\
    DroneTrajectory.enu t = [] /\ DroneTrajectory.npoints t = 0%Z.
Proof.
  split.
  - exact (proj1 (proj1 (arc_point_count_below_one (pm := Ideal.pymap3d)
                           Example.planner0 Example.poi0 1000 90 10 10
                           Example.poi0 90 10 1000 Example.poi0 10 (-1))
                        ltac:(lia))).
  - eapply (proj2 (proj2 (arc_point_count_below_one (pm := Ideal.pymap3d)
                            Example.planner0 Example.poi0 1000 90 10 10
                            Example.poi0 90 10 1000 Example.poi0 10 0)
                         eq_refl Example.g0 eq_refl ideal_enu2aer_returns
                         (fun e n u =>
                            ideal_enu2geodetic_returns e n u 0 0 0
                              Rabs_0_le_90))).
    + apply ideal_aer2enu_value. lra.
    + reflexivity.
    + intros el. apply ideal_aer2enu_returns. apply ideal_hypot_nonneg.
Defined.

(** C6, as stated (every N < 1 is rejected), fails at N = 0: the fixed-AER
    generator returns a trajectory, with no points. *)
Lemma old_arc_zero_points_returns :
  exists t,
    TrajectoryPlanner.old_arc_trajectory_202404 (pm := Ideal.pymap3d)
      Example.planner0 Example.poi0 1000 90 10 10 0 = Ok t /\
    DroneTrajectory.enu t = [] /\
    DroneTrajectory.npoints t = 0%Z.
Proof.
  rewrite old_arc_is_sweep.
  apply (sweep_zero (pm := Ideal.pymap3d)) with (o := Example.g0).
  - reflexivity.
  - intros el. apply ideal_aer2enu_returns. lra.
  - apply ideal_enu2aer_returns.
  - intros e n u. apply ideal_enu2geodetic_returns, Rabs_0_le_90.
Qed.

(** * Further properties *)

(** ** DroneTrajectory.compute_geodetic and the geodetic views *)

Lemma compute_geodetic_eq {pm : Pymap3d} (t : DroneTrajectory.t)
  (site : Site.t + Geodetic.t) :
  DroneTrajectory.compute_geodetic t site
  = (o <- match site with
          | inl s =>
              match Site.origin s with
              | None =>
                  Raise (ValueError
                           "Site origin must be set to convert ENU → geodetic.")
              | Some o => Ok o
              end
          | inr g => Ok g
          end ;;
     rows <- mapM (fun p => enu2geodetic (c0 p) (c1 p) (c2 p) (Geodetic.lat o)
                                         (Geodetic.lon o) (Geodetic.alt o))
                  (DroneTrajectory.enu t) ;;
     Ok (DroneTrajectory.set_geodetic t rows)).
Proof.
  unfold DroneTrajectory.compute_geodetic, enu2geodetic_v,
    DroneTrajectory.E, DroneTrajectory.N, DroneTrajectory.U.
  rewrite column_stack_unstack.
  destruct (match site with inl s => _ | inr g => _ end) as [o|ex];
    [|reflexivity].
  cbn [bind]. destruct (mapM _ (DroneTrajectory.enu t)) as [rows|ex];
    [|reflexivity].
  cbn [bind unstack]. rewrite column_stack_unstack. reflexivity.
Qed.

Lemma compute_geodetic_Ok {pm : Pymap3d} (t t' : DroneTrajectory.t)
  (site : Site.t + Geodetic.t) :
  DroneTrajectory.compute_geodetic t site = Ok t' ->
  exists o rows,
    match site with
    | inl s => Site.origin s = Some o
    | inr g => o = g
    end /\
    mapM (fun p => enu2geodetic (c0 p) (c1 p) (c2 p) (Geodetic.lat o)
                                (Geodetic.lon o) (Geodetic.alt o))
         (DroneTrajectory.enu t) = Ok rows /\
    t' = DroneTrajectory.set_geodetic t rows.
Proof.
  rewrite compute_geodetic_eq. intros Hc.
  apply bind_Ok in Hc as (o & Ho & Hc).
  apply bind_Ok in Hc as (rows & Hrows & Hc). injection Hc as <-.
  exists o, rows. repeat split; try assumption.
  destruct site as [s|g].
  - destruct (Site.origin s); [now injection Ho as -> | discriminate].
  - now injection Ho as ->.
Qed.

Lemma compute_geodetic_rows {pm : Pymap3d} (t t' : DroneTrajectory.t)
  (site : Site.t + Geodetic.t) :
  DroneTrajectory.compute_geodetic t site = Ok t' ->
  exists o rows,
    match site with
    | inl s => Site.origin s = Some o
    | inr g => o = g
    end /\
    List.length rows = List.length (DroneTrajectory.enu t) /\
    (forall k, (k < List.length (DroneTrajectory.enu t))%nat ->
       let p := nth k (DroneTrajectory.enu t) (0, 0, 0) in
       enu2geodetic (c0 p) (c1 p) (c2 p) (Geodetic.lat o) (Geodetic.lon o)
                    (Geodetic.alt o) = Ok (nth k rows (0, 0, 0))) /\
    t' = DroneTrajectory.set_geodetic t rows.
Proof.
  intros Hc.
  destruct (compute_geodetic_Ok t t' site Hc) as (o & rows & Ho & Hrows & ->).
  exists o, rows.
  split; [exact Ho|]. split; [apply (mapM_length _ _ _ Hrows)|].
  split; [|reflexivity].
  intros k Hk p. exact (mapM_nth _ _ _ (0, 0, 0) (0, 0, 0) k Hrows Hk).
Qed.

(** X2. When [compute_geodetic] returns, [geodetic] has one row per
    trajectory point, the k-th being [enu2geodetic] of the k-th point relative
    to the origin used (the site's, or the given one); [LAT], [LON] and [ALT]
    then return its three columns; no other field of the trajectory changes;
    and computing once more from the same origin changes nothing. *)
Theorem compute_geodetic_derives_rows {pm : Pymap3d} (t t' : DroneTrajectory.t)
  (site : Site.t + Geodetic.t) :
  DroneTrajectory.compute_geodetic t site = Ok t' ->
  exists o rows,
    match site with
    | inl s => Site.origin s = Some o
    | inr g => o = g
    end /\
    DroneTrajectory.geodetic t' = Some rows /\
    List.length rows = List.length (DroneTrajectory.enu t) /\
    (forall k, (k < List.length (DroneTrajectory.enu t))%nat ->
       let p := nth k (DroneTrajectory.enu t) (0, 0, 0) in
       enu2geodetic (c0 p) (c1 p) (c2 p) (Geodetic.lat o) (Geodetic.lon o)
                    (Geodetic.alt o) = Ok (nth k rows (0, 0, 0))) /\
    DroneTrajectory.LAT t' = Ok (np.col0 rows) /\
    DroneTrajectory.LON t' = Ok (np.col1 rows) /\
    DroneTrajectory.ALT t' = Ok (np.col2 rows) /\
    t' = DroneTrajectory.set_geodetic t rows /\
    DroneTrajectory.compute_geodetic t' site = Ok t'.
Proof.
  intros Hc.
  destruct (compute_geodetic_Ok t t' site Hc) as (o & rows & Ho & Hrows & ->).
  exists o, rows.
  split; [exact Ho|]. split; [reflexivity|].
  split; [apply (mapM_length _ _ _ Hrows)|].
  split; [intros k Hk p;
          exact (mapM_nth _ _ _ (0, 0, 0) (0, 0, 0) k Hrows Hk)|].
  do 4 (split; [reflexivity|]).
  rewrite compute_geodetic_eq in Hc |- *. simpl DroneTrajectory.enu.
  apply bind_Ok in Hc as (o' & -> & Hc). cbn [bind] in Hc |- *.
  apply bind_Ok in Hc as (rows' & Hrows' & Hc). rewrite Hrows'. cbn [bind].
  injection Hc as ->. reflexivity.
Qed.

Lemma compute_geodetic_derives_rows_witness :
  exists t' rows,
    DroneTrajectory.compute_geodetic (pm := Ideal.pymap3d) Example.traj2
      (inl Example.site0) = Ok t' /\
    DroneTrajectory.geodetic t' = Some rows /\
    List.length rows = 2%nat /\
    DroneTrajectory.LAT t' = Ok (np.col0 rows).
Proof.
  destruct (mapM_returns
              (fun p : vec3 => Ideal.enu2geodetic (c0 p) (c1 p) (c2 p) 0 0 0)
              [(1, 2, 3); (3, 4, 5)]) as (rows & Hrows).
  { intros p _. apply ideal_enu2geodetic_returns, Rabs_0_le_90. }
  assert (Hc : DroneTrajectory.compute_geodetic (pm := Ideal.pymap3d)
                 Example.traj2 (inl Example.site0)
               = Ok (DroneTrajectory.set_geodetic Example.traj2 rows)).
  { rewrite compute_geodetic_eq.
    cbn [bind Example.site0 Site.origin Example.traj2 DroneTrajectory.enu].
    change (mapM _ _) with
      (mapM (fun p : vec3 => Ideal.enu2geodetic (c0 p) (c1 p) (c2 p) 0 0 0)
            [(1, 2, 3); (3, 4, 5)]).
    rewrite Hrows. reflexivity. }
  destruct (compute_geodetic_derives_rows (pm := Ideal.pymap3d) _ _ _ Hc)
    as (o & rows' & _ & Hg & Hlen & _ & Hlat & _).
  exists (DroneTrajectory.set_geodetic Example.traj2 rows), rows'.
  repeat split; assumption.
Defined.

(** ** What the generators hand out *)

Lemma sweep_derived_on {pm : Pymap3d} (self : TrajectoryPlanner.t)
  (poi : ENU.t) (az srange lo hi : R) (num : Z) (arcc : option ENU.t)
  (t : DroneTrajectory.t) :
  sweep self poi az srange lo hi num arcc = Ok t ->
  derived_on (TrajectoryPlanner.site self) poi t.
Proof.
  intros Hs.
  destruct (sweep_Ok _ _ _ _ _ _ _ _ _ Hs)
    as (els & rows & looks & Hels & Hrows & Henu & Hlooks & Hyaw & Hpitch
        & Hnp & _ & _ & Hls).
  pose proof (linspace_length _ _ _ _ Hels) as Hlen_els.
  pose proof (mapM_length _ _ _ Hrows) as Hlen_rows.
  pose proof (mapM_length _ _ _ Hlooks) as Hlen_looks.
  assert (Hnum : (0 <= num)%Z).
  { unfold np.linspace in Hels.
    destruct (Z.ltb_spec num 0); [discriminate | assumption]. }
  unfold sweep in Hs.
  apply bind_Ok in Hs as (els' & _ & Hs).
  apply bind_Ok in Hs as ([[e n] u] & _ & Hs).
  apply bind_Ok in Hs as ([[yaw pitch] rng] & _ & Hs).
  apply bind_Ok in Hs as (g & Hg & Hs).
  apply bind_Ok in Hs as (t0 & Hgeo & Hs).
  unfold Site.enu_to_geodetic in Hg.
  destruct (Site.origin (TrajectoryPlanner.site self)) as [o|] eqn:Ho;
    [|discriminate].
  apply bind_Ok in Hg as ([[la lo'] al] & Hconv & Hg). injection Hg as <-.
  destruct (compute_geodetic_rows _ _ _ Hgeo)
    as (o' & grows & Ho' & Hglen & Hgnth & Ht0).
  cbn in Ho'. rewrite Ho in Ho'. injection Ho' as <-.
  injection Hs as Ht. subst t0.
  assert (Hfields :
            DroneTrajectory.geodetic t = Some grows /\
            DroneTrajectory.poi t = Some (Geodetic.mk la lo' al) /\
            DroneTrajectory.enu t
            = np.column_stack (map (fun x => x + ENU.e poi) e)
                              (map (fun x => x + ENU.n poi) n)
                              (map (fun x => x + ENU.u poi) u))
    by (rewrite <- Ht; repeat split).
  destruct Hfields as (Hg & Hpoi & Henu').
  rewrite <- Henu' in Hglen, Hgnth.
  exists o, (Geodetic.mk la lo' al), grows.
  split; [exact Ho|].
  split; [rewrite Hnp, Henu, length_map; lia|].
  split; [rewrite Hyaw; unfold np.col0; rewrite length_map; exact Hlen_looks|].
  split; [rewrite Hpitch; unfold np.col1; rewrite length_map; exact Hlen_looks|].
  unfold DroneTrajectory.LAT, DroneTrajectory.LON, DroneTrajectory.ALT.
  rewrite Hg. repeat split; try assumption; try reflexivity.
Qed.

(** X3. A trajectory returned by either generator is complete: [npoints]
    is the number of ENU points, [yaw], [pitch] and [geodetic] have one entry
    per point, the geodetic rows and the stored POI are [enu2geodetic] of the
    points and of the POI relative to the site's origin, the landing site is
    the site's, and [LAT], [LON], [ALT] return the geodetic columns. *)
Theorem generated_trajectory_is_derived_on_site {pm : Pymap3d}
  (self : TrajectoryPlanner.t)
  (poi_enu : ENU.t) (slant_range az_center el_center el_range : R)
  (nominal_poi : ENU.t) (nominal_az nominal_el nominal_srange : R)
  (poi : ENU.t) (delta_el : R) (num_steps_el : Z) (t : DroneTrajectory.t) :
  (TrajectoryPlanner.old_arc_trajectory_202404 self poi_enu slant_range
     az_center el_center el_range num_steps_el = Ok t ->
   derived_on (TrajectoryPlanner.site self) poi_enu t) /\
  (TrajectoryPlanner.new_arc_trajectory_202412 self nominal_poi nominal_az
     nominal_el nominal_srange poi delta_el num_steps_el = Ok t ->
   derived_on (TrajectoryPlanner.site self) poi t).
Proof.
  split.
  - rewrite old_arc_is_sweep. apply sweep_derived_on.
  - rewrite new_arc_is_sweep. intros Hn.
    apply bind_Ok in Hn as (c & _ & Hn).
    apply bind_Ok in Hn as (a & _ & Hn).
    exact (sweep_derived_on _ _ _ _ _ _ _ _ _ Hn).
Qed.

Lemma generated_trajectory_is_derived_on_site_witness :
  exists t,
    TrajectoryPlanner.old_arc_trajectory_202404 (pm := Ideal.pymap3d)
      Example.planner0 Example.poi0 1000 90 10 10 3 = Ok t /\
    derived_on (pm := Ideal.pymap3d) Example.site0 Example.poi0 t.
Proof.
  destruct (example_sweep_returns 90 1000 (10 - 10 / 2) (10 + 10 / 2) 3 None)
    as (t & Ht); [lra | lia |].
  exists t. split; [exact Ht|].
  exact (proj1 (generated_trajectory_is_derived_on_site (pm := Ideal.pymap3d)
                  Example.planner0 Example.poi0 1000 90 10 10
                  Example.poi0 90 10 1000 Example.poi0 10 3 t) Ht).
Defined.

(** ** Telescopes without ENU position *)

(** X4. A site whose origin is already set is left as it is by the planner's
    constructor, so a telescope of it whose [enu] is [None] stays unanchored;
    for such a telescope [telescope_to_target_aer] (on a point or on an array)
    and [compute_boresight] raise [AttributeError]. *)
Theorem unanchored_telescope_has_no_aer {pm : Pymap3d} (site : Site.t)
  (o : Geodetic.t) (k : string) (telescope : Telescope.t) :
  Site.origin site = Some o ->
  In (k, telescope) (Site.telescopes site) ->
  Telescope.enu telescope = None ->
  TrajectoryPlanner.__init__ site = (Ok (TrajectoryPlanner.mk site), site) /\
  (forall target,
     TrajectoryPlanner.telescope_to_target_aer telescope target
     = Raise (AttributeError "'NoneType' object has no attribute 'e'")) /\
  (forall t,
     TrajectoryPlanner.compute_boresight telescope t
     = Raise (AttributeError "'NoneType' object has no attribute 'e'")).
Proof.
  intros Ho _ Henu.
  assert (Haer : forall target,
             TrajectoryPlanner.telescope_to_target_aer telescope target
             = Raise (AttributeError "'NoneType' object has no attribute 'e'")).
  { intros [p|a]; unfold TrajectoryPlanner.telescope_to_target_aer,
      TrajectoryPlanner.telescope_enu; rewrite Henu; reflexivity. }
  split; [|split].
  - unfold TrajectoryPlanner.__init__. rewrite Ho. reflexivity.
  - exact Haer.
  - intros t. unfold TrajectoryPlanner.compute_boresight. apply Haer.
Qed.

Lemma unanchored_telescope_has_no_aer_witness :
  TrajectoryPlanner.__init__ (pm := Ideal.pymap3d) Example.site0
  = (Ok (TrajectoryPlanner.mk Example.site0), Example.site0) /\
  TrajectoryPlanner.compute_boresight (pm := Ideal.pymap3d) Example.telA
    Example.traj2
  = Raise (AttributeError "'NoneType' object has no attribute 'e'").
Proof.
  destruct (unanchored_telescope_has_no_aer (pm := Ideal.pymap3d)
              Example.site0 Example.g0 "A" Example.telA eq_refl
              (or_introl eq_refl) eq_refl) as (Hinit & _ & Hbore).
  split; [exact Hinit | exact (Hbore Example.traj2)].
Defined.

(** ** telescope_to_target_aer on an array *)

Lemma nth_col0 (rows : list vec3) (k : nat) :
  nth k (np.col0 rows) 0 = c0 (nth k rows (0, 0, 0)).
Proof. exact (map_nth c0 rows (0, 0, 0) k). Qed.

Lemma nth_col1 (rows : list vec3) (k : nat) :
  nth k (np.col1 rows) 0 = c1 (nth k rows (0, 0, 0)).
Proof. exact (map_nth c1 rows (0, 0, 0) k). Qed.

Lemma nth_col2 (rows : list vec3) (k : nat) :
  nth k (np.col2 rows) 0 = c2 (nth k rows (0, 0, 0)).
Proof. exact (map_nth c2 rows (0, 0, 0) k). Qed.

Lemma telescope_to_target_aer_array {pm : Pymap3d} (telescope : Telescope.t)
  (p : ENU.t) (a : list vec3) :
  Telescope.enu telescope = Some p ->
  TrajectoryPlanner.telescope_to_target_aer telescope
    (TrajectoryPlanner.OfArray a)
  = (rows <- mapM (fun q => aer_from_to p (of_row q)) a ;;
     Ok (TrajectoryPlanner.Batch (unstack rows))).
Proof.
  intros Hp.
  unfold TrajectoryPlanner.telescope_to_target_aer,
    TrajectoryPlanner.telescope_enu, enu2aer_v.
  rewrite Hp. cbn [bind].
  rewrite column_stack_cols, mapM_map.
  unfold aer_from_to, ENU.sub, of_row. simpl.
  destruct (mapM _ a); reflexivity.
Qed.

(** X5. For a telescope with an ENU position, [telescope_to_target_aer] on
    an (N,3) array returns exactly when it returns on every row taken as a
    single point, and then its three arrays hold, at each index, the azimuth,
    elevation and range that the call on that row returns. *)
Theorem telescope_to_target_aer_rowwise {pm : Pymap3d}
  (telescope : Telescope.t) (p : ENU.t) (a : list vec3) :
  Telescope.enu telescope = Some p ->
  ((forall q, In q a ->
      is_ok (TrajectoryPlanner.telescope_to_target_aer telescope
               (TrajectoryPlanner.OfENU (of_row q))) = true) ->
   is_ok (TrajectoryPlanner.telescope_to_target_aer telescope
            (TrajectoryPlanner.OfArray a)) = true) /\
  (forall az el srange,
     TrajectoryPlanner.telescope_to_target_aer telescope
       (TrajectoryPlanner.OfArray a)
     = Ok (TrajectoryPlanner.Batch (az, el, srange)) ->
     List.length az = List.length a /\
     List.length el = List.length a /\
     List.length srange = List.length a /\
     forall k, (k < List.length a)%nat ->
       TrajectoryPlanner.telescope_to_target_aer telescope
         (TrajectoryPlanner.OfENU (of_row (nth k a (0, 0, 0))))
       = Ok (TrajectoryPlanner.Scalar
               (nth k az 0, nth k el 0, nth k srange 0))).
Proof.
  intros Hp. rewrite telescope_to_target_aer_array with (p := p) by exact Hp.
  assert (Hscalar : forall q,
             TrajectoryPlanner.telescope_to_target_aer telescope
               (TrajectoryPlanner.OfENU (of_row q))
             = (v <- aer_from_to p (of_row q) ;;
                Ok (TrajectoryPlanner.Scalar v))).
  { intros q. unfold TrajectoryPlanner.telescope_to_target_aer,
      TrajectoryPlanner.telescope_enu. rewrite Hp. reflexivity. }
  split.
  - intros Hall.
    destruct (mapM_returns (fun q => aer_from_to p (of_row q)) a) as (rows & ->);
      [|reflexivity].
    intros q Hq. specialize (Hall q Hq). rewrite Hscalar in Hall.
    destruct (aer_from_to p (of_row q)); [reflexivity | discriminate].
  - intros az el srange Hb.
    apply bind_Ok in Hb as (rows & Hrows & Hb).
    injection Hb as <- <- <-.
    pose proof (mapM_length _ _ _ Hrows) as Hlen.
    unfold np.col0, np.col1, np.col2. rewrite !length_map.
    repeat split; try exact Hlen.
    intros k Hk. rewrite Hscalar.
    rewrite (mapM_nth _ _ _ (0, 0, 0) (0, 0, 0) k Hrows Hk). cbn [bind].
    fold (np.col0 rows) (np.col1 rows) (np.col2 rows).
    rewrite nth_col0, nth_col1, nth_col2.
    destruct (nth k rows (0, 0, 0)) as [[x y] z]. reflexivity.
Qed.

Lemma telescope_to_target_aer_rowwise_witness :
  is_ok (TrajectoryPlanner.telescope_to_target_aer (pm := Ideal.pymap3d)
           Example.telA0 (TrajectoryPlanner.OfArray [(1, 2, 3); (3, 4, 5)]))
  = true.
Proof.
  apply (proj1 (telescope_to_target_aer_rowwise (pm := Ideal.pymap3d)
                  Example.telA0 (ENU.mk 0 0 0) [(1, 2, 3); (3, 4, 5)] eq_refl)).
  intros q _. reflexivity.
Defined.

(** ** More on Site.set_origin *)

Section SetOriginFrame.
Context {pm : Pymap3d}.

Lemma update_loop_same_but_enu (o : Geodetic.t)
  (ts : list (string * Telescope.t)) :
  Forall2 same_but_enu ts (snd (Site.update_loop o ts)).
Proof.
  induction ts as [|[k tel] rest IH]; simpl; [constructor|].
  destruct (geodetic2enu _ _ _ _ _ _) as [[[e n] u]|ex].
  - destruct (Site.update_loop o rest) as [r rest']. simpl in *.
    constructor; [|exact IH]. repeat split.
  - simpl. clear IH. constructor; [repeat split|].
    induction rest as [|x rest IH]; constructor; [repeat split | exact IH].
Qed.

Lemma set_origin_same_but_enu (geodetic : option Geodetic.t) (self : Site.t) :
  Forall2 same_but_enu (Site.telescopes self)
          (Site.telescopes (snd (Site.set_origin geodetic self))).
Proof.
  assert (Hrefl : Forall2 same_but_enu (Site.telescopes self)
                          (Site.telescopes self)).
  { induction (Site.telescopes self); constructor; [repeat split | assumption]. }
  assert (Hsome : forall g,
             Forall2 same_but_enu (Site.telescopes self)
                     (Site.telescopes (snd (Site.set_origin (Some g) self)))).
  { intros g. rewrite set_origin_Some. simpl. apply update_loop_same_but_enu. }
  destruct geodetic as [g|]; [apply Hsome|].
  unfold Site.set_origin.
  destruct (Site.compute_barycenter self) as [g|ex]; [apply (Hsome g) | exact Hrefl].
Qed.

(** The conversions that [update_loop] and [compute_barycenter] make read
    the geodetic position and the focal-plane height only. *)
Lemma update_loop_ext (o : Geodetic.t) (ts ts2 ts1 : list (string * Telescope.t)) :
  Forall2 same_but_enu ts ts2 ->
  Site.update_loop o ts = (Ok tt, ts1) ->
  Site.update_loop o ts2 = (Ok tt, ts1).
Proof.
  intros Hsame; revert ts1.
  induction Hsame as [|[k tel] [k2 tel2] ts ts2 (Hk & Hn & Hg & Hf & He) _ IH];
    intros ts1 Hl; [exact Hl|].
  simpl in *. subst k2. rewrite Hg, Hf.
  destruct (geodetic2enu _ _ _ _ _ _) as [[[e n] u]|ex]; [|discriminate].
  destruct (Site.update_loop o ts) as [r rest'] eqn:Hrest.
  injection Hl as -> <-.
  rewrite (IH rest' eq_refl).
  unfold Telescope.set_enu. rewrite Hn, Hg, Hf, He. reflexivity.
Qed.

Lemma mapM_Forall2 {A B C : Type} (f : A -> result C) (g : B -> result C)
  (l : list A) (l' : list B) :
  Forall2 (fun x y => f x = g y) l l' -> mapM f l = mapM g l'.
Proof.
  induction 1 as [|x y l l' Hxy _ IH]; [reflexivity|].
  simpl. now rewrite Hxy, IH.
Qed.

Lemma compute_barycenter_ext (self self' : Site.t) :
  Forall2 same_but_enu (Site.telescopes self) (Site.telescopes self') ->
  Site.compute_barycenter self' = Site.compute_barycenter self.
Proof.
  intros Hsame. unfold Site.compute_barycenter.
  match goal with
  | |- context [mapM ?f (Site.telescopes self')] =>
      rewrite (mapM_Forall2 f f (Site.telescopes self') (Site.telescopes self))
  end.
  - destruct Hsame; reflexivity.
  - clear -Hsame.
    induction Hsame as [|x y ts ts' (_ & _ & Hg & Hf & _) _ IH]; constructor;
      [|exact IH].
    cbv zeta. now rewrite Hg, Hf.
Qed.

Lemma set_origin_landing_site (geodetic : option Geodetic.t) (self : Site.t) :
  Site.landing_site (snd (Site.set_origin geodetic self))
  = Site.landing_site self.
Proof.
  destruct geodetic as [g|].
  - rewrite set_origin_Some. reflexivity.
  - unfold Site.set_origin.
    destruct (Site.compute_barycenter self) as [g|ex]; [|reflexivity].
    fold (Site.set_origin (Some g) self). rewrite set_origin_Some. reflexivity.
Qed.

End SetOriginFrame.

(** X6. Whether it returns or raises, [set_origin] (with or without an
    argument) touches nothing but the origin and the telescopes' [enu]: the
    site keeps its landing site and its telescopes in the same order, each
    under the same key with the same name, geodetic position, focal-plane
    height and [ecef]. *)
Theorem set_origin_keeps_site_data {pm : Pymap3d}
  (geodetic : option Geodetic.t) (self : Site.t) :
  Site.landing_site (snd (Site.set_origin geodetic self))
  = Site.landing_site self /\
  Forall2 same_but_enu (Site.telescopes self)
          (Site.telescopes (snd (Site.set_origin geodetic self))) /\
  map fst (Site.telescopes (snd (Site.set_origin geodetic self)))
  = map fst (Site.telescopes self).
Proof.
  pose proof (set_origin_same_but_enu geodetic self) as Hsame.
  split; [|split; [exact Hsame|]].
  - apply set_origin_landing_site.
  - induction Hsame as [|x y ts ts' (Hk & _) _ IH]; [reflexivity|].
    simpl. now rewrite Hk, IH.
Qed.

(** X7. [set_origin] with no argument is idempotent: the barycenter does
    not depend on the origin or on the telescopes' [enu], so a second call
    returns what the first returned and leaves the site as the first call
    left it. *)
Theorem set_origin_default_idempotent {pm : Pymap3d} (self : Site.t) :
  Site.set_origin None (snd (Site.set_origin None self))
  = Site.set_origin None self.
Proof.
  pose proof (compute_barycenter_ext self (snd (Site.set_origin None self))
                (set_origin_same_but_enu None self)) as Hbary.
  unfold Site.set_origin at 1 3. rewrite Hbary.
  destruct (Site.compute_barycenter self) as [g|ex] eqn:Hg.
  - fold (Site.set_origin (Some g) self).
    fold (Site.set_origin (Some g) (snd (Site.set_origin None self))).
    replace (Site.set_origin None self) with (Site.set_origin (Some g) self)
      by (unfold Site.set_origin; now rewrite Hg).
    rewrite !set_origin_Some. simpl. rewrite update_loop_again. reflexivity.
  - unfold Site.set_origin. rewrite Hg. simpl. reflexivity.
Qed.

(** X8. The last origin wins: if [set_origin(g)] returns on a site, it
    returns with the very same resulting site after any earlier call of
    [set_origin] on it, whatever that call's argument and whether it returned
    or raised. *)
Theorem set_origin_forgets_earlier_origin {pm : Pymap3d} (g : Geodetic.t)
  (self self1 : Site.t) (earlier : option Geodetic.t) :
  Site.set_origin (Some g) self = (Ok tt, self1) ->
  Site.set_origin (Some g) (snd (Site.set_origin earlier self)) = (Ok tt, self1).
Proof.
  intros Hset.
  pose proof (set_origin_landing_site earlier self) as Hls.
  pose proof (set_origin_same_but_enu earlier self) as Hsame.
  rewrite set_origin_Some in Hset |- *.
  destruct (Site.update_loop g (Site.telescopes self)) as [r ts1] eqn:Hloop.
  simpl in Hset. injection Hset as -> <-.
  rewrite (update_loop_ext g _ _ _ Hsame Hloop). simpl. now rewrite Hls.
Qed.

Lemma example_set_origin_returns :
  exists self1,
    Site.set_origin (pm := Ideal.pymap3d) (Some Example.g0) Example.unanchored
    = (Ok tt, self1).
Proof.
  destruct (is_ok_true _ (ideal_geodetic2enu_returns 0 0 (0 + 0) 0 0 0
                            Rabs_0_le_90 Rabs_0_le_90)) as ([[e n] u] & Hconv).
  eexists. rewrite set_origin_Some. simpl. rewrite Hconv. reflexivity.
Qed.

Lemma set_origin_forgets_earlier_origin_witness :
  exists self1,
    Site.set_origin (pm := Ideal.pymap3d) (Some Example.g0) Example.unanchored
    = (Ok tt, self1) /\
    Site.set_origin (pm := Ideal.pymap3d) (Some Example.g0)
      (snd (Site.set_origin (pm := Ideal.pymap3d)
              (Some (Geodetic.mk 100 0 0)) Example.unanchored))
    = (Ok tt, self1).
Proof.
  destruct example_set_origin_returns as (self1 & Hset).
  exists self1. split; [exact Hset|].
  exact (set_origin_forgets_earlier_origin (pm := Ideal.pymap3d) Example.g0
           Example.unanchored self1 (Some (Geodetic.mk 100 0 0)) Hset).
Defined.

(** ** Site.observe_points *)

Lemma rows3_flat3 (r : list vec3) : np.rows3 (np.flat3 r) = r.
Proof.
  induction r as [|[[x y] z] r IH]; simpl; [reflexivity | now rewrite IH].
Qed.

Lemma rows_of_rows (r : list vec3) : np.rows (np.of_rows r) = r.
Proof. apply rows3_flat3. Qed.

Section ObservePoints.
Context {pm : Pymap3d}.

Lemma set_origin_Ok (geodetic : option Geodetic.t) (self self' : Site.t) :
  Site.set_origin geodetic self = (Ok tt, self') ->
  exists g,
    Site.origin self' = Some g /\
    anchored_at g (Site.telescopes self) (Site.telescopes self').
Proof.
  intros Hset.
  assert (Hg : exists g, Site.set_origin (Some g) self = (Ok tt, self')).
  { destruct geodetic as [g0|]; [eauto|].
    unfold Site.set_origin in Hset |- *.
    destruct (Site.compute_barycenter self) as [g|ex]; [eauto | discriminate]. }
  destruct Hg as (g & Hset'). exists g.
  rewrite set_origin_Some in Hset'.
  destruct (Site.update_loop g (Site.telescopes self)) as [r ts'] eqn:Hloop.
  simpl in Hset'. injection Hset' as -> <-. simpl.
  split; [reflexivity | exact (update_loop_Ok _ _ _ Hloop)].
Qed.

Lemma lookup_In (name : string) (ts : list (string * Telescope.t)) :
  In name (map fst ts) -> exists tel, Site.lookup name ts = Some tel.
Proof.
  induction ts as [|[k tel] rest IH]; simpl; [contradiction|].
  intros [->|Hin].
  - rewrite String.eqb_refl. eauto.
  - destruct (String.eqb k name); eauto.
Qed.

Lemma lookup_anchored_at (o : Geodetic.t) (ts ts' : list (string * Telescope.t))
  (name : string) (tel : Telescope.t) :
  anchored_at o ts ts' -> Site.lookup name ts = Some tel ->
  exists v,
    geodetic2enu (Geodetic.lat (Telescope.geodetic tel))
                 (Geodetic.lon (Telescope.geodetic tel))
                 (Geodetic.alt (Telescope.geodetic tel)
                  + Telescope.focalplane_height tel)
                 (Geodetic.lat o) (Geodetic.lon o) (Geodetic.alt o) = Ok v /\
    Site.lookup name ts' = Some (Telescope.set_enu tel (of_row v)).
Proof.
  induction 1 as [|[k old] [k' new] ts ts' (Hk & v & Hv & Hnew) _ IH];
    simpl; [discriminate|].
  simpl in Hk, Hv, Hnew. subst k' new.
  destruct (String.eqb k name); [|exact IH].
  intros Heq; injection Heq as <-. eauto.
Qed.

Lemma lookup_unanchored (name : string) (ts : list (string * Telescope.t))
  (tel : Telescope.t) :
  Forall (fun kt => Telescope.enu (snd kt) = None) ts ->
  Site.lookup name ts = Some tel -> Telescope.enu tel = None.
Proof.
  induction 1 as [|[k t0] rest Hnone _ IH]; simpl; [discriminate|].
  destruct (String.eqb k name); [|exact IH].
  intros Heq; injection Heq as <-. exact Hnone.
Qed.

(** [observe_points] once the telescope is known to stand at [p]. *)
Lemma observe_points_from (self : Site.t) (pts : np.ndarray) (p : ENU.t)
  (o : Geodetic.t) :
  Site.origin self = Some o ->
  np.ndim pts = 2%nat -> nth 1 (np.shape pts) 0%nat = 3%nat ->
  Site.observe_points self pts (Site.ByENU p)
  = (enus <- mapM (fun q => geodetic2enu (c0 q) (c1 q) (c2 q) (Geodetic.lat o)
                                         (Geodetic.lon o) (Geodetic.alt o))
                  (np.rows pts) ;;
     looks <- mapM (fun q => aer_from_to p (of_row q)) enus ;;
     Ok (np.of_rows looks)).
Proof.
  intros Ho Hdim Hcols.
  unfold Site.observe_points, Site.geodetic_to_enu_ndarray, geodetic2enu_v,
    enu2aer_v.
  rewrite Ho, Hdim, Hcols. cbn [bind Nat.eqb negb].
  rewrite column_stack_unstack.
  destruct (mapM _ (np.rows pts)) as [enus|ex]; [|reflexivity].
  cbn [bind unstack]. rewrite column_stack_unstack, rows_of_rows.
  rewrite column_stack_unstack, mapM_map.
  unfold aer_from_to, ENU.sub, of_row. simpl.
  destruct (mapM _ enus) as [looks|ex]; [|reflexivity].
  cbn [bind unstack]. rewrite column_stack_unstack. reflexivity.
Qed.

End ObservePoints.

Lemma observe_points_stands_at {pm : Pymap3d} (self : Site.t)
  (pts : np.ndarray) (telescope : Site.telescope_ref) (out : np.ndarray) :
  Site.observe_points self pts telescope = Ok out ->
  exists p,
    stands_at self telescope p /\
    Site.observe_points self pts (Site.ByENU p) = Ok out.
Proof.
  unfold Site.observe_points at 1. intros Hobs.
  apply bind_Ok in Hobs as (p & Hp & Hobs).
  exists p. split; [|exact Hobs].
  destruct telescope as [name|tel|q|g]; simpl.
  - destruct (Site.lookup name (Site.telescopes self)) as [tel|];
      [|discriminate].
    exists tel. split; [reflexivity|].
    destruct (Telescope.enu tel); [now injection Hp as -> | discriminate].
  - destruct (Telescope.enu tel); [now injection Hp as -> | discriminate].
  - now injection Hp.
  - exact Hp.
Qed.

(** X9. What [observe_points] returns: the site's origin is set, the
    telescope reference stands for an ENU position, the points form an (N,3)
    array, and the result is an (N,3) array whose k-th row is the AER under
    which that position sees the k-th point converted to ENU relative to the
    site's origin. *)
Theorem observe_points_rows {pm : Pymap3d} (self : Site.t) (pts : np.ndarray)
  (telescope : Site.telescope_ref) (out : np.ndarray) :
  Site.observe_points self pts telescope = Ok out ->
  exists o p,
    Site.origin self = Some o /\
    stands_at self telescope p /\
    np.ndim pts = 2%nat /\
    nth 1 (np.shape pts) 0%nat = 3%nat /\
    np.shape out = [List.length (np.rows pts); 3%nat] /\
    List.length (np.rows out) = List.length (np.rows pts) /\
    forall k, (k < List.length (np.rows pts))%nat ->
      let row := nth k (np.rows pts) (0, 0, 0) in
      exists q,
        geodetic2enu (c0 row) (c1 row) (c2 row) (Geodetic.lat o)
                     (Geodetic.lon o) (Geodetic.alt o) = Ok q /\
        aer_from_to p (of_row q) = Ok (nth k (np.rows out) (0, 0, 0)).
Proof.
  intros Hobs.
  destruct (observe_points_stands_at _ _ _ _ Hobs) as (p & Hp & Hobs').
  assert (Hshape : exists o,
             Site.origin self = Some o /\ np.ndim pts = 2%nat /\
             nth 1 (np.shape pts) 0%nat = 3%nat).
  { unfold Site.observe_points, Site.geodetic_to_enu_ndarray in Hobs'.
    cbn [bind] in Hobs'.
    destruct (Site.origin self) as [o|]; [|discriminate].
    exists o. split; [reflexivity|].
    destruct (Nat.eqb_spec (np.ndim pts) 2); [|discriminate].
    destruct (Nat.eqb_spec (nth 1 (np.shape pts) 0%nat) 3); [|discriminate].
    split; assumption. }
  destruct Hshape as (o & Ho & Hdim & Hcols).
  rewrite (observe_points_from self pts p o Ho Hdim Hcols) in Hobs'.
  apply bind_Ok in Hobs' as (enus & Henus & Hobs').
  apply bind_Ok in Hobs' as (looks & Hlooks & Hobs').
  injection Hobs' as <-.
  pose proof (mapM_length _ _ _ Henus) as Hlen1.
  pose proof (mapM_length _ _ _ Hlooks) as Hlen2.
  exists o, p. rewrite rows_of_rows.
  repeat split; try assumption.
  - simpl. now rewrite Hlen2, Hlen1.
  - lia.
  - intros k Hk row. exists (nth k enus (0, 0, 0)). split.
    + exact (mapM_nth _ _ _ (0, 0, 0) (0, 0, 0) k Henus Hk).
    + apply (mapM_nth (fun q => aer_from_to p (of_row q))); [exact Hlooks | lia].
Qed.

Lemma observe_points_rows_witness :
  exists out,
    Site.observe_points (pm := Ideal.pymap3d) Example.site0
      (np.of_rows [(0, 0, 100); (1, 1, 50)]) (Site.ByENU (ENU.mk 0 0 0))
    = Ok out /\
    np.shape out = [2%nat; 3%nat].
Proof.
  assert (Hret : exists out,
             Site.observe_points (pm := Ideal.pymap3d) Example.site0
               (np.of_rows [(0, 0, 100); (1, 1, 50)])
               (Site.ByENU (ENU.mk 0 0 0)) = Ok out).
  { rewrite (observe_points_from (pm := Ideal.pymap3d) Example.site0
               (np.of_rows [(0, 0, 100); (1, 1, 50)]) (ENU.mk 0 0 0)
               Example.g0 eq_refl eq_refl eq_refl).
    rewrite rows_of_rows.
    destruct (mapM_returns
                (fun q : vec3 =>
                   Ideal.geodetic2enu (c0 q) (c1 q) (c2 q) 0 0 0)
                [(0, 0, 100); (1, 1, 50)]) as (enus & Henus).
    { intros q Hq. apply ideal_geodetic2enu_returns; [|apply Rabs_0_le_90].
      destruct Hq as [<-|[<-|[]]]; cbn [c0 fst].
      - apply Rabs_0_le_90.
      - rewrite Rabs_right; lra. }
    change (mapM _ [(0, 0, 100); (1, 1, 50)]) with
      (mapM (fun q : vec3 => Ideal.geodetic2enu (c0 q) (c1 q) (c2 q) 0 0 0)
            [(0, 0, 100); (1, 1, 50)]).
    rewrite Henus. cbn [bind].
    destruct (mapM_returns
                (fun q => aer_from_to (pm := Ideal.pymap3d) (ENU.mk 0 0 0)
                            (of_row q)) enus) as (looks & ->);
      [intros; reflexivity | cbn [bind]; eexists; reflexivity]. }
  destruct Hret as (out & Hout). exists out. split; [exact Hout|].
  destruct (observe_points_rows (pm := Ideal.pymap3d) _ _ _ _ Hout)
    as (o & p & _ & _ & _ & _ & Hshape & _).
  rewrite rows_of_rows in Hshape. exact Hshape.
Defined.

(** X10. On a site none of whose telescopes has an ENU position yet (the
    site as loaded, before any [set_origin]), [observe_points] by name never
    returns: it raises [ValueError], "not found" for a name that is no key and
    "not computed" for a name that is one, whatever the origin and the
    points. *)
Theorem observe_points_by_name_needs_anchor {pm : Pymap3d} (self : Site.t)
  (pts : np.ndarray) (name : string) :
  Forall (fun kt => Telescope.enu (snd kt) = None) (Site.telescopes self) ->
  (~ In name (map fst (Site.telescopes self)) ->
   Site.observe_points self pts (Site.ByName name)
   = Raise (ValueError ("Telescope '" ++ name ++ "' not found."))) /\
  (In name (map fst (Site.telescopes self)) ->
   Site.observe_points self pts (Site.ByName name)
   = Raise (ValueError
              "Telescope ENU positions are not computed. Call site.set_origin().")).
Proof.
  intros Hnone. unfold Site.observe_points. split.
  - intros Hnot.
    destruct (Site.lookup name (Site.telescopes self)) as [tel|] eqn:Hl;
      [|reflexivity].
    exfalso. apply Hnot. clear -Hl.
    induction (Site.telescopes self) as [|[k t0] rest IH]; simpl in *;
      [discriminate|].
    destruct (String.eqb_spec k name); [left; assumption | right; auto].
  - intros Hin. destruct (lookup_In name _ Hin) as (tel & Hl). rewrite Hl.
    rewrite (lookup_unanchored name _ tel Hnone Hl). reflexivity.
Qed.

Lemma observe_points_by_name_needs_anchor_witness :
  Site.observe_points (pm := Ideal.pymap3d) Example.unanchored
    (np.of_rows [(0, 0, 100)]) (Site.ByName "B")
  = Raise (ValueError "Telescope 'B' not found.") /\
  Site.observe_points (pm := Ideal.pymap3d) Example.unanchored
    (np.of_rows [(0, 0, 100)]) (Site.ByName "A")
  = Raise (ValueError
             "Telescope ENU positions are not computed. Call site.set_origin().").
Proof.
  split.
  - apply (proj1 (observe_points_by_name_needs_anchor (pm := Ideal.pymap3d)
                    Example.unanchored (np.of_rows [(0, 0, 100)]) "B"
                    ltac:(repeat constructor))).
    simpl. intros [H|[]]. discriminate.
  - apply (proj2 (observe_points_by_name_needs_anchor (pm := Ideal.pymap3d)
                    Example.unanchored (np.of_rows [(0, 0, 100)]) "A"
                    ltac:(repeat constructor))).
    simpl. auto.
Defined.

(** X11. After a [set_origin] that returns, every telescope name of the
    site can be observed from: [observe_points] by that name does what it
    does for the ENU position [geodetic2enu] gives the telescope (focal-plane
    height added to the altitude) relative to the new origin. *)
Theorem observe_points_by_name_after_set_origin {pm : Pymap3d}
  (geodetic : option Geodetic.t) (self self' : Site.t) (pts : np.ndarray)
  (name : string) :
  Site.set_origin geodetic self = (Ok tt, self') ->
  In name (map fst (Site.telescopes self)) ->
  exists tel g v,
    Site.lookup name (Site.telescopes self) = Some tel /\
    Site.origin self' = Some g /\
    geodetic2enu (Geodetic.lat (Telescope.geodetic tel))
                 (Geodetic.lon (Telescope.geodetic tel))
                 (Geodetic.alt (Telescope.geodetic tel)
                  + Telescope.focalplane_height tel)
                 (Geodetic.lat g) (Geodetic.lon g) (Geodetic.alt g) = Ok v /\
    Site.observe_points self' pts (Site.ByName name)
    = Site.observe_points self' pts (Site.ByENU (of_row v)).
Proof.
  intros Hset Hin.
  destruct (set_origin_Ok _ _ _ Hset) as (g & Ho & Hanch).
  destruct (lookup_In name _ Hin) as (tel & Hl).
  destruct (lookup_anchored_at _ _ _ _ _ Hanch Hl) as (v & Hv & Hl').
  exists tel, g, v. repeat split; try assumption.
  unfold Site.observe_points. rewrite Hl'. reflexivity.
Qed.

Lemma observe_points_by_name_after_set_origin_witness :
  exists self' v,
    Site.set_origin (pm := Ideal.pymap3d) (Some Example.g0) Example.unanchored
    = (Ok tt, self') /\
    Ideal.geodetic2enu 0 0 (0 + 0) 0 0 0 = Ok v /\
    Site.observe_points (pm := Ideal.pymap3d) self'
      (np.of_rows [(0, 0, 100)]) (Site.ByName "A")
    = Site.observe_points (pm := Ideal.pymap3d) self'
        (np.of_rows [(0, 0, 100)]) (Site.ByENU (of_row v)).
Proof.
  destruct example_set_origin_returns as (self' & Hset).
  destruct (observe_points_by_name_after_set_origin (pm := Ideal.pymap3d)
              _ _ _ (np.of_rows [(0, 0, 100)]) "A" Hset (or_introl eq_refl))
    as (tel & g & v & Hl & Ho & Hv & Hobs).
  injection Hl as <-.
  assert (Hg : g = Example.g0).
  { destruct (set_origin_Ok _ _ _ Hset) as (g' & Ho' & _).
    rewrite set_origin_Some in Hset. injection Hset as _ <-.
    simpl in Ho. now injection Ho. }
  subst g. exists self', v. repeat split; assumption.
Defined.

(** ** The arc and its repetitions *)

Lemma walk_app (l1 l2 : list nat) :
  walk l1 -> walk l2 ->
  (forall x y, l1 <> [] -> l2 <> [] -> last l1 0%nat = x -> hd 0%nat l2 = y ->
               neighbours x y) ->
  walk (l1 ++ l2).
Proof.
  induction l1 as [|a l1 IH]; intros H1 H2 Hj; [exact H2|].
  destruct l1 as [|b l1].
  - destruct l2 as [|c l2]; [exact I|].
    simpl. split; [|exact H2].
    apply (Hj a c); try discriminate; reflexivity.
  - destruct H1 as (Hab & H1). split; [exact Hab|].
    apply IH; [exact H1 | exact H2|].
    intros x y _ Hne Hx Hy. apply Hj; try assumption; discriminate.
Qed.

Lemma walk_seq (a n : nat) : walk (seq a n).
Proof.
  revert a; induction n as [|n IH]; intros a; [exact I|].
  destruct n as [|n]; [exact I|].
  split; [right; reflexivity | apply (IH (S a))].
Qed.

Lemma neighbours_sym (i j : nat) : neighbours i j -> neighbours j i.
Proof. unfold neighbours; tauto. Qed.

Lemma hd_rev {A : Type} (l : list A) (d : A) : hd d (rev l) = last l d.
Proof.
  induction l as [|a l IH]; [reflexivity|].
  simpl rev. destruct l as [|b l]; [reflexivity|].
  change (last (a :: b :: l) d) with (last (b :: l) d). rewrite <- IH.
  destruct (rev (b :: l)) eqn:Hr; [|reflexivity].
  apply (f_equal (@List.length A)) in Hr. rewrite length_rev in Hr. discriminate.
Qed.

Lemma last_rev {A : Type} (l : list A) (d : A) : last (rev l) d = hd d l.
Proof. rewrite <- (rev_involutive l) at 2. now rewrite hd_rev. Qed.

Lemma walk_rev (l : list nat) : walk l -> walk (rev l).
Proof.
  induction l as [|a l IH]; intros Hw; [exact I|].
  simpl rev. destruct l as [|b l]; [exact I|].
  destruct Hw as (Hab & Hw).
  apply walk_app; [apply IH, Hw | exact I|].
  intros x y _ _ Hx Hy. simpl in Hy. subst x y.
  rewrite last_rev. simpl. apply neighbours_sym, Hab.
Qed.

Lemma last_app_nonempty {A : Type} (l1 l2 : list A) (d : A) :
  l2 <> [] -> last (l1 ++ l2) d = last l2 d.
Proof.
  intros Hne. induction l1 as [|a l1 IH]; [reflexivity|].
  simpl app. destruct (l1 ++ l2)%list eqn:Happ; [|exact IH].
  apply app_eq_nil in Happ. tauto.
Qed.

Lemma inner_seq (n : nat) : py.inner (seq 0 (S (S n))) = seq 1 n.
Proof.
  unfold py.inner. change (tl (seq 0 (S (S n)))) with (seq 1 (S n)).
  rewrite seq_S. apply removelast_last.
Qed.

(** The indices of one pass there and back over an arc of [n + 2] points. *)
Lemma there_and_back_indices (n : nat) :
  let base := (seq 0 (S (S n)) ++ rev (py.inner (seq 0 (S (S n)))))%list in
  walk base /\ hd 0%nat base = 0%nat /\ last base 0%nat = 1%nat /\
  Forall (fun i => (i < S (S n))%nat) base /\
  List.length base = (2 * S (S n) - 2)%nat.
Proof.
  intros base. unfold base. rewrite inner_seq.
  split; [|split; [reflexivity|split; [|split]]].
  - apply walk_app; [apply walk_seq | apply walk_rev, walk_seq|].
    intros x y _ Hne Hx Hy. subst x y.
    rewrite (seq_S (S n)), last_last. simpl Nat.add.
    destruct n as [|n]; [exfalso; apply Hne; reflexivity|].
    rewrite hd_rev, seq_S, last_last. left. lia.
  - destruct n as [|n]; [reflexivity|].
    rewrite last_app_nonempty by (intros Hr; apply (f_equal (@List.length nat)) in Hr;
                         rewrite length_rev, length_seq in Hr; discriminate).
    apply last_rev.
  - apply Forall_app. split.
    + apply Forall_forall. intros i Hi. apply in_seq in Hi. lia.
    + apply Forall_forall. intros i Hi. apply in_rev, in_seq in Hi. lia.
  - rewrite length_app, length_rev, !length_seq. lia.
Qed.

Lemma walk_times (base : list nat) (n : nat) :
  walk base -> neighbours (last base 0%nat) (hd 0%nat base) ->
  walk (List.concat (repeat base n)).
Proof.
  intros Hw Hj. induction n as [|n IH]; [exact I|].
  simpl. apply walk_app; [exact Hw | exact IH|].
  intros x y _ Hne Hx Hy. subst x y.
  destruct n as [|n]; [exfalso; apply Hne; reflexivity|].
  simpl. destruct base as [|b base]; [exfalso; apply Hne|exact Hj].
  clear. induction n; [reflexivity | assumption].
Qed.

Lemma arc_repetitions_map {A B : Type} (f : A -> B) (l : list A) (n : Z) :
  trajectory_io.arc_repetitions (map f l) n
  = map f (trajectory_io.arc_repetitions l n).
Proof.
  unfold trajectory_io.arc_repetitions, py.times, py.inner.
  assert (Hbase : (map f l ++ rev (removelast (tl (map f l))))%list
                  = map f (l ++ rev (removelast (tl l)))%list).
  { rewrite map_app, map_rev. do 2 f_equal.
    destruct l as [|a l]; [reflexivity|]. simpl tl.
    induction l as [|b l IH]; [reflexivity|].
    destruct l as [|c l]; [reflexivity|].
    change (f b :: removelast (map f (c :: l))
            = f b :: map f (removelast (c :: l)))%list.
    f_equal. exact IH. }
  rewrite Hbase. generalize (l ++ rev (removelast (tl l)))%list as base.
  intros base. induction (Z.to_nat n) as [|k IH]; [reflexivity|].
  simpl. now rewrite map_app, IH.
Qed.

Lemma map_nth_seq {A : Type} (l : list A) (d : A) :
  map (fun i => nth i l d) (seq 0 (List.length l)) = l.
Proof.
  induction l as [|a l IH]; [reflexivity|].
  simpl. f_equal. rewrite <- seq_shift, map_map. exact IH.
Qed.

(** X12. The way points flown over an arc of at least two points, there
    and back and repeated [n_repeat] times, move from each arc point to one
    of its two neighbours: the path is the arc's points taken along a list of
    indices that starts at 0, steps by one up or down each time, stays within
    the arc, and has [n_repeat * (2 N - 2)] entries. *)
Theorem arc_repetitions_steps_between_neighbours {A : Type} (l : list A)
  (d : A) (n_repeat : Z) :
  (2 <= List.length l)%nat ->
  exists idx,
    trajectory_io.arc_repetitions l n_repeat = map (fun i => nth i l d) idx /\
    walk idx /\
    Forall (fun i => (i < List.length l)%nat) idx /\
    List.length idx = (Z.to_nat n_repeat * (2 * List.length l - 2))%nat /\
    ((0 < n_repeat)%Z -> hd 0%nat idx = 0%nat).
Proof.
  intros Hlen.
  exists (trajectory_io.arc_repetitions (seq 0 (List.length l)) n_repeat).
  split; [rewrite <- arc_repetitions_map, map_nth_seq; reflexivity|].
  destruct (List.length l) as [|[|n]]; try lia. clear Hlen.
  destruct (there_and_back_indices n) as (Hw & Hhd & Hlast & Hall & Hlen).
  unfold trajectory_io.arc_repetitions, py.times.
  set (base := (seq 0 (S (S n)) ++ rev (py.inner (seq 0 (S (S n)))))%list) in *.
  clearbody base.
  split; [|split; [|split]].
  - apply walk_times; [exact Hw|]. rewrite Hhd, Hlast. left; reflexivity.
  - induction (Z.to_nat n_repeat) as [|k IH]; [constructor|].
    simpl. apply Forall_app. split; assumption.
  - induction (Z.to_nat n_repeat) as [|k IH]; [reflexivity|].
    simpl List.concat. rewrite length_app, IH, Hlen. lia.
  - intros Hpos. destruct (Z.to_nat n_repeat) as [|k] eqn:Hk; [lia|].
    simpl. destruct base as [|b base]; [discriminate | exact Hhd].
Qed.

Lemma arc_repetitions_steps_between_neighbours_witness :
  exists idx,
    trajectory_io.arc_repetitions ["a"; "b"; "c"] 2
    = map (fun i => nth i ["a"; "b"; "c"] "") idx /\
    walk idx /\
    List.length idx = 8%nat.
Proof.
  destruct (arc_repetitions_steps_between_neighbours ["a"; "b"; "c"] "" 2
              ltac:(simpl; lia)) as (idx & Hpath & Hw & _ & Hlen & _).
  exists idx. repeat split; assumption.
Defined.

(** ** Mission items and the QGroundControl plan *)

Lemma nth_snoc_id (ws : list qgc.item) (it d : qgc.item) (k : nat) :
  (forall j, (j < List.length ws)%nat ->
             qgc.doJumpId (nth j ws d) = (Z.of_nat j + 1)%Z) ->
  qgc.doJumpId it = (Z.of_nat (List.length ws) + 1)%Z ->
  (k < List.length (ws ++ [it]))%nat ->
  qgc.doJumpId (nth k (ws ++ [it]) d) = (Z.of_nat k + 1)%Z.
Proof.
  intros IH Hit Hk. rewrite length_app in Hk. simpl in Hk.
  destruct (Nat.lt_ge_cases k (List.length ws)) as [Hlt | Hge].
  - rewrite app_nth1 by exact Hlt. apply IH, Hlt.
  - assert (k = List.length ws) by lia. subst k.
    rewrite nth_middle. exact Hit.
Qed.

(** X13. However a mission is put together with [append_waypoint],
    [append_poi], [append_speed], [append_rth] and [append_delay], starting
    from the empty list, its items carry the [doJumpId]s 1, 2, 3, ... in
    order. *)
Theorem appended_items_are_numbered_from_one (ws : list qgc.item)
  (d : qgc.item) (k : nat) :
  built ws -> (k < List.length ws)%nat ->
  qgc.doJumpId (nth k ws d) = (Z.of_nat k + 1)%Z.
Proof.
  intros Hb. revert k.
  induction Hb as [|ws lat lon alt Hb IH|ws lat lon alt Hb IH|ws v Hb IH
                   |ws Hb IH|ws s Hb IH]; intros k Hk;
    [simpl in Hk; lia|..];
    apply nth_snoc_id; try assumption; reflexivity.
Qed.

Lemma appended_items_are_numbered_from_one_witness :
  qgc.doJumpId
    (nth 2 (qgc.append_rth
              (qgc.append_waypoint (qgc.append_speed [] 5) 46 11 30))
         (qgc.qgc_rth 0))
  = 3%Z.
Proof.
  apply (appended_items_are_numbered_from_one
           (qgc.append_rth
              (qgc.append_waypoint (qgc.append_speed [] 5) 46 11 30))
           (qgc.qgc_rth 0) 2).
  - repeat constructor.
  - simpl. lia.
Defined.

Lemma number_from_app {A : Type} (k : Z) (fs gs : list (Z -> A)) :
  number_from k (fs ++ gs)
  = (number_from k fs
     ++ number_from (k + Z.of_nat (List.length fs)) gs)%list.
Proof.
  revert k; induction fs as [|f fs IH]; intros k.
  - simpl. now rewrite Z.add_0_r.
  - simpl app. simpl number_from. rewrite IH.
    replace (k + 1 + Z.of_nat (List.length fs))%Z
      with (k + Z.of_nat (List.length (f :: fs)))%Z
      by (simpl List.length; lia).
    reflexivity.
Qed.

Lemma number_from_length {A : Type} (k : Z) (fs : list (Z -> A)) :
  List.length (number_from k fs) = List.length fs.
Proof.
  revert k; induction fs as [|f fs IH]; intros k; [reflexivity|].
  simpl. now rewrite IH.
Qed.

(** A loop of appends adds its items with the next free numbers. *)
Lemma fold_append {X : Type} (g : X -> Z -> qgc.item) (xs : list X)
  (ws : list qgc.item) :
  fold_left
    (fun ws x => (ws ++ [g x (Z.of_nat (List.length ws) + 1)%Z])%list) xs ws
  = (ws ++ number_from (Z.of_nat (List.length ws) + 1) (map g xs))%list.
Proof.
  revert ws; induction xs as [|x xs IH]; intros ws.
  - simpl. now rewrite app_nil_r.
  - simpl fold_left. rewrite IH, <- app_assoc. f_equal.
    simpl. do 2 f_equal. rewrite length_app. simpl List.length. lia.
Qed.

Lemma number_from_snoc (fs : list (Z -> qgc.item)) (f : Z -> qgc.item) :
  (number_from 1 fs
   ++ [f (Z.of_nat (List.length (number_from 1 fs)) + 1)%Z])%list
  = number_from 1 (fs ++ [f]).
Proof.
  rewrite number_from_app, number_from_length. cbn [number_from].
  replace (1 + Z.of_nat (List.length fs))%Z
    with (Z.of_nat (List.length fs) + 1)%Z by lia.
  reflexivity.
Qed.

Lemma number_from_fold {X : Type} (g : X -> Z -> qgc.item) (xs : list X)
  (fs : list (Z -> qgc.item)) :
  fold_left
    (fun ws x => (ws ++ [g x (Z.of_nat (List.length ws) + 1)%Z])%list) xs
    (number_from 1 fs)
  = number_from 1 (fs ++ map g xs).
Proof.
  rewrite fold_append, number_from_app, number_from_length.
  replace (1 + Z.of_nat (List.length fs))%Z
    with (Z.of_nat (List.length fs) + 1)%Z by lia.
  reflexivity.
Qed.

Lemma fold_append_waypoint (h : vec3 -> R) (pts : list vec3)
  (fs : list (Z -> qgc.item)) :
  fold_left (fun ws p => qgc.append_waypoint ws (c0 p) (c1 p) (h p)) pts
            (number_from 1 fs)
  = number_from 1
      (fs ++ map (fun p id => qgc.qgc_waypoint id (c0 p) (c1 p) (h p)) pts).
Proof.
  exact (number_from_fold
           (fun p id => qgc.qgc_waypoint id (c0 p) (c1 p) (h p)) pts fs).
Qed.

Lemma append_waypoint_number_from (fs : list (Z -> qgc.item)) (lat lon alt : R) :
  qgc.append_waypoint (number_from 1 fs) lat lon alt
  = number_from 1 (fs ++ [fun id => qgc.qgc_waypoint id lat lon alt]).
Proof.
  exact (number_from_snoc fs (fun id => qgc.qgc_waypoint id lat lon alt)).
Qed.

Lemma append_speed_number_from (fs : list (Z -> qgc.item)) (v : R) :
  qgc.append_speed (number_from 1 fs) v
  = number_from 1 (fs ++ [fun id => qgc.qgc_speed id v]).
Proof. exact (number_from_snoc fs (fun id => qgc.qgc_speed id v)). Qed.

Lemma append_rth_number_from (fs : list (Z -> qgc.item)) :
  qgc.append_rth (number_from 1 fs) = number_from 1 (fs ++ [qgc.qgc_rth]).
Proof. exact (number_from_snoc fs qgc.qgc_rth). Qed.

(** The plan that [export_mission_qgc] builds once its inputs are there. *)
Lemma export_mission_qgc_eq {F : Type} (t : DroneTrajectory.t)
  (move_speed scan_speed : R) (n_repeat : Z) (sw : option string)
  (fence add_rth : bool) (data : coords.geofence_file F)
  (poi ls : Geodetic.t) (rows safety : list vec3) :
  DroneTrajectory.poi t = Some poi ->
  DroneTrajectory.landing_site t = Some ls ->
  DroneTrajectory.geodetic t = Some rows ->
  match py.truthy sw with
  | Some key =>
      coords.safety_points (coords.safety_waypoints data) key
      = Return safety
  | None => safety = []
  end ->
  trajectory_io.export_mission_qgc t move_speed scan_speed n_repeat sw fence
                                   add_rth (Return data)
  = match trajectory_io.arc_repetitions rows n_repeat with
    | [] => Throw (IndexError "list index out of range")
    | first :: rest =>
        Return
          (trajectory_io.mk_plan "Plan"
             (if fence
              then trajectory_io.FileFences (coords.fences data)
              else trajectory_io.NoFences)
             "QGroundControl"
             (trajectory_io.mk_mission 0 12
                (plan_items poi ls move_speed scan_speed safety first rest
                            add_rth)
                [Geodetic.lat ls; Geodetic.lon ls; Geodetic.alt ls] 2 2)
             ([], 2%Z) 1)
    end.
Proof.
  intros Hpoi Hls Hrows Hsafety.
  unfold trajectory_io.export_mission_qgc.
  rewrite Hpoi, Hls, Hrows. cbn [py.attr obind].
  change (qgc.append_poi [] (Geodetic.lat poi) (Geodetic.lon poi)
                         (Geodetic.alt poi - Geodetic.alt ls))
    with (number_from 1
            [fun id => qgc.qgc_poi id (Geodetic.lat poi) (Geodetic.lon poi)
                         (Geodetic.alt poi - Geodetic.alt ls)]).
  rewrite append_speed_number_from.
  assert (Hws :
    match py.truthy sw with
    | Some key =>
        safety_points_ <~
          coords.safety_points (coords.safety_waypoints data) key ;;
        Return
          (fold_left
             (fun ws safety_point =>
                qgc.append_waypoint ws (c0 safety_point) (c1 safety_point)
                                    (c2 safety_point))
             safety_points_
             (number_from 1
                ([fun id => qgc.qgc_poi id (Geodetic.lat poi) (Geodetic.lon poi)
                              (Geodetic.alt poi - Geodetic.alt ls)]
                 ++ [fun id => qgc.qgc_speed id move_speed])))
    | None =>
        Return
          (number_from 1
             ([fun id => qgc.qgc_poi id (Geodetic.lat poi) (Geodetic.lon poi)
                           (Geodetic.alt poi - Geodetic.alt ls)]
              ++ [fun id => qgc.qgc_speed id move_speed]))
    end
    = Return
        (number_from 1
           (([fun id => qgc.qgc_poi id (Geodetic.lat poi) (Geodetic.lon poi)
                          (Geodetic.alt poi - Geodetic.alt ls)]
             ++ [fun id => qgc.qgc_speed id move_speed])
            ++ map (fun s id => qgc.qgc_waypoint id (c0 s) (c1 s) (c2 s))
                   safety))).
  { destruct (py.truthy sw) as [key|].
    - rewrite Hsafety. cbn [obind].
      now rewrite (fold_append_waypoint (fun p => c2 p)).
    - subst safety. now rewrite app_nil_r. }
  rewrite Hws. cbn [obind]. clear Hws.
  destruct (trajectory_io.arc_repetitions rows n_repeat) as [|first rest];
    [reflexivity|].
  cbn [py.first obind tl].
  rewrite append_waypoint_number_from, append_speed_number_from.
  rewrite (fold_append_waypoint (fun p => c2 p - Geodetic.alt ls)).
  unfold plan_items. do 2 f_equal.
  destruct add_rth.
  - rewrite append_rth_number_from. f_equal.
    rewrite <- !app_assoc. reflexivity.
  - f_equal. rewrite <- !app_assoc, app_nil_r. reflexivity.
Qed.

Lemma arc_repetitions_length {A : Type} (l : list A) (n : Z) :
  List.length (trajectory_io.arc_repetitions l n)
  = (Z.to_nat n * (List.length l + (List.length l - 2)))%nat.
Proof.
  unfold trajectory_io.arc_repetitions, py.times, py.inner.
  assert (Hbase : List.length (l ++ rev (removelast (tl l)))%list
                  = (List.length l + (List.length l - 2))%nat).
  { rewrite length_app, length_rev, removelast_length.
    destruct l; simpl; lia. }
  revert Hbase. generalize (l ++ rev (removelast (tl l)))%list as base.
  intros base Hbase. induction (Z.to_nat n) as [|k IH]; [reflexivity|].
  simpl List.concat. rewrite length_app, IH, Hbase. lia.
Qed.

Lemma plan_items_length (poi ls : Geodetic.t) (move_speed scan_speed : R)
  (safety : list vec3) (first : vec3) (rest : list vec3) (add_rth : bool) :
  List.length (plan_items poi ls move_speed scan_speed safety first rest add_rth)
  = (3 + List.length safety + List.length (first :: rest)
     + (if add_rth then 1 else 0))%nat.
Proof.
  unfold plan_items.
  rewrite number_from_length, !length_app, !length_map.
  destruct add_rth; simpl List.length; lia.
Qed.

(** X14. A plan that [export_mission_qgc] returns holds, numbered from 1:
    the point of interest, the transit speed, the safety way points of the
    requested direction with the altitudes of the geofence file, the first
    point of the repeated arc, the scan speed, the remaining points of the
    repeated arc, and a return to launch if asked for.  The altitudes of the
    point of interest and of the arc points are relative to the landing site,
    which is the planned home position; the geofence is the file's only if
    [fence] is set.  (The geofence file is loaded.) *)
Theorem export_mission_qgc_plan {F : Type} (t : DroneTrajectory.t)
  (move_speed scan_speed : R) (n_repeat : Z) (sw : option string)
  (fence add_rth : bool) (data : coords.geofence_file F)
  (p : trajectory_io.plan F) :
  trajectory_io.export_mission_qgc t move_speed scan_speed n_repeat sw fence
                                   add_rth (Return data) = Return p ->
  exists poi ls rows safety first rest,
    DroneTrajectory.poi t = Some poi /\
    DroneTrajectory.landing_site t = Some ls /\
    DroneTrajectory.geodetic t = Some rows /\
    match py.truthy sw with
    | Some key =>
        coords.safety_points (coords.safety_waypoints data) key
        = Return safety
    | None => safety = []
    end /\
    trajectory_io.arc_repetitions rows n_repeat = first :: rest /\
    trajectory_io.items (trajectory_io.plan_mission p)
    = plan_items poi ls move_speed scan_speed safety first rest add_rth /\
    trajectory_io.plannedHomePosition (trajectory_io.plan_mission p)
    = [Geodetic.lat ls; Geodetic.lon ls; Geodetic.alt ls] /\
    trajectory_io.geoFence p
    = (if fence then trajectory_io.FileFences (coords.fences data)
       else trajectory_io.NoFences).
Proof.
  intros Hp.
  destruct (DroneTrajectory.poi t) as [poi|] eqn:Hpoi;
    [|unfold trajectory_io.export_mission_qgc in Hp; rewrite Hpoi in Hp;
      discriminate].
  destruct (DroneTrajectory.landing_site t) as [ls|] eqn:Hls;
    [|unfold trajectory_io.export_mission_qgc in Hp; rewrite Hpoi, Hls in Hp;
      discriminate].
  assert (Hsafety : exists safety,
             match py.truthy sw with
             | Some key =>
                 coords.safety_points
                   (coords.safety_waypoints data) key = Return safety
             | None => safety = []
             end).
  { destruct (py.truthy sw) as [key|] eqn:Hsw; [|eauto].
    destruct (coords.safety_points
                (coords.safety_waypoints data) key) as [safety|e] eqn:Hk;
      [eauto|].
    unfold trajectory_io.export_mission_qgc in Hp.
    rewrite Hpoi, Hls, Hsw in Hp. cbn [py.attr obind] in Hp.
    rewrite Hk in Hp. discriminate. }
  destruct Hsafety as (safety & Hsafety).
  destruct (DroneTrajectory.geodetic t) as [rows|] eqn:Hrows.
  - rewrite (export_mission_qgc_eq t move_speed scan_speed n_repeat sw fence
               add_rth data poi ls rows safety Hpoi Hls Hrows Hsafety) in Hp.
    destruct (trajectory_io.arc_repetitions rows n_repeat) as [|first rest]
      eqn:Hpath; [discriminate|].
    injection Hp as <-.
    exists poi, ls, rows, safety, first, rest.
    repeat split; try assumption; reflexivity.
  - unfold trajectory_io.export_mission_qgc in Hp.
    rewrite Hpoi, Hls, Hrows in Hp. cbn [py.attr obind] in Hp.
    destruct (py.truthy sw) as [key|].
    + rewrite Hsafety in Hp. discriminate.
    + discriminate.
Qed.

Lemma export_mission_qgc_plan_witness :
  exists p,
    trajectory_io.export_mission_qgc Example.traj_geo 5 1 2 (Some "south")
                                     true true (Return Example.geofence_data)
    = Return p /\
    trajectory_io.plannedHomePosition (trajectory_io.plan_mission p)
    = [0; 0; 10] /\
    trajectory_io.geoFence p = trajectory_io.FileFences tt.
Proof.
  assert (Hp : { p | trajectory_io.export_mission_qgc
                       Example.traj_geo 5 1 2 (Some "south") true true
                       (Return Example.geofence_data) = Return p })
    by (eexists; reflexivity).
  destruct Hp as (p & Hp). exists p. split; [exact Hp|].
  destruct (export_mission_qgc_plan _ _ _ _ _ _ _ _ _ Hp)
    as (poi & ls & rows & safety & first & rest & _ & Hls & _ & _ & _ & _
        & Hhome & Hfence).
  cbn in Hls. injection Hls as <-. split; [exact Hhome | exact Hfence].
Defined.

Lemma arc_repetitions_nil {A : Type} (l : list A) (n : Z) :
  trajectory_io.arc_repetitions l n = [] <-> l = [] \/ (n <= 0)%Z.
Proof.
  split.
  - intros Hnil. apply (f_equal (@List.length A)) in Hnil.
    rewrite arc_repetitions_length in Hnil. simpl in Hnil.
    destruct l as [|a l]; [left; reflexivity|right].
    simpl List.length in Hnil. nia.
  - intros Hc. apply length_zero_iff_nil. rewrite arc_repetitions_length.
    destruct Hc as [-> | Hn]; [simpl; lia|].
    replace (Z.to_nat n) with 0%nat by lia. reflexivity.
Qed.

(** X15. Exporting a trajectory that a generator derived on a site (the
    geofence file loaded; with no safety way points, or with a direction the
    file knows): without
    a landing site on the site the export raises [AttributeError]; with one,
    it raises [IndexError] when the trajectory has no points or [n_repeat] is
    not positive, and otherwise returns a plan whose planned home position is
    the site's landing site and which has
    [3 + |safety points| + n_repeat * (N + (N - 2)) + (1 if add_rth)] items,
    [N] being the trajectory's [npoints] and [N - 2] counted as 0 below 2. *)
Theorem export_of_derived_trajectory {pm : Pymap3d} {F : Type} (site : Site.t)
  (poi_enu : ENU.t) (t : DroneTrajectory.t) (move_speed scan_speed : R)
  (n_repeat : Z) (sw : option string) (fence add_rth : bool)
  (data : coords.geofence_file F) (safety : list vec3) :
  derived_on site poi_enu t ->
  match py.truthy sw with
  | Some key =>
      coords.safety_points (coords.safety_waypoints data) key
      = Return safety
  | None => safety = []
  end ->
  match Site.landing_site site with
  | None =>
      trajectory_io.export_mission_qgc t move_speed scan_speed n_repeat sw
                                       fence add_rth (Return data)
      = Throw (Builtin (AttributeError
                          "'NoneType' object has no attribute 'alt'"))
  | Some ls =>
      if ((0 <? DroneTrajectory.npoints t)%Z && (0 <? n_repeat)%Z)%bool
      then
        exists p,
          trajectory_io.export_mission_qgc t move_speed scan_speed n_repeat sw
                                           fence add_rth (Return data) = Return p /\
          trajectory_io.plannedHomePosition (trajectory_io.plan_mission p)
          = [Geodetic.lat ls; Geodetic.lon ls; Geodetic.alt ls] /\
          List.length (trajectory_io.items (trajectory_io.plan_mission p))
          = (3 + List.length safety
             + Z.to_nat n_repeat
               * (Z.to_nat (DroneTrajectory.npoints t)
                  + (Z.to_nat (DroneTrajectory.npoints t) - 2))
             + (if add_rth then 1 else 0))%nat
      else
        trajectory_io.export_mission_qgc t move_speed scan_speed n_repeat sw
                                         fence add_rth (Return data)
        = Throw (IndexError "list index out of range")
  end.
Proof.
  intros (o & g & rows & _ & Hnp & _ & _ & Hgeo & Hlen & _ & _ & Hpoi & Hls & _)
         Hsafety.
  destruct (Site.landing_site site) as [ls|].
  - rewrite (export_mission_qgc_eq t move_speed scan_speed n_repeat sw fence
               add_rth data g ls rows safety Hpoi Hls Hgeo Hsafety).
    pose proof (arc_repetitions_length rows n_repeat) as Hpath.
    pose proof (arc_repetitions_nil rows n_repeat) as Hnil.
    rewrite Hlen in Hpath.
    destruct (trajectory_io.arc_repetitions rows n_repeat) as [|first rest].
    + destruct (Z.ltb_spec 0 (DroneTrajectory.npoints t)) as [Hn|Hn];
        [|reflexivity].
      destruct (Z.ltb_spec 0 n_repeat) as [Hr|Hr]; [|reflexivity].
      exfalso. destruct (proj1 Hnil eq_refl) as [-> | Hle]; [|lia].
      simpl in Hlen. lia.
    + destruct (Z.ltb_spec 0 (DroneTrajectory.npoints t)) as [Hn|Hn].
      * destruct (Z.ltb_spec 0 n_repeat) as [Hr|Hr].
        -- cbn [andb]. eexists. split; [reflexivity|]. split; [reflexivity|].
           cbn [trajectory_io.items trajectory_io.plan_mission].
           rewrite plan_items_length, Hpath, Hnp, Nat2Z.id. reflexivity.
        -- exfalso. assert (Hc : first :: rest = []) by (apply Hnil; right; lia).
           discriminate.
      * exfalso. assert (Hc : first :: rest = []).
        { apply Hnil. left. apply length_zero_iff_nil. lia. }
        discriminate.
  - unfold trajectory_io.export_mission_qgc. rewrite Hpoi, Hls. reflexivity.
Qed.

Lemma export_of_derived_trajectory_witness :
  exists t p,
    TrajectoryPlanner.old_arc_trajectory_202404 (pm := Ideal.pymap3d)
      Example.planner1 Example.poi0 1000 90 10 10 3 = Ok t /\
    trajectory_io.export_mission_qgc t 5 1 2 (Some "south") false true
                                     (Return Example.geofence_data) = Return p /\
    List.length (trajectory_io.items (trajectory_io.plan_mission p)) = 14%nat.
Proof.
  destruct (sweep_returns (pm := Ideal.pymap3d) Example.planner1 Example.poi0
              90 1000 (10 - 10 / 2) (10 + 10 / 2) 3 None Example.g0)
    as (t & Ht);
    [lia | reflexivity | intros; apply ideal_aer2enu_returns; lra
     | apply ideal_enu2aer_returns
     | intros; apply ideal_enu2geodetic_returns, Rabs_0_le_90 |].
  pose proof (sweep_derived_on (pm := Ideal.pymap3d) _ _ _ _ _ _ _ _ _ Ht)
    as Hd.
  destruct (sweep_Ok (pm := Ideal.pymap3d) _ _ _ _ _ _ _ _ _ Ht)
    as (_ & _ & _ & _ & _ & _ & _ & _ & _ & Hnp & _).
  pose proof (export_of_derived_trajectory (pm := Ideal.pymap3d)
                Example.site1 Example.poi0 t 5 1 2 (Some "south") false true
                Example.geofence_data [(0, 0, 20); (0, 1, 20)] Hd eq_refl)
    as Hx.
  cbn [Site.landing_site Example.site1] in Hx. rewrite Hnp in Hx.
  cbn [andb Z.ltb Z.compare] in Hx.
  destruct Hx as (p & Hp & _ & Hlen).
  exists t, p. split; [exact Ht|]. split; [exact Hp | exact Hlen].
Defined.

Lemma safety_points_Throw (d : list (string * list vec3)) (key : string)
  (e : error) :
  coords.safety_points d key = Throw e ->
  e = KeyError key /\ forall pts, ~ In (key, pts) d.
Proof.
  induction d as [|[k pts] d IH]; simpl; intros Ht.
  - injection Ht as <-. split; [reflexivity | intros pts []].
  - destruct (String.eqb_spec k key) as [Heq|Hne]; [discriminate|].
    destruct (IH Ht) as (He & Hnot). split; [exact He|].
    intros pts' [Hin|Hin]; [injection Hin as Hk _; contradiction|].
    exact (Hnot pts' Hin).
Qed.

(** X16. With the geofence file loaded, [export_mission_qgc] raises in
    five cases only: the trajectory has no point of
    interest ([AttributeError] on [lat]); it has no landing site
    ([AttributeError] on [alt]); a direction of safety way points was asked
    that the file does not have ([KeyError]); the geodetic coordinates were
    not computed ([AttributeError] on [tolist]); the trajectory has no points
    or [n_repeat] is not positive ([IndexError]). *)
Theorem export_mission_qgc_raises {F : Type} (t : DroneTrajectory.t)
  (move_speed scan_speed : R) (n_repeat : Z) (sw : option string)
  (fence add_rth : bool) (data : coords.geofence_file F) (e : error) :
  trajectory_io.export_mission_qgc t move_speed scan_speed n_repeat sw fence
                                   add_rth (Return data) = Throw e ->
  (DroneTrajectory.poi t = None /\
   e = Builtin (AttributeError "'NoneType' object has no attribute 'lat'")) \/
  (DroneTrajectory.landing_site t = None /\
   e = Builtin (AttributeError "'NoneType' object has no attribute 'alt'")) \/
  (exists key,
     py.truthy sw = Some key /\
     (forall pts, ~ In (key, pts) (coords.safety_waypoints data)) /\
     e = KeyError key) \/
  (DroneTrajectory.geodetic t = None /\
   e = Builtin (AttributeError "'NoneType' object has no attribute 'tolist'")) \/
  (exists rows,
     DroneTrajectory.geodetic t = Some rows /\
     (rows = [] \/ (n_repeat <= 0)%Z) /\
     e = IndexError "list index out of range").
Proof.
  intros He.
  destruct (DroneTrajectory.poi t) as [poi|] eqn:Hpoi.
  2:{ left. unfold trajectory_io.export_mission_qgc in He.
      rewrite Hpoi in He. injection He as <-. split; reflexivity. }
  destruct (DroneTrajectory.landing_site t) as [ls|] eqn:Hls.
  2:{ right; left. unfold trajectory_io.export_mission_qgc in He.
      rewrite Hpoi, Hls in He. injection He as <-. split; reflexivity. }
  assert (Hsafety :
            (exists safety,
               match py.truthy sw with
               | Some key =>
                   coords.safety_points
                     (coords.safety_waypoints data) key = Return safety
               | None => safety = []
               end) \/
            (exists key e',
               py.truthy sw = Some key /\
               coords.safety_points
                 (coords.safety_waypoints data) key = Throw e')).
  { destruct (py.truthy sw) as [key|]; [|left; exists []; reflexivity].
    destruct (coords.safety_points
                (coords.safety_waypoints data) key) as [safety|e']
      eqn:Hk.
    - left. exists safety. reflexivity.
    - right. exists key, e'. split; [reflexivity | exact Hk]. }
  destruct Hsafety as [(safety & Hsafety) | (key & e' & Hsw & Hk)].
  - destruct (DroneTrajectory.geodetic t) as [rows|] eqn:Hrows.
    + do 4 right. exists rows.
      rewrite (export_mission_qgc_eq t move_speed scan_speed n_repeat sw fence
                 add_rth data poi ls rows safety Hpoi Hls Hrows Hsafety) in He.
      destruct (trajectory_io.arc_repetitions rows n_repeat) as [|first rest]
        eqn:Hpath; [|discriminate].
      injection He as <-. split; [reflexivity|]. split; [|reflexivity].
      apply arc_repetitions_nil, Hpath.
    + do 3 right; left. unfold trajectory_io.export_mission_qgc in He.
      rewrite Hpoi, Hls, Hrows in He. cbn [py.attr obind] in He.
      destruct (py.truthy sw) as [key|].
      * rewrite Hsafety in He. injection He as <-. split; reflexivity.
      * injection He as <-. split; reflexivity.
  - do 2 right; left. exists key.
    unfold trajectory_io.export_mission_qgc in He.
    rewrite Hpoi, Hls, Hsw in He. cbn [py.attr obind] in He.
    rewrite Hk in He. injection He as <-.
    destruct (safety_points_Throw _ _ _ Hk) as (-> & Hnot).
    split; [exact Hsw|]. split; [exact Hnot | reflexivity].
Qed.

Lemma export_mission_qgc_raises_witness :
  exists rows,
    DroneTrajectory.geodetic Example.traj_geo = Some rows /\
    (rows = [] \/ (0 <= 0)%Z).
Proof.
  destruct (export_mission_qgc_raises Example.traj_geo 5 1 0 (Some "south")
              true true Example.geofence_data
              (IndexError "list index out of range") eq_refl)
    as [(_ & He) | [(_ & He) | [(key & _ & _ & He)
        | [(_ & He) | (rows & Hrows & Hc & _)]]]];
    try discriminate He.
  exists rows. split; [exact Hrows|]. exact Hc.
Defined.

(** ** The Mission Planner text *)

Lemma append_assoc (s1 s2 s3 : string) :
  ((s1 ++ s2) ++ s3 = s1 ++ (s2 ++ s3))%string.
Proof. induction s1 as [|c s1 IH]; simpl; [reflexivity | now rewrite IH]. Qed.

Lemma append_nil_r (s : string) : (s ++ "" = s)%string.
Proof. induction s as [|c s IH]; simpl; [reflexivity | now rewrite IH]. Qed.

Lemma join_app (l1 l2 : list string) :
  join (l1 ++ l2) = (join l1 ++ join l2)%string.
Proof.
  induction l1 as [|x l1 IH]; [reflexivity|].
  simpl. now rewrite IH, append_assoc.
Qed.


Lemma emit_numbered (fs : list (Z -> string)) (f : Z -> string) :
  trajectory_io.emit (numbered_text fs) f = numbered_text (fs ++ [f]).
Proof.
  unfold trajectory_io.emit, numbered_text. cbn [fst snd].
  rewrite number_from_app, join_app, length_app, append_assoc.
  cbn [number_from join fold_right List.length]. rewrite append_nil_r.
  f_equal. simpl List.length. lia.
Qed.








Lemma switch_pois_numbered (format_f : nat -> R -> string) (n : nat)
  (ls poi1 : Geodetic.t) (fs : list (Z -> string)) :
  trajectory_io.switch_pois format_f n ls (Some poi1) (numbered_text fs)
  = Return
      (numbered_text
         (fs ++ List.concat
                  (repeat
                     [fun seq => mp.roi format_f seq (Geodetic.lat poi1)
                                        (Geodetic.lon poi1)
                                        (Geodetic.alt poi1 - Geodetic.alt ls)
                                        0 1;
                      fun seq => mp.delay format_f seq 10 0 1;
                      fun seq => mp.roi format_f seq (Geodetic.lat poi1)
                                        (Geodetic.lon poi1)
                                        (Geodetic.alt poi1 - Geodetic.alt ls)
                                        0 1;
                      fun seq => mp.delay format_f seq 10 0 1] n))).
Proof.
  revert fs; induction n as [|n IH]; intros fs.
  - simpl. now rewrite app_nil_r.
  - cbn [trajectory_io.switch_pois py.attr obind].
    rewrite !emit_numbered, IH. cbn [repeat List.concat].
    rewrite <- !app_assoc. reflexivity.
Qed.

(** X18. The test mission that switches between two points of interest
    never reads [poi2]: after the home line, the speed, the climb to 10 m, a
    pause, the look at the ground and a second pause, each of the [n_repeat]
    rounds points the drone at [poi1], pauses, points it at [poi1] again and
    pauses; the mission ends with the return to launch.  The lines are
    numbered from 0. *)
Theorem switching_pois_mission_ignores_poi2 (format_f : nat -> R -> string)
  (ls poi1 : Geodetic.t) (poi2 : option Geodetic.t) (n_repeat : Z) :
  trajectory_io.export_test_mission_mp_switching_pois format_f (Some ls)
    (Some poi1) poi2 n_repeat
  = Return
      (mp.header
       ++ join
            (number_from 0
               ([fun seq => mp.make_item format_f seq 0 3 16 0 0 0 0
                              (Geodetic.lat ls) (Geodetic.lon ls)
                              (Geodetic.alt ls) 1;
                 fun seq => mp.speed format_f seq 1 0 1;
                 fun seq => mp.waypoint format_f seq (Geodetic.lat ls)
                              (Geodetic.lon ls) 10 0 1 None;
                 fun seq => mp.delay format_f seq 10 0 1;
                 fun seq => mp.roi format_f seq (Geodetic.lat ls)
                              (Geodetic.lon ls) 0 0 1;
                 fun seq => mp.delay format_f seq 10 0 1]
                ++ List.concat
                     (repeat
                        [fun seq => mp.roi format_f seq (Geodetic.lat poi1)
                                      (Geodetic.lon poi1)
                                      (Geodetic.alt poi1 - Geodetic.alt ls)
                                      0 1;
                         fun seq => mp.delay format_f seq 10 0 1;
                         fun seq => mp.roi format_f seq (Geodetic.lat poi1)
                                      (Geodetic.lon poi1)
                                      (Geodetic.alt poi1 - Geodetic.alt ls)
                                      0 1;
                         fun seq => mp.delay format_f seq 10 0 1]
                        (Z.to_nat n_repeat))
                ++ [fun seq => mp.rth format_f seq 0 1])))%string.
Proof.
  unfold trajectory_io.export_test_mission_mp_switching_pois.
  cbn [py.attr obind].
  change (mp.header, 0%Z) with (numbered_text []).
  rewrite !emit_numbered, switch_pois_numbered. cbn [obind].
  rewrite emit_numbered. unfold numbered_text. cbn [fst].
  rewrite <- !app_assoc. reflexivity.
Qed.

(** ** The Litchi table *)

Lemma litchi_arc_rows (t : DroneTrajectory.t) (poi ls : Geodetic.t)
  (scan_speed : R) (drone_traj : list (vec3 * R * R))
  (waypoints : list (list (option R))) :
  DroneTrajectory.poi t = Some poi ->
  DroneTrajectory.landing_site t = Some ls ->
  trajectory_io.litchi_arc t scan_speed drone_traj waypoints
  = Return (waypoints ++ map (litchi_arc_row t poi ls scan_speed) drone_traj)%list.
Proof.
  intros Hpoi Hls. revert waypoints.
  induction drone_traj as [|row rest IH]; intros waypoints.
  - simpl. now rewrite app_nil_r.
  - cbn [trajectory_io.litchi_arc]. rewrite Hpoi, Hls. cbn [py.attr obind].
    rewrite IH, <- app_assoc. reflexivity.
Qed.

Lemma concatenate_columns_Return (rows : list vec3) (yaw pitch : list R) :
  List.length yaw = List.length rows ->
  List.length pitch = List.length rows ->
  trajectory_io.concatenate_columns (Some rows) yaw pitch
  = Return (combine (combine rows yaw) pitch) /\
  List.length (combine (combine rows yaw) pitch) = List.length rows.
Proof.
  intros Hy Hp. unfold trajectory_io.concatenate_columns.
  rewrite Hy, Hp, Nat.eqb_refl. split; [reflexivity|].
  rewrite !length_combine, Hy, Hp. lia.
Qed.

(** X19. Litchi export of a trajectory with at least one point that a
    generator derived on a site with a landing site (with no safety way
    points, or with a direction the geofence file knows): the table has one
    row per safety way point followed by one row per point of the repeated
    arc, [|safety points| + n_repeat * (N + (N - 2))] rows in all, [N] being
    [npoints]; it is returned when that number is below 100, and the export
    raises [RuntimeError] as soon as it reaches 100. *)
Theorem litchi_export_row_limit {pm : Pymap3d} {F : Type} (site : Site.t)
  (poi_enu : ENU.t) (t : DroneTrajectory.t) (ls : Geodetic.t)
  (move_speed scan_speed : R) (n_repeat : Z) (sw : option string)
  (data : coords.geofence_file F) (safety : list vec3) :
  derived_on site poi_enu t ->
  Site.landing_site site = Some ls ->
  (0 < DroneTrajectory.npoints t)%Z ->
  match py.truthy sw with
  | Some key =>
      coords.safety_points (coords.safety_waypoints data) key = Return safety
  | None => safety = []
  end ->
  let N := Z.to_nat (DroneTrajectory.npoints t) in
  let total := (List.length safety + Z.to_nat n_repeat * (N + (N - 2)))%nat in
  if (100 <=? total)%nat
  then
    trajectory_io.export_mission_litchi t move_speed scan_speed n_repeat sw
                                        (Return data)
    = Throw (RuntimeError
               "Litchi flightplans can't have more than 100 waypoints!")
  else
    exists poi rows,
      DroneTrajectory.poi t = Some poi /\
      DroneTrajectory.geodetic t = Some rows /\
      trajectory_io.export_mission_litchi t move_speed scan_speed n_repeat sw
                                          (Return data)
      = Return
          (map (litchi_safety_row t poi ls
                  (match py.truthy sw with Some key => key | None => "" end)
                  move_speed (hd 0 (DroneTrajectory.pitch t)))
               safety
           ++ map (litchi_arc_row t poi ls scan_speed)
                  (trajectory_io.arc_repetitions
                     (combine (combine rows (DroneTrajectory.yaw t))
                              (DroneTrajectory.pitch t))
                     n_repeat))%list /\
      List.length
        (map (litchi_safety_row t poi ls
                (match py.truthy sw with Some key => key | None => "" end)
                move_speed (hd 0 (DroneTrajectory.pitch t)))
             safety
         ++ map (litchi_arc_row t poi ls scan_speed)
                (trajectory_io.arc_repetitions
                   (combine (combine rows (DroneTrajectory.yaw t))
                            (DroneTrajectory.pitch t))
                   n_repeat))%list
      = total.
Proof.
  intros (o & g & rows & _ & Hnp & Hyaw & Hpitch & Hgeo & Hlen & _ & _ & Hpoi
          & Hls & _) Hsite Hpos Hsafety N total.
  rewrite Hsite in Hls. rewrite <- Hlen in Hyaw, Hpitch.
  destruct (concatenate_columns_Return rows _ _ Hyaw Hpitch) as (Hcat & Hclen).
  assert (HN : N = List.length rows)
    by (unfold N; rewrite Hnp, Nat2Z.id; symmetry; exact Hlen).
  set (srow := litchi_safety_row t g ls
                 (match py.truthy sw with Some key => key | None => "" end)
                 move_speed (hd 0 (DroneTrajectory.pitch t))).
  set (path := trajectory_io.arc_repetitions
                 (combine (combine rows (DroneTrajectory.yaw t))
                          (DroneTrajectory.pitch t)) n_repeat).
  assert (Htotal : List.length
                     (map srow safety
                      ++ map (litchi_arc_row t g ls scan_speed) path)%list
                   = total).
  { rewrite length_app, !length_map. unfold path, total.
    rewrite arc_repetitions_length, Hclen, HN. reflexivity. }
  assert (Hrun :
    trajectory_io.export_mission_litchi t move_speed scan_speed n_repeat sw
                                        (Return data)
    = if (100 <=? total)%nat
      then Throw (RuntimeError
                    "Litchi flightplans can't have more than 100 waypoints!")
      else Return (map srow safety
                   ++ map (litchi_arc_row t g ls scan_speed) path)%list).
  { unfold trajectory_io.export_mission_litchi.
    assert (Hws :
      match py.truthy sw with
      | Some direction =>
          gimbalpitchangle <~
            trajectory_io.first_entry (DroneTrajectory.pitch t) ;;
          poi <~ py.attr "lat" (DroneTrajectory.poi t) ;;
          landing_site <~ py.attr "alt" (DroneTrajectory.landing_site t) ;;
          safety_points <~
            litchi.litchi_safety_points
              direction move_speed (DroneTrajectory.curveradius t)
              0 1 gimbalpitchangle (-1) 0 0 (Geodetic.lat poi)
              (Geodetic.lon poi)
              (Geodetic.alt poi - Geodetic.alt landing_site) 0 (Return data) ;;
          Return ([] ++ safety_points)%list
      | None => Return []
      end = Return (map srow safety)).
    { unfold srow. destruct (py.truthy sw) as [key|].
      - destruct (DroneTrajectory.pitch t) as [|p0 ps] eqn:Hp.
        + exfalso. simpl in Hpitch. rewrite <- Hpitch in HN. lia.
        + cbn [trajectory_io.first_entry obind hd]. rewrite Hpoi, Hls.
          cbn [py.attr obind]. unfold litchi.litchi_safety_points.
          cbn [obind]. rewrite Hsafety. reflexivity.
      - subst safety. reflexivity. }
    rewrite Hws, Hgeo, Hcat. cbn [obind]. fold path.
    rewrite (litchi_arc_rows t g ls scan_speed path _ Hpoi Hls).
    cbn [obind]. rewrite Htotal. reflexivity. }
  rewrite Hrun. destruct (100 <=? total)%nat; [reflexivity|].
  exists g, rows. repeat split; assumption.
Qed.

Lemma litchi_export_row_limit_witness :
  exists t df,
    TrajectoryPlanner.old_arc_trajectory_202404 (pm := Ideal.pymap3d)
      Example.planner1 Example.poi0 1000 90 10 10 3 = Ok t /\
    trajectory_io.export_mission_litchi t 5 1 2 (Some "south")
                                        (Return Example.geofence_data) = Return df /\
    List.length df = 10%nat.
Proof.
  destruct (sweep_returns (pm := Ideal.pymap3d) Example.planner1 Example.poi0
              90 1000 (10 - 10 / 2) (10 + 10 / 2) 3 None Example.g0)
    as (t & Ht);
    [lia | reflexivity | intros; apply ideal_aer2enu_returns; lra
     | apply ideal_enu2aer_returns
     | intros; apply ideal_enu2geodetic_returns, Rabs_0_le_90 |].
  pose proof (sweep_derived_on (pm := Ideal.pymap3d) _ _ _ _ _ _ _ _ _ Ht)
    as Hd.
  destruct (sweep_Ok (pm := Ideal.pymap3d) _ _ _ _ _ _ _ _ _ Ht)
    as (_ & _ & _ & _ & _ & _ & _ & _ & _ & Hnp & _).
  assert (Hpos : (0 < DroneTrajectory.npoints t)%Z) by (rewrite Hnp; lia).
  pose proof (litchi_export_row_limit (pm := Ideal.pymap3d)
                Example.site1 Example.poi0 t (Geodetic.mk 0 0 10) 5 1 2
                (Some "south") Example.geofence_data [(0, 0, 20); (0, 1, 20)]
                Hd eq_refl Hpos eq_refl)
    as Hx.
  cbv zeta in Hx. rewrite Hnp in Hx.
  change (100 <=? List.length [(0, 0, 20); (0, 1, 20)]
                  + Z.to_nat 2 * (Z.to_nat 3 + (Z.to_nat 3 - 2)))%nat
    with false in Hx.
  destruct Hx as (poi & rows & _ & _ & Hdf & Hlen).
  eexists t, _. split; [exact Ht|]. split; [exact Hdf | exact Hlen].
Defined.

(** ** ENU arrays back to geodetic *)

Lemma enu_to_geodetic_ndarray_eq {pm : Pymap3d} (self : Site.t)
  (o : Geodetic.t) (rs : list vec3) :
  Site.origin self = Some o ->
  Site.enu_to_geodetic_ndarray self (np.of_rows rs)
  = Site.lift
      (rows <- mapM (fun p => enu2geodetic (c0 p) (c1 p) (c2 p)
                                (Geodetic.lat o) (Geodetic.lon o)
                                (Geodetic.alt o)) rs ;;
       Ok (np.of_rows rows)).
Proof.
  intros Ho. unfold Site.enu_to_geodetic_ndarray, enu2geodetic_v.
  rewrite Ho. cbn [np.ndim np.of_rows np.shape List.length Nat.eqb nth andb].
  rewrite rows_of_rows, column_stack_unstack.
  destruct (mapM _ rs) as [rows|ex]; [|reflexivity].
  cbn [bind unstack]. rewrite column_stack_unstack. reflexivity.
Qed.

(** X20. On an (N,3) array [enu_to_geodetic] agrees with itself on single
    points: when the array call returns, the result is an (N,3) array whose
    row [k] holds the latitude, longitude and altitude that the call on the
    [ENU] object of row [k] returns. *)
Theorem enu_to_geodetic_array_rowwise {pm : Pymap3d} (self : Site.t)
  (rs : list vec3) (out : np.ndarray) :
  Site.enu_to_geodetic_ndarray self (np.of_rows rs) = Return out ->
  np.shape out = [List.length rs; 3%nat] /\
  forall k, (k < List.length rs)%nat ->
    let p := nth k rs (0, 0, 0) in
    let q := nth k (np.rows out) (0, 0, 0) in
    Site.enu_to_geodetic self (ENU.mk (c0 p) (c1 p) (c2 p))
    = Ok (Geodetic.mk (c0 q) (c1 q) (c2 q)).
Proof.
  intros Hout.
  destruct (Site.origin self) as [o|] eqn:Ho;
    [|unfold Site.enu_to_geodetic_ndarray in Hout; rewrite Ho in Hout;
      discriminate].
  rewrite (enu_to_geodetic_ndarray_eq self o rs Ho) in Hout.
  destruct (mapM _ rs) as [rows|ex] eqn:Hrows; [|discriminate].
  cbn [bind Site.lift] in Hout. injection Hout as <-.
  split.
  - cbn [np.of_rows np.shape]. now rewrite (mapM_length _ _ _ Hrows).
  - intros k Hk p q. unfold Site.enu_to_geodetic. rewrite Ho.
    cbn [ENU.e ENU.n ENU.u].
    pose proof (mapM_nth _ _ _ (0, 0, 0) (0, 0, 0) k Hrows Hk) as Hnth.
    cbv beta in Hnth. fold p in Hnth. rewrite Hnth.
    unfold q. rewrite rows_of_rows.
    destruct (nth k rows (0, 0, 0)) as [[la lo] al]. reflexivity.
Qed.

Lemma enu_to_geodetic_array_rowwise_witness :
  exists out,
    Site.enu_to_geodetic_ndarray (pm := Ideal.pymap3d) Example.site0
      (np.of_rows [(0, 0, 0)]) = Return out /\
    np.shape out = [1%nat; 3%nat].
Proof.
  destruct (is_ok_true _ (ideal_enu2geodetic_returns 0 0 0 0 0 0 Rabs_0_le_90))
    as ([[la lo] al] & Hconv).
  assert (Hout :
    Site.enu_to_geodetic_ndarray (pm := Ideal.pymap3d) Example.site0
      (np.of_rows [(0, 0, 0)]) = Return (np.of_rows [(la, lo, al)])).
  { rewrite (enu_to_geodetic_ndarray_eq (pm := Ideal.pymap3d) Example.site0
               Example.g0 [(0, 0, 0)] eq_refl).
    cbn [mapM c0 c1 c2 fst snd Geodetic.lat Geodetic.lon Geodetic.alt
         Example.g0].
    change (@enu2geodetic Ideal.pymap3d 0 0 0 0 0 0)
      with (Ideal.enu2geodetic 0 0 0 0 0 0).
    rewrite Hconv. reflexivity. }
  exists (np.of_rows [(la, lo, al)]). split; [exact Hout|].
  exact (proj1 (enu_to_geodetic_array_rowwise (pm := Ideal.pymap3d)
                  Example.site0 [(0, 0, 0)] _ Hout)).
Defined.

(** X21. The branch of [enu_to_geodetic] for a single point given as an
    array is never taken: with the origin set, an array that is not
    two-dimensional with three columns is rejected, with [IndexError] when it
    has no dimension, since its shape is then indexed, and with [ValueError]
    otherwise, also when it is the one-dimensional array [e, n, u]. *)
Theorem enu_to_geodetic_rejects_other_shapes {pm : Pymap3d} (self : Site.t)
  (o : Geodetic.t) (enu : np.ndarray) :
  Site.origin self = Some o ->
  ((np.ndim enu =? 2)%nat && (nth 1 (np.shape enu) 0 =? 3)%nat)%bool = false ->
  Site.enu_to_geodetic_ndarray self enu
  = if (np.ndim enu =? 0)%nat
    then Throw (IndexError "tuple index out of range")
    else Throw (Builtin (ValueError
                           "NumPy input must have shape (N,3) as (e, n, u).")).
Proof.
  intros Ho Hshape. unfold Site.enu_to_geodetic_ndarray.
  rewrite Ho, Hshape. unfold np.ndim.
  destruct (np.shape enu) as [|s0 rest]; reflexivity.
Qed.

Lemma enu_to_geodetic_rejects_other_shapes_witness :
  Site.enu_to_geodetic_ndarray (pm := Ideal.pymap3d) Example.site0
    (np.mk_ndarray [3%nat] [1; 2; 3])
  = Throw (Builtin (ValueError
                      "NumPy input must have shape (N,3) as (e, n, u).")).
Proof.
  exact (enu_to_geodetic_rejects_other_shapes (pm := Ideal.pymap3d)
           Example.site0 Example.g0 (np.mk_ndarray [3%nat] [1; 2; 3])
           eq_refl eq_refl).
Defined.

(** X22. [compute_geodetic(site)] and [site.enu_to_geodetic] on the
    trajectory's ENU array are the same conversion: when the first returns,
    the array it stores in [geodetic] is what the second returns, and when
    the first raises so does the second. *)
Theorem compute_geodetic_is_site_conversion {pm : Pymap3d}
  (t : DroneTrajectory.t) (site : Site.t) :
  match DroneTrajectory.compute_geodetic t (inl site) with
  | Ok t' =>
      exists rows,
        DroneTrajectory.geodetic t' = Some rows /\
        Site.enu_to_geodetic_ndarray site (np.of_rows (DroneTrajectory.enu t))
        = Return (np.of_rows rows)
  | Raise _ =>
      exists e,
        Site.enu_to_geodetic_ndarray site (np.of_rows (DroneTrajectory.enu t))
        = Throw e
  end.
Proof.
  rewrite compute_geodetic_eq.
  destruct (Site.origin site) as [o|] eqn:Ho.
  - rewrite (enu_to_geodetic_ndarray_eq site o _ Ho). cbn [bind].
    destruct (mapM _ (DroneTrajectory.enu t)) as [rows|ex].
    + cbn [bind Site.lift]. exists rows. split; reflexivity.
    + cbn [bind Site.lift]. eexists; reflexivity.
  - cbn [bind]. unfold Site.enu_to_geodetic_ndarray. rewrite Ho.
    eexists; reflexivity.
Qed.
